(** * Gesture engine of tangram-ng: [TouchHandler]

    A shallow embedding of [core/src/util/touchHandler.{h,cpp}] (the revision
    with DPI-aware thresholds, panning modes and gesture enable flags) and
    the verification of the properties its specification states.

    Conventions of the embedding.
    - A C++ [float] is an exact rational ([Q]): rounding and overflow are
      outside the model.  The swipes of [dualPointerGuess] are the
      exception: they are quotients by the DPI, which [setDpi] takes
      unchecked, zero too, and they are modelled with the infinities and
      NaN of the IEEE arithmetic ([xfloat]).  Every other quotient is a
      [Qdiv], which is [0] for a zero divisor.
    - [std::sqrt], [std::atan2], [std::log2] and the trigonometry behind
      [glm::rotate] are parameters ([MathLib]); every theorem holds for any
      choice of them.
    - [View] and [Map] are not part of the gesture engine: the view is an
      abstract state with the accessors and mutators the engine calls
      ([ViewOps]).  Every call that leaves the engine (view mutators,
      listener callbacks, [Map::handleDoubleTapGesture]) is recorded, in
      order, in the trace of the computation.
    - [std::chrono::steady_clock] time points are integers counting clock
      ticks (nanoseconds); the clock readings an event handler takes are
      arguments of the handler. *)

From Stdlib Require Import ZArith QArith Qabs Qminmax Qround Lqa Lia List Bool.
Import ListNotations.
Local Open Scope Q_scope.

(** ** Floats and comparisons *)

Abbreviation float := Q (only parsing).

Definition Qltb (a b : Q) : bool := negb (Qle_bool b a).
Definition Qgtb (a b : Q) : bool := Qltb b a.
Definition Qleb (a b : Q) : bool := Qle_bool a b.

(** [std::pow(v, 2)] *)
Definition pow2 (v : float) : float := v * v.

(** [std::abs], [std::min], [std::max] on floats, [glm::clamp] *)
Definition std_abs (v : float) : float := Qabs v.
Definition std_min (a b : float) : float := if Qltb b a then b else a.
Definition std_max (a b : float) : float := if Qltb a b then b else a.
Definition glm_clamp (v lo hi : float) : float := std_min (std_max v lo) hi.

(** ** [glm::vec2] *)

Module glm.
Record vec2 : Type := mk { x : float; y : float }.
Definition add (a b : vec2) : vec2 := mk (x a + x b) (y a + y b).
Definition sub (a b : vec2) : vec2 := mk (x a - x b) (y a - y b).
(** scalar * vector *)
Definition scale (k : float) (a : vec2) : vec2 := mk (k * x a) (k * y a).
(** vector * scalar *)
Definition muls (a : vec2) (k : float) : vec2 := mk (x a * k) (y a * k).
(** vector / scalar *)
Definition divs (a : vec2) (k : float) : vec2 := mk (x a / k) (y a / k).
(** squared Euclidean length, [dot(v, v)] *)
Definition dot2 (a : vec2) : float := x a * x a + y a * y a.
End glm.

(** ** Floats that need not be finite

    What the IEEE arithmetic of a C++ [float] yields where the engine
    divides by the DPI: a quotient by zero is an infinity or NaN, and these
    values go through the sums, the products, the square roots and the
    comparisons that follow as IEEE 754 has them.  A zero rational stands
    for [+0.0f]. *)

Inductive xfloat : Type :=
| Finite (q : float)
| PosInf
| NegInf
| NaN.

Module ieee.

(** the sign of a value that is not NaN *)
Definition sign (a : xfloat) : comparison :=
  match a with
  | Finite q => q ?= 0
  | PosInf => Gt
  | NegInf => Lt
  | NaN => Eq
  end.

(** [a / b] of two finite floats *)
Definition div (a b : float) : xfloat :=
  if Qeq_bool b 0 then
    match a ?= 0 with
    | Gt => PosInf
    | Lt => NegInf
    | Eq => NaN
    end
  else Finite (a / b).

(** [a * b]: a zero times an infinity is NaN *)
Definition mul (a b : xfloat) : xfloat :=
  match a, b with
  | Finite p, Finite q => Finite (p * q)
  | NaN, _ | _, NaN => NaN
  | _, _ =>
      match sign a, sign b with
      | Eq, _ | _, Eq => NaN
      | Gt, Gt | Lt, Lt => PosInf
      | _, _ => NegInf
      end
  end.

(** [a + b]: the sum of the two infinities is NaN *)
Definition add (a b : xfloat) : xfloat :=
  match a, b with
  | Finite p, Finite q => Finite (p + q)
  | NaN, _ | _, NaN => NaN
  | PosInf, NegInf | NegInf, PosInf => NaN
  | PosInf, _ | _, PosInf => PosInf
  | NegInf, _ | _, NegInf => NegInf
  end.

(** [a > b] and [a <= b] against a finite float: a comparison with NaN is
    false *)
Definition gtb (a : xfloat) (b : float) : bool :=
  match a with
  | Finite q => Qgtb q b
  | PosInf => true
  | NegInf | NaN => false
  end.

Definition leb (a : xfloat) (b : float) : bool :=
  match a with
  | Finite q => Qleb q b
  | NegInf => true
  | PosInf | NaN => false
  end.

Definition gt (a : xfloat) (b : float) : Prop := gtb a b = true.
Definition le (a : xfloat) (b : float) : Prop := leb a b = true.

(** a [glm::vec2] whose components need not be finite *)
Record vec2 : Type := mk { x : xfloat; y : xfloat }.

Definition finite (a : glm.vec2) : vec2 := mk (Finite (glm.x a)) (Finite (glm.y a)).

(** vector + vector *)
Definition addv (a b : vec2) : vec2 := mk (add (x a) (x b)) (add (y a) (y b)).

(** a finite vector * scalar *)
Definition mulv (a : glm.vec2) (k : xfloat) : vec2 :=
  mk (mul (Finite (glm.x a)) k) (mul (Finite (glm.y a)) k).

End ieee.

(** ** The math library the engine calls *)

Record MathLib : Type := {
  std_sqrt : float -> float;
  std_atan2 : float -> float -> float;   (* atan2(y, x) *)
  std_log2 : float -> float;
  std_cos : float -> float;
  std_sin : float -> float;
  M_PI : float
}.

(** ** Screen positions, actions, modes *)

Record ScreenPos : Type := mkScreenPos { x : float; y : float }.

Inductive TouchAction : Type :=
| POINTER_1_DOWN | POINTER_2_DOWN | MOVE | CANCEL | POINTER_1_UP | POINTER_2_UP.

Inductive GestureMode : Type :=
| SINGLE_POINTER_CLICK_GUESS
| DUAL_POINTER_CLICK_GUESS
| SINGLE_POINTER_PAN
| SINGLE_POINTER_ZOOM
| DUAL_POINTER_GUESS
| DUAL_POINTER_TILT
| DUAL_POINTER_ROTATE
| DUAL_POINTER_SCALE
| DUAL_POINTER_FREE.

Inductive PanningMode : Type := FREE | STICKY | STICKY_FINAL.

Inductive ClickType : Type := SINGLE | LONG | DOUBLE | DUAL.

Definition GestureMode_eqb (a b : GestureMode) : bool :=
  match a, b with
  | SINGLE_POINTER_CLICK_GUESS, SINGLE_POINTER_CLICK_GUESS
  | DUAL_POINTER_CLICK_GUESS, DUAL_POINTER_CLICK_GUESS
  | SINGLE_POINTER_PAN, SINGLE_POINTER_PAN
  | SINGLE_POINTER_ZOOM, SINGLE_POINTER_ZOOM
  | DUAL_POINTER_GUESS, DUAL_POINTER_GUESS
  | DUAL_POINTER_TILT, DUAL_POINTER_TILT
  | DUAL_POINTER_ROTATE, DUAL_POINTER_ROTATE
  | DUAL_POINTER_SCALE, DUAL_POINTER_SCALE
  | DUAL_POINTER_FREE, DUAL_POINTER_FREE => true
  | _, _ => false
  end.

Definition PanningMode_eqb (a b : PanningMode) : bool :=
  match a, b with
  | FREE, FREE | STICKY, STICKY | STICKY_FINAL, STICKY_FINAL => true
  | _, _ => false
  end.

(** ** Time *)

Abbreviation time_point := Z (only parsing).
Abbreviation duration := Z (only parsing).

(** ticks of [steady_clock] per millisecond (a nanosecond clock) *)
Definition ticks_per_ms : Z := 1000000.

(** [std::chrono::duration_cast<std::chrono::milliseconds>]: truncation
    towards zero; the result is a count of milliseconds. *)
Definition duration_cast_ms (d : duration) : Z := Z.quot d ticks_per_ms.

(** ** Constants of touchHandler.cpp and touchHandler.h *)

Definition DAMPING_PAN : float := 4.
Definition DAMPING_ZOOM : float := 6.
Definition THRESHOLD_STOP_PAN : float := 24.
Definition THRESHOLD_STOP_ZOOM : float := 3 # 10.
Definition MAX_PITCH_FOR_PAN_LIMITING : float := 75.
Definition SINGLE_POINTER_ZOOM_SENSITIVITY : float := 5 # 1000.

Definition ROTATION_SCALING_FACTOR_THRESHOLD_STICKY : float := 3 # 10.
Definition DUAL_STOP_HOLD_DURATION : Z := 500.     (* milliseconds *)
Definition DUAL_KINETIC_HOLD_DURATION : Z := 200.  (* milliseconds *)
Definition DOUBLE_TAP_TIMEOUT : Z := 300.          (* milliseconds *)
Definition LONG_PRESS_TIMEOUT : Z := 500.          (* milliseconds *)
Definition TAP_MOVEMENT_THRESHOLD_INCHES : float := 1 # 10.
Definition GUESS_MAX_DELTA_Y_INCHES : float := 1.
Definition GUESS_MIN_SWIPE_LENGTH_SAME_INCHES : float := 1 # 10.
Definition GUESS_MIN_SWIPE_LENGTH_OPPOSITE_INCHES : float := 75 # 1000.
Definition DEFAULT_DPI : float := 160.

(** ** Listeners *)

(** [MapClickListener::onMapClick(type, x, y)] *)
Definition MapClickListener : Type := ClickType -> float -> float -> bool.

(** [MapInteractionListener::onMapInteraction(isPanning, isZooming,
    isRotating, isTilting)] *)
Definition MapInteractionListener : Type := bool -> bool -> bool -> bool -> bool.

(** ** The view interface *)

Record ViewOps (V : Type) : Type := {
  pixelsPerMeter : V -> float;
  pixelScale : V -> float;
  getZoom : V -> float;
  getPitch : V -> float;
  getMaxPitch : V -> float;
  getHeight : V -> float;
  (* the elevation [screenPositionToLngLat(x, y, &elev)] stores in [elev] *)
  screenPositionToLngLat : V -> float -> float -> float;
  screenToGroundPlane : V -> float -> float -> float -> glm.vec2;
  translate : V -> float -> float -> V;
  zoom : V -> float -> V;
  yaw : V -> float -> V;
  pitch : V -> float -> V;
  (* what [Map::handleDoubleTapGesture(x, y, zoomOut)] does to the view *)
  handleDoubleTapGesture : V -> float -> float -> bool -> V
}.

Arguments pixelsPerMeter {V}.
Arguments pixelScale {V}.
Arguments getZoom {V}.
Arguments getPitch {V}.
Arguments getMaxPitch {V}.
Arguments getHeight {V}.
Arguments screenPositionToLngLat {V}.
Arguments screenToGroundPlane {V}.
Arguments translate {V}.
Arguments zoom {V}.
Arguments yaw {V}.
Arguments pitch {V}.
Arguments handleDoubleTapGesture {V}.

(** Calls that leave the engine; a listener callback is recorded with the
    answer it returned. *)
Inductive Call : Type :=
| ViewTranslate (dx dy : float)
| ViewZoom (dz : float)
| ViewYaw (rad : float)
| ViewPitch (rad : float)
| OnMapClick (type : ClickType) (cx cy : float) (answer : bool)
| OnMapInteraction (isPanning isZooming isRotating isTilting : bool) (answer : bool)
| MapHandleDoubleTapGesture (cx cy : float) (zoomOut : bool).

(** the interaction listener returned [true] *)
Definition isInteractionConsumed (c : Call) : bool :=
  match c with
  | OnMapInteraction _ _ _ _ answer => answer
  | _ => false
  end.

(** ** The engine state

    The data members of [class TouchHandler], the view reference apart
    (the view is threaded beside the engine).  [m_pointersDown] is a C++
    [int]; the engine only ever adds or subtracts one under a clamp, and
    the model keeps it an unbounded integer. *)

Record TouchHandler : Type := mkTouchHandler {
  m_map : bool;  (* the [Map] pointer is not null *)
  m_dpi : float;
  m_panningMode : PanningMode;
  m_mapClickListener : option MapClickListener;
  m_mapInteractionListener : option MapInteractionListener;
  m_zoomEnabled : bool;
  m_panEnabled : bool;
  m_doubleTapEnabled : bool;
  m_doubleTapDragEnabled : bool;
  m_tiltEnabled : bool;
  m_rotateEnabled : bool;
  m_gestureMode : GestureMode;
  m_pointersDown : Z;
  m_noDualPointerYet : bool;
  m_interactionConsumed : bool;
  m_prevScreenPos1 : ScreenPos;
  m_prevScreenPos2 : ScreenPos;
  m_firstTapPos : ScreenPos;
  m_doubleTapStartPos : ScreenPos;
  m_swipe1 : ieee.vec2;
  m_swipe2 : ieee.vec2;
  m_dualPointerReleaseTime : time_point;
  m_firstTapTime : time_point;
  m_pointer1DownTime : time_point;
  m_singlePointerZoomStartZoom : float;
  m_velocityPan : glm.vec2;
  m_velocityZoom : float
}.

(** Assignment to one data member. *)

Definition set_m_map (v : bool) (th : TouchHandler) : TouchHandler :=
  {| m_map := v; m_dpi := m_dpi th; m_panningMode := m_panningMode th;
     m_mapClickListener := m_mapClickListener th;
     m_mapInteractionListener := m_mapInteractionListener th;
     m_zoomEnabled := m_zoomEnabled th; m_panEnabled := m_panEnabled th;
     m_doubleTapEnabled := m_doubleTapEnabled th;
     m_doubleTapDragEnabled := m_doubleTapDragEnabled th; m_tiltEnabled := m_tiltEnabled th;
     m_rotateEnabled := m_rotateEnabled th; m_gestureMode := m_gestureMode th;
     m_pointersDown := m_pointersDown th; m_noDualPointerYet := m_noDualPointerYet th;
     m_interactionConsumed := m_interactionConsumed th;
     m_prevScreenPos1 := m_prevScreenPos1 th; m_prevScreenPos2 := m_prevScreenPos2 th;
     m_firstTapPos := m_firstTapPos th; m_doubleTapStartPos := m_doubleTapStartPos th;
     m_swipe1 := m_swipe1 th; m_swipe2 := m_swipe2 th;
     m_dualPointerReleaseTime := m_dualPointerReleaseTime th;
     m_firstTapTime := m_firstTapTime th; m_pointer1DownTime := m_pointer1DownTime th;
     m_singlePointerZoomStartZoom := m_singlePointerZoomStartZoom th;
     m_velocityPan := m_velocityPan th; m_velocityZoom := m_velocityZoom th |}.

Definition set_m_dpi (v : float) (th : TouchHandler) : TouchHandler :=
  {| m_map := m_map th; m_dpi := v; m_panningMode := m_panningMode th;
     m_mapClickListener := m_mapClickListener th;
     m_mapInteractionListener := m_mapInteractionListener th;
     m_zoomEnabled := m_zoomEnabled th; m_panEnabled := m_panEnabled th;
     m_doubleTapEnabled := m_doubleTapEnabled th;
     m_doubleTapDragEnabled := m_doubleTapDragEnabled th; m_tiltEnabled := m_tiltEnabled th;
     m_rotateEnabled := m_rotateEnabled th; m_gestureMode := m_gestureMode th;
     m_pointersDown := m_pointersDown th; m_noDualPointerYet := m_noDualPointerYet th;
     m_interactionConsumed := m_interactionConsumed th;
     m_prevScreenPos1 := m_prevScreenPos1 th; m_prevScreenPos2 := m_prevScreenPos2 th;
     m_firstTapPos := m_firstTapPos th; m_doubleTapStartPos := m_doubleTapStartPos th;
     m_swipe1 := m_swipe1 th; m_swipe2 := m_swipe2 th;
     m_dualPointerReleaseTime := m_dualPointerReleaseTime th;
     m_firstTapTime := m_firstTapTime th; m_pointer1DownTime := m_pointer1DownTime th;
     m_singlePointerZoomStartZoom := m_singlePointerZoomStartZoom th;
     m_velocityPan := m_velocityPan th; m_velocityZoom := m_velocityZoom th |}.

Definition set_m_panningMode (v : PanningMode) (th : TouchHandler) : TouchHandler :=
  {| m_map := m_map th; m_dpi := m_dpi th; m_panningMode := v;
     m_mapClickListener := m_mapClickListener th;
     m_mapInteractionListener := m_mapInteractionListener th;
     m_zoomEnabled := m_zoomEnabled th; m_panEnabled := m_panEnabled th;
     m_doubleTapEnabled := m_doubleTapEnabled th;
     m_doubleTapDragEnabled := m_doubleTapDragEnabled th; m_tiltEnabled := m_tiltEnabled th;
     m_rotateEnabled := m_rotateEnabled th; m_gestureMode := m_gestureMode th;
     m_pointersDown := m_pointersDown th; m_noDualPointerYet := m_noDualPointerYet th;
     m_interactionConsumed := m_interactionConsumed th;
     m_prevScreenPos1 := m_prevScreenPos1 th; m_prevScreenPos2 := m_prevScreenPos2 th;
     m_firstTapPos := m_firstTapPos th; m_doubleTapStartPos := m_doubleTapStartPos th;
     m_swipe1 := m_swipe1 th; m_swipe2 := m_swipe2 th;
     m_dualPointerReleaseTime := m_dualPointerReleaseTime th;
     m_firstTapTime := m_firstTapTime th; m_pointer1DownTime := m_pointer1DownTime th;
     m_singlePointerZoomStartZoom := m_singlePointerZoomStartZoom th;
     m_velocityPan := m_velocityPan th; m_velocityZoom := m_velocityZoom th |}.

Definition set_m_mapClickListener (v : option MapClickListener) (th : TouchHandler) : TouchHandler :=
  {| m_map := m_map th; m_dpi := m_dpi th; m_panningMode := m_panningMode th;
     m_mapClickListener := v; m_mapInteractionListener := m_mapInteractionListener th;
     m_zoomEnabled := m_zoomEnabled th; m_panEnabled := m_panEnabled th;
     m_doubleTapEnabled := m_doubleTapEnabled th;
     m_doubleTapDragEnabled := m_doubleTapDragEnabled th; m_tiltEnabled := m_tiltEnabled th;
     m_rotateEnabled := m_rotateEnabled th; m_gestureMode := m_gestureMode th;
     m_pointersDown := m_pointersDown th; m_noDualPointerYet := m_noDualPointerYet th;
     m_interactionConsumed := m_interactionConsumed th;
     m_prevScreenPos1 := m_prevScreenPos1 th; m_prevScreenPos2 := m_prevScreenPos2 th;
     m_firstTapPos := m_firstTapPos th; m_doubleTapStartPos := m_doubleTapStartPos th;
     m_swipe1 := m_swipe1 th; m_swipe2 := m_swipe2 th;
     m_dualPointerReleaseTime := m_dualPointerReleaseTime th;
     m_firstTapTime := m_firstTapTime th; m_pointer1DownTime := m_pointer1DownTime th;
     m_singlePointerZoomStartZoom := m_singlePointerZoomStartZoom th;
     m_velocityPan := m_velocityPan th; m_velocityZoom := m_velocityZoom th |}.

Definition set_m_mapInteractionListener (v : option MapInteractionListener) (th : TouchHandler) : TouchHandler :=
  {| m_map := m_map th; m_dpi := m_dpi th; m_panningMode := m_panningMode th;
     m_mapClickListener := m_mapClickListener th; m_mapInteractionListener := v;
     m_zoomEnabled := m_zoomEnabled th; m_panEnabled := m_panEnabled th;
     m_doubleTapEnabled := m_doubleTapEnabled th;
     m_doubleTapDragEnabled := m_doubleTapDragEnabled th; m_tiltEnabled := m_tiltEnabled th;
     m_rotateEnabled := m_rotateEnabled th; m_gestureMode := m_gestureMode th;
     m_pointersDown := m_pointersDown th; m_noDualPointerYet := m_noDualPointerYet th;
     m_interactionConsumed := m_interactionConsumed th;
     m_prevScreenPos1 := m_prevScreenPos1 th; m_prevScreenPos2 := m_prevScreenPos2 th;
     m_firstTapPos := m_firstTapPos th; m_doubleTapStartPos := m_doubleTapStartPos th;
     m_swipe1 := m_swipe1 th; m_swipe2 := m_swipe2 th;
     m_dualPointerReleaseTime := m_dualPointerReleaseTime th;
     m_firstTapTime := m_firstTapTime th; m_pointer1DownTime := m_pointer1DownTime th;
     m_singlePointerZoomStartZoom := m_singlePointerZoomStartZoom th;
     m_velocityPan := m_velocityPan th; m_velocityZoom := m_velocityZoom th |}.

Definition set_m_zoomEnabled (v : bool) (th : TouchHandler) : TouchHandler :=
  {| m_map := m_map th; m_dpi := m_dpi th; m_panningMode := m_panningMode th;
     m_mapClickListener := m_mapClickListener th;
     m_mapInteractionListener := m_mapInteractionListener th; m_zoomEnabled := v;
     m_panEnabled := m_panEnabled th; m_doubleTapEnabled := m_doubleTapEnabled th;
     m_doubleTapDragEnabled := m_doubleTapDragEnabled th; m_tiltEnabled := m_tiltEnabled th;
     m_rotateEnabled := m_rotateEnabled th; m_gestureMode := m_gestureMode th;
     m_pointersDown := m_pointersDown th; m_noDualPointerYet := m_noDualPointerYet th;
     m_interactionConsumed := m_interactionConsumed th;
     m_prevScreenPos1 := m_prevScreenPos1 th; m_prevScreenPos2 := m_prevScreenPos2 th;
     m_firstTapPos := m_firstTapPos th; m_doubleTapStartPos := m_doubleTapStartPos th;
     m_swipe1 := m_swipe1 th; m_swipe2 := m_swipe2 th;
     m_dualPointerReleaseTime := m_dualPointerReleaseTime th;
     m_firstTapTime := m_firstTapTime th; m_pointer1DownTime := m_pointer1DownTime th;
     m_singlePointerZoomStartZoom := m_singlePointerZoomStartZoom th;
     m_velocityPan := m_velocityPan th; m_velocityZoom := m_velocityZoom th |}.

Definition set_m_panEnabled (v : bool) (th : TouchHandler) : TouchHandler :=
  {| m_map := m_map th; m_dpi := m_dpi th; m_panningMode := m_panningMode th;
     m_mapClickListener := m_mapClickListener th;
     m_mapInteractionListener := m_mapInteractionListener th;
     m_zoomEnabled := m_zoomEnabled th; m_panEnabled := v;
     m_doubleTapEnabled := m_doubleTapEnabled th;
     m_doubleTapDragEnabled := m_doubleTapDragEnabled th; m_tiltEnabled := m_tiltEnabled th;
     m_rotateEnabled := m_rotateEnabled th; m_gestureMode := m_gestureMode th;
     m_pointersDown := m_pointersDown th; m_noDualPointerYet := m_noDualPointerYet th;
     m_interactionConsumed := m_interactionConsumed th;
     m_prevScreenPos1 := m_prevScreenPos1 th; m_prevScreenPos2 := m_prevScreenPos2 th;
     m_firstTapPos := m_firstTapPos th; m_doubleTapStartPos := m_doubleTapStartPos th;
     m_swipe1 := m_swipe1 th; m_swipe2 := m_swipe2 th;
     m_dualPointerReleaseTime := m_dualPointerReleaseTime th;
     m_firstTapTime := m_firstTapTime th; m_pointer1DownTime := m_pointer1DownTime th;
     m_singlePointerZoomStartZoom := m_singlePointerZoomStartZoom th;
     m_velocityPan := m_velocityPan th; m_velocityZoom := m_velocityZoom th |}.

Definition set_m_doubleTapEnabled (v : bool) (th : TouchHandler) : TouchHandler :=
  {| m_map := m_map th; m_dpi := m_dpi th; m_panningMode := m_panningMode th;
     m_mapClickListener := m_mapClickListener th;
     m_mapInteractionListener := m_mapInteractionListener th;
     m_zoomEnabled := m_zoomEnabled th; m_panEnabled := m_panEnabled th;
     m_doubleTapEnabled := v; m_doubleTapDragEnabled := m_doubleTapDragEnabled th;
     m_tiltEnabled := m_tiltEnabled th; m_rotateEnabled := m_rotateEnabled th;
     m_gestureMode := m_gestureMode th; m_pointersDown := m_pointersDown th;
     m_noDualPointerYet := m_noDualPointerYet th;
     m_interactionConsumed := m_interactionConsumed th;
     m_prevScreenPos1 := m_prevScreenPos1 th; m_prevScreenPos2 := m_prevScreenPos2 th;
     m_firstTapPos := m_firstTapPos th; m_doubleTapStartPos := m_doubleTapStartPos th;
     m_swipe1 := m_swipe1 th; m_swipe2 := m_swipe2 th;
     m_dualPointerReleaseTime := m_dualPointerReleaseTime th;
     m_firstTapTime := m_firstTapTime th; m_pointer1DownTime := m_pointer1DownTime th;
     m_singlePointerZoomStartZoom := m_singlePointerZoomStartZoom th;
     m_velocityPan := m_velocityPan th; m_velocityZoom := m_velocityZoom th |}.

Definition set_m_doubleTapDragEnabled (v : bool) (th : TouchHandler) : TouchHandler :=
  {| m_map := m_map th; m_dpi := m_dpi th; m_panningMode := m_panningMode th;
     m_mapClickListener := m_mapClickListener th;
     m_mapInteractionListener := m_mapInteractionListener th;
     m_zoomEnabled := m_zoomEnabled th; m_panEnabled := m_panEnabled th;
     m_doubleTapEnabled := m_doubleTapEnabled th; m_doubleTapDragEnabled := v;
     m_tiltEnabled := m_tiltEnabled th; m_rotateEnabled := m_rotateEnabled th;
     m_gestureMode := m_gestureMode th; m_pointersDown := m_pointersDown th;
     m_noDualPointerYet := m_noDualPointerYet th;
     m_interactionConsumed := m_interactionConsumed th;
     m_prevScreenPos1 := m_prevScreenPos1 th; m_prevScreenPos2 := m_prevScreenPos2 th;
     m_firstTapPos := m_firstTapPos th; m_doubleTapStartPos := m_doubleTapStartPos th;
     m_swipe1 := m_swipe1 th; m_swipe2 := m_swipe2 th;
     m_dualPointerReleaseTime := m_dualPointerReleaseTime th;
     m_firstTapTime := m_firstTapTime th; m_pointer1DownTime := m_pointer1DownTime th;
     m_singlePointerZoomStartZoom := m_singlePointerZoomStartZoom th;
     m_velocityPan := m_velocityPan th; m_velocityZoom := m_velocityZoom th |}.

Definition set_m_tiltEnabled (v : bool) (th : TouchHandler) : TouchHandler :=
  {| m_map := m_map th; m_dpi := m_dpi th; m_panningMode := m_panningMode th;
     m_mapClickListener := m_mapClickListener th;
     m_mapInteractionListener := m_mapInteractionListener th;
     m_zoomEnabled := m_zoomEnabled th; m_panEnabled := m_panEnabled th;
     m_doubleTapEnabled := m_doubleTapEnabled th;
     m_doubleTapDragEnabled := m_doubleTapDragEnabled th; m_tiltEnabled := v;
     m_rotateEnabled := m_rotateEnabled th; m_gestureMode := m_gestureMode th;
     m_pointersDown := m_pointersDown th; m_noDualPointerYet := m_noDualPointerYet th;
     m_interactionConsumed := m_interactionConsumed th;
     m_prevScreenPos1 := m_prevScreenPos1 th; m_prevScreenPos2 := m_prevScreenPos2 th;
     m_firstTapPos := m_firstTapPos th; m_doubleTapStartPos := m_doubleTapStartPos th;
     m_swipe1 := m_swipe1 th; m_swipe2 := m_swipe2 th;
     m_dualPointerReleaseTime := m_dualPointerReleaseTime th;
     m_firstTapTime := m_firstTapTime th; m_pointer1DownTime := m_pointer1DownTime th;
     m_singlePointerZoomStartZoom := m_singlePointerZoomStartZoom th;
     m_velocityPan := m_velocityPan th; m_velocityZoom := m_velocityZoom th |}.

Definition set_m_rotateEnabled (v : bool) (th : TouchHandler) : TouchHandler :=
  {| m_map := m_map th; m_dpi := m_dpi th; m_panningMode := m_panningMode th;
     m_mapClickListener := m_mapClickListener th;
     m_mapInteractionListener := m_mapInteractionListener th;
     m_zoomEnabled := m_zoomEnabled th; m_panEnabled := m_panEnabled th;
     m_doubleTapEnabled := m_doubleTapEnabled th;
     m_doubleTapDragEnabled := m_doubleTapDragEnabled th; m_tiltEnabled := m_tiltEnabled th;
     m_rotateEnabled := v; m_gestureMode := m_gestureMode th;
     m_pointersDown := m_pointersDown th; m_noDualPointerYet := m_noDualPointerYet th;
     m_interactionConsumed := m_interactionConsumed th;
     m_prevScreenPos1 := m_prevScreenPos1 th; m_prevScreenPos2 := m_prevScreenPos2 th;
     m_firstTapPos := m_firstTapPos th; m_doubleTapStartPos := m_doubleTapStartPos th;
     m_swipe1 := m_swipe1 th; m_swipe2 := m_swipe2 th;
     m_dualPointerReleaseTime := m_dualPointerReleaseTime th;
     m_firstTapTime := m_firstTapTime th; m_pointer1DownTime := m_pointer1DownTime th;
     m_singlePointerZoomStartZoom := m_singlePointerZoomStartZoom th;
     m_velocityPan := m_velocityPan th; m_velocityZoom := m_velocityZoom th |}.

Definition set_m_gestureMode (v : GestureMode) (th : TouchHandler) : TouchHandler :=
  {| m_map := m_map th; m_dpi := m_dpi th; m_panningMode := m_panningMode th;
     m_mapClickListener := m_mapClickListener th;
     m_mapInteractionListener := m_mapInteractionListener th;
     m_zoomEnabled := m_zoomEnabled th; m_panEnabled := m_panEnabled th;
     m_doubleTapEnabled := m_doubleTapEnabled th;
     m_doubleTapDragEnabled := m_doubleTapDragEnabled th; m_tiltEnabled := m_tiltEnabled th;
     m_rotateEnabled := m_rotateEnabled th; m_gestureMode := v;
     m_pointersDown := m_pointersDown th; m_noDualPointerYet := m_noDualPointerYet th;
     m_interactionConsumed := m_interactionConsumed th;
     m_prevScreenPos1 := m_prevScreenPos1 th; m_prevScreenPos2 := m_prevScreenPos2 th;
     m_firstTapPos := m_firstTapPos th; m_doubleTapStartPos := m_doubleTapStartPos th;
     m_swipe1 := m_swipe1 th; m_swipe2 := m_swipe2 th;
     m_dualPointerReleaseTime := m_dualPointerReleaseTime th;
     m_firstTapTime := m_firstTapTime th; m_pointer1DownTime := m_pointer1DownTime th;
     m_singlePointerZoomStartZoom := m_singlePointerZoomStartZoom th;
     m_velocityPan := m_velocityPan th; m_velocityZoom := m_velocityZoom th |}.

Definition set_m_pointersDown (v : Z) (th : TouchHandler) : TouchHandler :=
  {| m_map := m_map th; m_dpi := m_dpi th; m_panningMode := m_panningMode th;
     m_mapClickListener := m_mapClickListener th;
     m_mapInteractionListener := m_mapInteractionListener th;
     m_zoomEnabled := m_zoomEnabled th; m_panEnabled := m_panEnabled th;
     m_doubleTapEnabled := m_doubleTapEnabled th;
     m_doubleTapDragEnabled := m_doubleTapDragEnabled th; m_tiltEnabled := m_tiltEnabled th;
     m_rotateEnabled := m_rotateEnabled th; m_gestureMode := m_gestureMode th;
     m_pointersDown := v; m_noDualPointerYet := m_noDualPointerYet th;
     m_interactionConsumed := m_interactionConsumed th;
     m_prevScreenPos1 := m_prevScreenPos1 th; m_prevScreenPos2 := m_prevScreenPos2 th;
     m_firstTapPos := m_firstTapPos th; m_doubleTapStartPos := m_doubleTapStartPos th;
     m_swipe1 := m_swipe1 th; m_swipe2 := m_swipe2 th;
     m_dualPointerReleaseTime := m_dualPointerReleaseTime th;
     m_firstTapTime := m_firstTapTime th; m_pointer1DownTime := m_pointer1DownTime th;
     m_singlePointerZoomStartZoom := m_singlePointerZoomStartZoom th;
     m_velocityPan := m_velocityPan th; m_velocityZoom := m_velocityZoom th |}.

Definition set_m_noDualPointerYet (v : bool) (th : TouchHandler) : TouchHandler :=
  {| m_map := m_map th; m_dpi := m_dpi th; m_panningMode := m_panningMode th;
     m_mapClickListener := m_mapClickListener th;
     m_mapInteractionListener := m_mapInteractionListener th;
     m_zoomEnabled := m_zoomEnabled th; m_panEnabled := m_panEnabled th;
     m_doubleTapEnabled := m_doubleTapEnabled th;
     m_doubleTapDragEnabled := m_doubleTapDragEnabled th; m_tiltEnabled := m_tiltEnabled th;
     m_rotateEnabled := m_rotateEnabled th; m_gestureMode := m_gestureMode th;
     m_pointersDown := m_pointersDown th; m_noDualPointerYet := v;
     m_interactionConsumed := m_interactionConsumed th;
     m_prevScreenPos1 := m_prevScreenPos1 th; m_prevScreenPos2 := m_prevScreenPos2 th;
     m_firstTapPos := m_firstTapPos th; m_doubleTapStartPos := m_doubleTapStartPos th;
     m_swipe1 := m_swipe1 th; m_swipe2 := m_swipe2 th;
     m_dualPointerReleaseTime := m_dualPointerReleaseTime th;
     m_firstTapTime := m_firstTapTime th; m_pointer1DownTime := m_pointer1DownTime th;
     m_singlePointerZoomStartZoom := m_singlePointerZoomStartZoom th;
     m_velocityPan := m_velocityPan th; m_velocityZoom := m_velocityZoom th |}.

Definition set_m_interactionConsumed (v : bool) (th : TouchHandler) : TouchHandler :=
  {| m_map := m_map th; m_dpi := m_dpi th; m_panningMode := m_panningMode th;
     m_mapClickListener := m_mapClickListener th;
     m_mapInteractionListener := m_mapInteractionListener th;
     m_zoomEnabled := m_zoomEnabled th; m_panEnabled := m_panEnabled th;
     m_doubleTapEnabled := m_doubleTapEnabled th;
     m_doubleTapDragEnabled := m_doubleTapDragEnabled th; m_tiltEnabled := m_tiltEnabled th;
     m_rotateEnabled := m_rotateEnabled th; m_gestureMode := m_gestureMode th;
     m_pointersDown := m_pointersDown th; m_noDualPointerYet := m_noDualPointerYet th;
     m_interactionConsumed := v; m_prevScreenPos1 := m_prevScreenPos1 th;
     m_prevScreenPos2 := m_prevScreenPos2 th; m_firstTapPos := m_firstTapPos th;
     m_doubleTapStartPos := m_doubleTapStartPos th; m_swipe1 := m_swipe1 th;
     m_swipe2 := m_swipe2 th; m_dualPointerReleaseTime := m_dualPointerReleaseTime th;
     m_firstTapTime := m_firstTapTime th; m_pointer1DownTime := m_pointer1DownTime th;
     m_singlePointerZoomStartZoom := m_singlePointerZoomStartZoom th;
     m_velocityPan := m_velocityPan th; m_velocityZoom := m_velocityZoom th |}.

Definition set_m_prevScreenPos1 (v : ScreenPos) (th : TouchHandler) : TouchHandler :=
  {| m_map := m_map th; m_dpi := m_dpi th; m_panningMode := m_panningMode th;
     m_mapClickListener := m_mapClickListener th;
     m_mapInteractionListener := m_mapInteractionListener th;
     m_zoomEnabled := m_zoomEnabled th; m_panEnabled := m_panEnabled th;
     m_doubleTapEnabled := m_doubleTapEnabled th;
     m_doubleTapDragEnabled := m_doubleTapDragEnabled th; m_tiltEnabled := m_tiltEnabled th;
     m_rotateEnabled := m_rotateEnabled th; m_gestureMode := m_gestureMode th;
     m_pointersDown := m_pointersDown th; m_noDualPointerYet := m_noDualPointerYet th;
     m_interactionConsumed := m_interactionConsumed th; m_prevScreenPos1 := v;
     m_prevScreenPos2 := m_prevScreenPos2 th; m_firstTapPos := m_firstTapPos th;
     m_doubleTapStartPos := m_doubleTapStartPos th; m_swipe1 := m_swipe1 th;
     m_swipe2 := m_swipe2 th; m_dualPointerReleaseTime := m_dualPointerReleaseTime th;
     m_firstTapTime := m_firstTapTime th; m_pointer1DownTime := m_pointer1DownTime th;
     m_singlePointerZoomStartZoom := m_singlePointerZoomStartZoom th;
     m_velocityPan := m_velocityPan th; m_velocityZoom := m_velocityZoom th |}.

Definition set_m_prevScreenPos2 (v : ScreenPos) (th : TouchHandler) : TouchHandler :=
  {| m_map := m_map th; m_dpi := m_dpi th; m_panningMode := m_panningMode th;
     m_mapClickListener := m_mapClickListener th;
     m_mapInteractionListener := m_mapInteractionListener th;
     m_zoomEnabled := m_zoomEnabled th; m_panEnabled := m_panEnabled th;
     m_doubleTapEnabled := m_doubleTapEnabled th;
     m_doubleTapDragEnabled := m_doubleTapDragEnabled th; m_tiltEnabled := m_tiltEnabled th;
     m_rotateEnabled := m_rotateEnabled th; m_gestureMode := m_gestureMode th;
     m_pointersDown := m_pointersDown th; m_noDualPointerYet := m_noDualPointerYet th;
     m_interactionConsumed := m_interactionConsumed th;
     m_prevScreenPos1 := m_prevScreenPos1 th; m_prevScreenPos2 := v;
     m_firstTapPos := m_firstTapPos th; m_doubleTapStartPos := m_doubleTapStartPos th;
     m_swipe1 := m_swipe1 th; m_swipe2 := m_swipe2 th;
     m_dualPointerReleaseTime := m_dualPointerReleaseTime th;
     m_firstTapTime := m_firstTapTime th; m_pointer1DownTime := m_pointer1DownTime th;
     m_singlePointerZoomStartZoom := m_singlePointerZoomStartZoom th;
     m_velocityPan := m_velocityPan th; m_velocityZoom := m_velocityZoom th |}.

Definition set_m_firstTapPos (v : ScreenPos) (th : TouchHandler) : TouchHandler :=
  {| m_map := m_map th; m_dpi := m_dpi th; m_panningMode := m_panningMode th;
     m_mapClickListener := m_mapClickListener th;
     m_mapInteractionListener := m_mapInteractionListener th;
     m_zoomEnabled := m_zoomEnabled th; m_panEnabled := m_panEnabled th;
     m_doubleTapEnabled := m_doubleTapEnabled th;
     m_doubleTapDragEnabled := m_doubleTapDragEnabled th; m_tiltEnabled := m_tiltEnabled th;
     m_rotateEnabled := m_rotateEnabled th; m_gestureMode := m_gestureMode th;
     m_pointersDown := m_pointersDown th; m_noDualPointerYet := m_noDualPointerYet th;
     m_interactionConsumed := m_interactionConsumed th;
     m_prevScreenPos1 := m_prevScreenPos1 th; m_prevScreenPos2 := m_prevScreenPos2 th;
     m_firstTapPos := v; m_doubleTapStartPos := m_doubleTapStartPos th;
     m_swipe1 := m_swipe1 th; m_swipe2 := m_swipe2 th;
     m_dualPointerReleaseTime := m_dualPointerReleaseTime th;
     m_firstTapTime := m_firstTapTime th; m_pointer1DownTime := m_pointer1DownTime th;
     m_singlePointerZoomStartZoom := m_singlePointerZoomStartZoom th;
     m_velocityPan := m_velocityPan th; m_velocityZoom := m_velocityZoom th |}.

Definition set_m_doubleTapStartPos (v : ScreenPos) (th : TouchHandler) : TouchHandler :=
  {| m_map := m_map th; m_dpi := m_dpi th; m_panningMode := m_panningMode th;
     m_mapClickListener := m_mapClickListener th;
     m_mapInteractionListener := m_mapInteractionListener th;
     m_zoomEnabled := m_zoomEnabled th; m_panEnabled := m_panEnabled th;
     m_doubleTapEnabled := m_doubleTapEnabled th;
     m_doubleTapDragEnabled := m_doubleTapDragEnabled th; m_tiltEnabled := m_tiltEnabled th;
     m_rotateEnabled := m_rotateEnabled th; m_gestureMode := m_gestureMode th;
     m_pointersDown := m_pointersDown th; m_noDualPointerYet := m_noDualPointerYet th;
     m_interactionConsumed := m_interactionConsumed th;
     m_prevScreenPos1 := m_prevScreenPos1 th; m_prevScreenPos2 := m_prevScreenPos2 th;
     m_firstTapPos := m_firstTapPos th; m_doubleTapStartPos := v; m_swipe1 := m_swipe1 th;
     m_swipe2 := m_swipe2 th; m_dualPointerReleaseTime := m_dualPointerReleaseTime th;
     m_firstTapTime := m_firstTapTime th; m_pointer1DownTime := m_pointer1DownTime th;
     m_singlePointerZoomStartZoom := m_singlePointerZoomStartZoom th;
     m_velocityPan := m_velocityPan th; m_velocityZoom := m_velocityZoom th |}.

Definition set_m_swipe1 (v : ieee.vec2) (th : TouchHandler) : TouchHandler :=
  {| m_map := m_map th; m_dpi := m_dpi th; m_panningMode := m_panningMode th;
     m_mapClickListener := m_mapClickListener th;
     m_mapInteractionListener := m_mapInteractionListener th;
     m_zoomEnabled := m_zoomEnabled th; m_panEnabled := m_panEnabled th;
     m_doubleTapEnabled := m_doubleTapEnabled th;
     m_doubleTapDragEnabled := m_doubleTapDragEnabled th; m_tiltEnabled := m_tiltEnabled th;
     m_rotateEnabled := m_rotateEnabled th; m_gestureMode := m_gestureMode th;
     m_pointersDown := m_pointersDown th; m_noDualPointerYet := m_noDualPointerYet th;
     m_interactionConsumed := m_interactionConsumed th;
     m_prevScreenPos1 := m_prevScreenPos1 th; m_prevScreenPos2 := m_prevScreenPos2 th;
     m_firstTapPos := m_firstTapPos th; m_doubleTapStartPos := m_doubleTapStartPos th;
     m_swipe1 := v; m_swipe2 := m_swipe2 th;
     m_dualPointerReleaseTime := m_dualPointerReleaseTime th;
     m_firstTapTime := m_firstTapTime th; m_pointer1DownTime := m_pointer1DownTime th;
     m_singlePointerZoomStartZoom := m_singlePointerZoomStartZoom th;
     m_velocityPan := m_velocityPan th; m_velocityZoom := m_velocityZoom th |}.

Definition set_m_swipe2 (v : ieee.vec2) (th : TouchHandler) : TouchHandler :=
  {| m_map := m_map th; m_dpi := m_dpi th; m_panningMode := m_panningMode th;
     m_mapClickListener := m_mapClickListener th;
     m_mapInteractionListener := m_mapInteractionListener th;
     m_zoomEnabled := m_zoomEnabled th; m_panEnabled := m_panEnabled th;
     m_doubleTapEnabled := m_doubleTapEnabled th;
     m_doubleTapDragEnabled := m_doubleTapDragEnabled th; m_tiltEnabled := m_tiltEnabled th;
     m_rotateEnabled := m_rotateEnabled th; m_gestureMode := m_gestureMode th;
     m_pointersDown := m_pointersDown th; m_noDualPointerYet := m_noDualPointerYet th;
     m_interactionConsumed := m_interactionConsumed th;
     m_prevScreenPos1 := m_prevScreenPos1 th; m_prevScreenPos2 := m_prevScreenPos2 th;
     m_firstTapPos := m_firstTapPos th; m_doubleTapStartPos := m_doubleTapStartPos th;
     m_swipe1 := m_swipe1 th; m_swipe2 := v;
     m_dualPointerReleaseTime := m_dualPointerReleaseTime th;
     m_firstTapTime := m_firstTapTime th; m_pointer1DownTime := m_pointer1DownTime th;
     m_singlePointerZoomStartZoom := m_singlePointerZoomStartZoom th;
     m_velocityPan := m_velocityPan th; m_velocityZoom := m_velocityZoom th |}.

Definition set_m_dualPointerReleaseTime (v : time_point) (th : TouchHandler) : TouchHandler :=
  {| m_map := m_map th; m_dpi := m_dpi th; m_panningMode := m_panningMode th;
     m_mapClickListener := m_mapClickListener th;
     m_mapInteractionListener := m_mapInteractionListener th;
     m_zoomEnabled := m_zoomEnabled th; m_panEnabled := m_panEnabled th;
     m_doubleTapEnabled := m_doubleTapEnabled th;
     m_doubleTapDragEnabled := m_doubleTapDragEnabled th; m_tiltEnabled := m_tiltEnabled th;
     m_rotateEnabled := m_rotateEnabled th; m_gestureMode := m_gestureMode th;
     m_pointersDown := m_pointersDown th; m_noDualPointerYet := m_noDualPointerYet th;
     m_interactionConsumed := m_interactionConsumed th;
     m_prevScreenPos1 := m_prevScreenPos1 th; m_prevScreenPos2 := m_prevScreenPos2 th;
     m_firstTapPos := m_firstTapPos th; m_doubleTapStartPos := m_doubleTapStartPos th;
     m_swipe1 := m_swipe1 th; m_swipe2 := m_swipe2 th; m_dualPointerReleaseTime := v;
     m_firstTapTime := m_firstTapTime th; m_pointer1DownTime := m_pointer1DownTime th;
     m_singlePointerZoomStartZoom := m_singlePointerZoomStartZoom th;
     m_velocityPan := m_velocityPan th; m_velocityZoom := m_velocityZoom th |}.

Definition set_m_firstTapTime (v : time_point) (th : TouchHandler) : TouchHandler :=
  {| m_map := m_map th; m_dpi := m_dpi th; m_panningMode := m_panningMode th;
     m_mapClickListener := m_mapClickListener th;
     m_mapInteractionListener := m_mapInteractionListener th;
     m_zoomEnabled := m_zoomEnabled th; m_panEnabled := m_panEnabled th;
     m_doubleTapEnabled := m_doubleTapEnabled th;
     m_doubleTapDragEnabled := m_doubleTapDragEnabled th; m_tiltEnabled := m_tiltEnabled th;
     m_rotateEnabled := m_rotateEnabled th; m_gestureMode := m_gestureMode th;
     m_pointersDown := m_pointersDown th; m_noDualPointerYet := m_noDualPointerYet th;
     m_interactionConsumed := m_interactionConsumed th;
     m_prevScreenPos1 := m_prevScreenPos1 th; m_prevScreenPos2 := m_prevScreenPos2 th;
     m_firstTapPos := m_firstTapPos th; m_doubleTapStartPos := m_doubleTapStartPos th;
     m_swipe1 := m_swipe1 th; m_swipe2 := m_swipe2 th;
     m_dualPointerReleaseTime := m_dualPointerReleaseTime th; m_firstTapTime := v;
     m_pointer1DownTime := m_pointer1DownTime th;
     m_singlePointerZoomStartZoom := m_singlePointerZoomStartZoom th;
     m_velocityPan := m_velocityPan th; m_velocityZoom := m_velocityZoom th |}.

Definition set_m_pointer1DownTime (v : time_point) (th : TouchHandler) : TouchHandler :=
  {| m_map := m_map th; m_dpi := m_dpi th; m_panningMode := m_panningMode th;
     m_mapClickListener := m_mapClickListener th;
     m_mapInteractionListener := m_mapInteractionListener th;
     m_zoomEnabled := m_zoomEnabled th; m_panEnabled := m_panEnabled th;
     m_doubleTapEnabled := m_doubleTapEnabled th;
     m_doubleTapDragEnabled := m_doubleTapDragEnabled th; m_tiltEnabled := m_tiltEnabled th;
     m_rotateEnabled := m_rotateEnabled th; m_gestureMode := m_gestureMode th;
     m_pointersDown := m_pointersDown th; m_noDualPointerYet := m_noDualPointerYet th;
     m_interactionConsumed := m_interactionConsumed th;
     m_prevScreenPos1 := m_prevScreenPos1 th; m_prevScreenPos2 := m_prevScreenPos2 th;
     m_firstTapPos := m_firstTapPos th; m_doubleTapStartPos := m_doubleTapStartPos th;
     m_swipe1 := m_swipe1 th; m_swipe2 := m_swipe2 th;
     m_dualPointerReleaseTime := m_dualPointerReleaseTime th;
     m_firstTapTime := m_firstTapTime th; m_pointer1DownTime := v;
     m_singlePointerZoomStartZoom := m_singlePointerZoomStartZoom th;
     m_velocityPan := m_velocityPan th; m_velocityZoom := m_velocityZoom th |}.

Definition set_m_singlePointerZoomStartZoom (v : float) (th : TouchHandler) : TouchHandler :=
  {| m_map := m_map th; m_dpi := m_dpi th; m_panningMode := m_panningMode th;
     m_mapClickListener := m_mapClickListener th;
     m_mapInteractionListener := m_mapInteractionListener th;
     m_zoomEnabled := m_zoomEnabled th; m_panEnabled := m_panEnabled th;
     m_doubleTapEnabled := m_doubleTapEnabled th;
     m_doubleTapDragEnabled := m_doubleTapDragEnabled th; m_tiltEnabled := m_tiltEnabled th;
     m_rotateEnabled := m_rotateEnabled th; m_gestureMode := m_gestureMode th;
     m_pointersDown := m_pointersDown th; m_noDualPointerYet := m_noDualPointerYet th;
     m_interactionConsumed := m_interactionConsumed th;
     m_prevScreenPos1 := m_prevScreenPos1 th; m_prevScreenPos2 := m_prevScreenPos2 th;
     m_firstTapPos := m_firstTapPos th; m_doubleTapStartPos := m_doubleTapStartPos th;
     m_swipe1 := m_swipe1 th; m_swipe2 := m_swipe2 th;
     m_dualPointerReleaseTime := m_dualPointerReleaseTime th;
     m_firstTapTime := m_firstTapTime th; m_pointer1DownTime := m_pointer1DownTime th;
     m_singlePointerZoomStartZoom := v; m_velocityPan := m_velocityPan th;
     m_velocityZoom := m_velocityZoom th |}.

Definition set_m_velocityPan (v : glm.vec2) (th : TouchHandler) : TouchHandler :=
  {| m_map := m_map th; m_dpi := m_dpi th; m_panningMode := m_panningMode th;
     m_mapClickListener := m_mapClickListener th;
     m_mapInteractionListener := m_mapInteractionListener th;
     m_zoomEnabled := m_zoomEnabled th; m_panEnabled := m_panEnabled th;
     m_doubleTapEnabled := m_doubleTapEnabled th;
     m_doubleTapDragEnabled := m_doubleTapDragEnabled th; m_tiltEnabled := m_tiltEnabled th;
     m_rotateEnabled := m_rotateEnabled th; m_gestureMode := m_gestureMode th;
     m_pointersDown := m_pointersDown th; m_noDualPointerYet := m_noDualPointerYet th;
     m_interactionConsumed := m_interactionConsumed th;
     m_prevScreenPos1 := m_prevScreenPos1 th; m_prevScreenPos2 := m_prevScreenPos2 th;
     m_firstTapPos := m_firstTapPos th; m_doubleTapStartPos := m_doubleTapStartPos th;
     m_swipe1 := m_swipe1 th; m_swipe2 := m_swipe2 th;
     m_dualPointerReleaseTime := m_dualPointerReleaseTime th;
     m_firstTapTime := m_firstTapTime th; m_pointer1DownTime := m_pointer1DownTime th;
     m_singlePointerZoomStartZoom := m_singlePointerZoomStartZoom th; m_velocityPan := v;
     m_velocityZoom := m_velocityZoom th |}.

Definition set_m_velocityZoom (v : float) (th : TouchHandler) : TouchHandler :=
  {| m_map := m_map th; m_dpi := m_dpi th; m_panningMode := m_panningMode th;
     m_mapClickListener := m_mapClickListener th;
     m_mapInteractionListener := m_mapInteractionListener th;
     m_zoomEnabled := m_zoomEnabled th; m_panEnabled := m_panEnabled th;
     m_doubleTapEnabled := m_doubleTapEnabled th;
     m_doubleTapDragEnabled := m_doubleTapDragEnabled th; m_tiltEnabled := m_tiltEnabled th;
     m_rotateEnabled := m_rotateEnabled th; m_gestureMode := m_gestureMode th;
     m_pointersDown := m_pointersDown th; m_noDualPointerYet := m_noDualPointerYet th;
     m_interactionConsumed := m_interactionConsumed th;
     m_prevScreenPos1 := m_prevScreenPos1 th; m_prevScreenPos2 := m_prevScreenPos2 th;
     m_firstTapPos := m_firstTapPos th; m_doubleTapStartPos := m_doubleTapStartPos th;
     m_swipe1 := m_swipe1 th; m_swipe2 := m_swipe2 th;
     m_dualPointerReleaseTime := m_dualPointerReleaseTime th;
     m_firstTapTime := m_firstTapTime th; m_pointer1DownTime := m_pointer1DownTime th;
     m_singlePointerZoomStartZoom := m_singlePointerZoomStartZoom th;
     m_velocityPan := m_velocityPan th; m_velocityZoom := v |}.

(** ** Computations of the engine

    A member function of [TouchHandler] reads and writes the engine, reads
    and mutates the view, and calls out; [Eff V A] is such a computation
    with a result in [A].  Its outcome holds the result, the engine and the
    view it leaves, and the calls it made, in order. *)

Record Outcome (V A : Type) : Type := mkOutcome {
  value : A;
  self : TouchHandler;
  viewOf : V;
  calls : list Call
}.

Arguments mkOutcome {V A}.
Arguments value {V A}.
Arguments self {V A}.
Arguments viewOf {V A}.
Arguments calls {V A}.

Definition Eff (V A : Type) : Type := TouchHandler -> V -> Outcome V A.

Definition ret {V A : Type} (a : A) : Eff V A :=
  fun th v => mkOutcome a th v [].

Definition bind {V A B : Type} (m : Eff V A) (k : A -> Eff V B) : Eff V B :=
  fun th v =>
    match m th v with
    | mkOutcome a th1 v1 l1 =>
        match k a th1 v1 with
        | mkOutcome b th2 v2 l2 => mkOutcome b th2 v2 (l1 ++ l2)
        end
    end.

Declare Scope eff_scope.
Delimit Scope eff_scope with eff.
Notation "a <- m ;; k" := (bind m (fun a => k))
  (at level 61, m at next level, right associativity) : eff_scope.
Notation "m ;; k" := (bind m (fun _ => k))
  (at level 61, right associativity) : eff_scope.
Local Open Scope eff_scope.

(** the engine as it is now ([*this]) *)
Definition this {V : Type} : Eff V TouchHandler :=
  fun th v => mkOutcome th th v [].

(** an assignment to the engine *)
Definition assign {V : Type} (f : TouchHandler -> TouchHandler) : Eff V unit :=
  fun th v => mkOutcome tt (f th) v [].

(** the view as it is now ([m_view]) *)
Definition view {V : Type} : Eff V V :=
  fun th v => mkOutcome v th v [].

(** a recorded call that changes the view *)
Definition perform {V : Type} (c : Call) (f : V -> V) : Eff V unit :=
  fun th v => mkOutcome tt th (f v) [c].

(** a recorded callback of a listener, [c r] being the call with its answer *)
Definition callback {V : Type} (c : bool -> Call) (r : bool) : Eff V bool :=
  fun th v => mkOutcome r th v [c r].

(** [if (b) { m }] *)
Definition when {V : Type} (b : bool) (m : Eff V unit) : Eff V unit :=
  if b then m else ret tt.

(** ** The member functions of [TouchHandler] *)

Section Engine.

Variable M : MathLib.
Variable V : Type.
Variable VO : ViewOps V.

(** [glm::length] and [glm::rotate] *)
Definition glm_length (a : glm.vec2) : float := std_sqrt M (glm.dot2 a).

(** [std::sqrt] and [glm::length] of values that need not be finite *)
Definition ieee_sqrt (a : xfloat) : xfloat :=
  match a with
  | Finite q => Finite (std_sqrt M q)
  | PosInf => PosInf
  | NegInf | NaN => NaN
  end.

Definition ieee_length (a : ieee.vec2) : xfloat :=
  ieee_sqrt (ieee.add (ieee.mul (ieee.x a) (ieee.x a)) (ieee.mul (ieee.y a) (ieee.y a))).

Definition glm_rotate (a : glm.vec2) (angle : float) : glm.vec2 :=
  glm.mk (glm.x a * std_cos M angle - glm.y a * std_sin M angle)
         (glm.x a * std_sin M angle + glm.y a * std_cos M angle).

(** The four mutators of the view. *)
Definition view_translate (dx dy : float) : Eff V unit :=
  perform (ViewTranslate dx dy) (fun v => translate VO v dx dy).

Definition view_translate2 (d : glm.vec2) : Eff V unit :=
  view_translate (glm.x d) (glm.y d).

Definition view_zoom (dz : float) : Eff V unit :=
  perform (ViewZoom dz) (fun v => zoom VO v dz).

Definition view_yaw (rad : float) : Eff V unit :=
  perform (ViewYaw rad) (fun v => yaw VO v rad).

Definition view_pitch (rad : float) : Eff V unit :=
  perform (ViewPitch rad) (fun v => pitch VO v rad).

(** [m_map->handleDoubleTapGesture(x, y, zoomOut)] *)
Definition map_handleDoubleTapGesture (cx cy : float) (zoomOut : bool) : Eff V unit :=
  perform (MapHandleDoubleTapGesture cx cy zoomOut)
          (fun v => handleDoubleTapGesture VO v cx cy zoomOut).

(** The constructor [TouchHandler::TouchHandler]; the three arguments
    after [_map] are the three readings of the clock. *)
Definition TouchHandler_new (_map : bool) (t1 t2 t3 : time_point) : TouchHandler :=
  {| m_map := _map;
     m_dpi := DEFAULT_DPI;
     m_panningMode := FREE;
     m_mapClickListener := None;
     m_mapInteractionListener := None;
     m_zoomEnabled := true;
     m_panEnabled := true;
     m_doubleTapEnabled := true;
     m_doubleTapDragEnabled := true;
     m_tiltEnabled := true;
     m_rotateEnabled := true;
     m_gestureMode := SINGLE_POINTER_CLICK_GUESS;
     m_pointersDown := 0%Z;
     m_noDualPointerYet := true;
     m_interactionConsumed := false;
     m_prevScreenPos1 := mkScreenPos 0 0;
     m_prevScreenPos2 := mkScreenPos 0 0;
     m_firstTapPos := mkScreenPos 0 0;
     m_doubleTapStartPos := mkScreenPos 0 0;
     m_swipe1 := ieee.finite (glm.mk 0 0);
     m_swipe2 := ieee.finite (glm.mk 0 0);
     m_dualPointerReleaseTime := t1;
     m_firstTapTime := t2;
     m_pointer1DownTime := t3;
     m_singlePointerZoomStartZoom := 0;
     m_velocityPan := glm.mk 0 0;
     m_velocityZoom := 0 |}.

(** [TouchHandler::setVelocity] *)
Definition setVelocity (_zoom : float) (_translate : glm.vec2) : Eff V unit :=
  assign (set_m_velocityPan _translate) ;;
  assign (set_m_velocityZoom _zoom).

(** [isFlinging] of [TouchHandler::update] *)
Definition isFlinging (th : TouchHandler) (v : V) : bool :=
  let velocityPanPixels :=
    glm.scale (pixelsPerMeter VO v / pixelScale VO v) (m_velocityPan th) in
  Qgtb (glm_length velocityPanPixels) THRESHOLD_STOP_PAN
  || Qgtb (std_abs (m_velocityZoom th)) THRESHOLD_STOP_ZOOM.

(** [TouchHandler::update] *)
Definition update (_dt : float) : Eff V bool :=
  th <- this ;;
  v <- view ;;
  let flinging := isFlinging th v in
  when flinging
    (assign (fun th =>
       set_m_velocityPan
         (glm.sub (m_velocityPan th)
                  (glm.scale (std_min (_dt * DAMPING_PAN) 1) (m_velocityPan th))) th) ;;
     th <- this ;;
     view_translate (_dt * glm.x (m_velocityPan th)) (_dt * glm.y (m_velocityPan th)) ;;
     assign (fun th =>
       set_m_velocityZoom
         (m_velocityZoom th - std_min (_dt * DAMPING_ZOOM) 1 * m_velocityZoom th) th) ;;
     th <- this ;;
     view_zoom (m_velocityZoom th * _dt)) ;;
  ret flinging.

(** [TouchHandler::cancel] *)
Definition cancel : Eff V unit :=
  setVelocity 0 (glm.mk 0 0) ;;
  assign (set_m_gestureMode SINGLE_POINTER_CLICK_GUESS) ;;
  assign (set_m_pointersDown 0%Z) ;;
  assign (set_m_interactionConsumed false).

(** [TouchHandler::setGesturesEnabled] and the inline setters *)
Definition setGesturesEnabled (zoom_ pan doubleTap doubleTapDrag tilt rotate : bool)
  : Eff V unit :=
  assign (set_m_zoomEnabled zoom_) ;;
  assign (set_m_panEnabled pan) ;;
  assign (set_m_doubleTapEnabled doubleTap) ;;
  assign (set_m_doubleTapDragEnabled doubleTapDrag) ;;
  assign (set_m_tiltEnabled tilt) ;;
  assign (set_m_rotateEnabled rotate).

Definition setDpi (dpi : float) : Eff V unit := assign (set_m_dpi dpi).
Definition setPanningMode (mode : PanningMode) : Eff V unit := assign (set_m_panningMode mode).
Definition setMap (_map : bool) : Eff V unit := assign (set_m_map _map).
Definition setMapClickListener (l : option MapClickListener) : Eff V unit :=
  assign (set_m_mapClickListener l).
Definition setMapInteractionListener (l : option MapInteractionListener) : Eff V unit :=
  assign (set_m_mapInteractionListener l).
Definition setZoomEnabled (enabled : bool) : Eff V unit := assign (set_m_zoomEnabled enabled).
Definition setPanEnabled (enabled : bool) : Eff V unit := assign (set_m_panEnabled enabled).
Definition setDoubleTapEnabled (enabled : bool) : Eff V unit :=
  assign (set_m_doubleTapEnabled enabled).
Definition setDoubleTapDragEnabled (enabled : bool) : Eff V unit :=
  assign (set_m_doubleTapDragEnabled enabled).
Definition setTiltEnabled (enabled : bool) : Eff V unit := assign (set_m_tiltEnabled enabled).
Definition setRotateEnabled (enabled : bool) : Eff V unit :=
  assign (set_m_rotateEnabled enabled).

(** [TouchHandler::getTranslation] *)
Definition getTranslation (_startX _startY _endX _endY : float) : Eff V glm.vec2 :=
  v <- view ;;
  let elev := screenPositionToLngLat VO v _startX _startY in
  let start := screenToGroundPlane VO v _startX _startY elev in
  let end_ := screenToGroundPlane VO v _endX _endY elev in
  let dr := glm.sub start end_ in
  (* prevent extreme panning when view is nearly horizontal *)
  if Qgtb (getPitch VO v) (MAX_PITCH_FOR_PAN_LIMITING * M_PI M / 180) then
    let dpx :=
      glm_length (glm.mk (_startX - _endX) (_startY - _endY)) / pixelsPerMeter VO v in
    let dd := glm_length dr in
    if Qgtb dd dpx then ret (glm.divs (glm.muls dr dpx) dd) else ret dr
  else ret dr.

(** [TouchHandler::singlePointerPan] *)
Definition singlePointerPan (screenPos : ScreenPos) : Eff V unit :=
  th <- this ;;
  translation <- getTranslation (x (m_prevScreenPos1 th)) (y (m_prevScreenPos1 th))
                                (x screenPos) (y screenPos) ;;
  view_translate2 translation ;;
  assign (set_m_prevScreenPos1 screenPos).

(** [TouchHandler::startSinglePointerZoom] *)
Definition startSinglePointerZoom (screenPos : ScreenPos) : Eff V unit :=
  v <- view ;;
  assign (set_m_singlePointerZoomStartZoom (getZoom VO v)) ;;
  assign (set_m_doubleTapStartPos screenPos) ;;
  assign (set_m_prevScreenPos1 screenPos) ;;
  assign (set_m_gestureMode SINGLE_POINTER_ZOOM).

(** [TouchHandler::singlePointerZoom] *)
Definition singlePointerZoom (screenPos : ScreenPos) : Eff V unit :=
  th <- this ;;
  if negb (m_doubleTapDragEnabled th) then
    ret tt  (* Double tap + drag disabled *)
  else
    let deltaY := y screenPos - y (m_prevScreenPos1 th) in
    let zoomDelta := deltaY * SINGLE_POINTER_ZOOM_SENSITIVITY in
    (* the fixed point for zooming, at the double tap position *)
    v <- view ;;
    let elev :=
      screenPositionToLngLat VO v (x (m_doubleTapStartPos th)) (y (m_doubleTapStartPos th)) in
    let start :=
      screenToGroundPlane VO v (x (m_doubleTapStartPos th)) (y (m_doubleTapStartPos th)) elev in
    view_zoom zoomDelta ;;
    (* keep the double tap position fixed *)
    v' <- view ;;
    let end_ :=
      screenToGroundPlane VO v' (x (m_doubleTapStartPos th)) (y (m_doubleTapStartPos th)) elev in
    view_translate2 (glm.sub start end_) ;;
    assign (set_m_prevScreenPos1 screenPos).

(** [TouchHandler::handleSingleTap] *)
Definition handleSingleTap (screenPos : ScreenPos) : Eff V unit :=
  th <- this ;;
  match m_mapClickListener th with
  | Some l =>
      _ <- callback (OnMapClick SINGLE (x screenPos) (y screenPos))
                    (l SINGLE (x screenPos) (y screenPos)) ;;
      ret tt
  | None => ret tt
  end.

(** [TouchHandler::handleDoubleTap] *)
Definition handleDoubleTap (screenPos : ScreenPos) : Eff V unit :=
  th <- this ;;
  consumed <-
    match m_mapClickListener th with
    | Some l => callback (OnMapClick DOUBLE (x screenPos) (y screenPos))
                         (l DOUBLE (x screenPos) (y screenPos))
    | None => ret false
    end ;;
  if consumed then ret tt
  else
    (* default behaviour: animated zoom in by +1 *)
    when (m_doubleTapEnabled th && m_map th)
         (map_handleDoubleTapGesture (x screenPos) (y screenPos) false).

(** [TouchHandler::handleLongPress] *)
Definition handleLongPress (screenPos : ScreenPos) : Eff V unit :=
  th <- this ;;
  match m_mapClickListener th with
  | Some l =>
      _ <- callback (OnMapClick LONG (x screenPos) (y screenPos))
                    (l LONG (x screenPos) (y screenPos)) ;;
      ret tt
  | None => ret tt
  end.

(** [TouchHandler::handleDualTap] *)
Definition handleDualTap (screenPos1 screenPos2 : ScreenPos) : Eff V unit :=
  th <- this ;;
  (* the midpoint of the two taps *)
  let mx := (x screenPos1 + x screenPos2) / 2 in
  let my := (y screenPos1 + y screenPos2) / 2 in
  consumed <-
    match m_mapClickListener th with
    | Some l => callback (OnMapClick DUAL mx my) (l DUAL mx my)
    | None => ret false
    end ;;
  if consumed then ret tt
  else
    (* default behaviour: animated zoom out by -1 *)
    when (m_doubleTapEnabled th && m_map th) (map_handleDoubleTapGesture mx my true).

(** [TouchHandler::startDualPointer] *)
Definition startDualPointer (screenPos1 screenPos2 : ScreenPos) : Eff V unit :=
  assign (set_m_prevScreenPos1 screenPos1) ;;
  assign (set_m_prevScreenPos2 screenPos2) ;;
  assign (set_m_swipe1 (ieee.finite (glm.mk 0 0))) ;;
  assign (set_m_swipe2 (ieee.finite (glm.mk 0 0))) ;;
  assign (set_m_gestureMode DUAL_POINTER_GUESS).

(** [TouchHandler::dualPointerGuess] *)
Definition dualPointerGuess (screenPos1 screenPos2 : ScreenPos) : Eff V unit :=
  th <- this ;;
  (* which gestures are enabled *)
  let count0 := 0%Z in
  let target0 := DUAL_POINTER_FREE in
  let count1 := if m_tiltEnabled th then (count0 + 1)%Z else count0 in
  let target1 := if m_tiltEnabled th then DUAL_POINTER_TILT else target0 in
  let rotateOrZoom := m_rotateEnabled th || m_zoomEnabled th in
  let enabledGestureCount := if rotateOrZoom then (count1 + 1)%Z else count1 in
  let targetMode := if rotateOrZoom then DUAL_POINTER_FREE else target1 in
  if (enabledGestureCount =? 1)%Z then
    (* only one type of gesture is enabled: go directly to it *)
    assign (set_m_gestureMode targetMode) ;;
    assign (set_m_prevScreenPos1 screenPos1) ;;
    assign (set_m_prevScreenPos2 screenPos2)
  else if (enabledGestureCount =? 0)%Z then
    (* no dual-pointer gesture is enabled: bail out *)
    assign (set_m_gestureMode SINGLE_POINTER_CLICK_GUESS)
  else
    let dpi := m_dpi th in
    let deltaY := ieee.div (std_abs (y screenPos1 - y screenPos2)) dpi in
    (if ieee.gtb deltaY GUESS_MAX_DELTA_Y_INCHES then
       assign (set_m_gestureMode DUAL_POINTER_FREE)
     else
       let prevSwipe1Length := ieee_length (m_swipe1 th) in
       let prevSwipe2Length := ieee_length (m_swipe2 th) in
       (* swipe vectors *)
       let tempSwipe1 := glm.mk (x screenPos1 - x (m_prevScreenPos1 th))
                                (y screenPos1 - y (m_prevScreenPos1 th)) in
       assign (fun th =>
         set_m_swipe1 (ieee.addv (m_swipe1 th) (ieee.mulv tempSwipe1 (ieee.div 1 dpi))) th) ;;
       let tempSwipe2 := glm.mk (x screenPos2 - x (m_prevScreenPos2 th))
                                (y screenPos2 - y (m_prevScreenPos2 th)) in
       assign (fun th =>
         set_m_swipe2 (ieee.addv (m_swipe2 th) (ieee.mulv tempSwipe2 (ieee.div 1 dpi))) th) ;;
       th' <- this ;;
       let swipe1Length := ieee_length (m_swipe1 th') in
       let swipe2Length := ieee_length (m_swipe2 th') in
       let yProduct := ieee.mul (ieee.y (m_swipe1 th')) (ieee.y (m_swipe2 th')) in
       if ((ieee.gtb swipe1Length GUESS_MIN_SWIPE_LENGTH_OPPOSITE_INCHES
            && ieee.gtb prevSwipe1Length 0)
           || (ieee.gtb swipe2Length GUESS_MIN_SWIPE_LENGTH_OPPOSITE_INCHES
               && ieee.gtb prevSwipe2Length 0))
          && ieee.leb yProduct 0
       then
         (* opposite directions in y *)
         when (m_rotateEnabled th' || m_zoomEnabled th')
           (if PanningMode_eqb (m_panningMode th') STICKY
               || PanningMode_eqb (m_panningMode th') STICKY_FINAL
            then assign (set_m_gestureMode DUAL_POINTER_ROTATE)
            else assign (set_m_gestureMode DUAL_POINTER_FREE))
       else if (ieee.gtb swipe1Length GUESS_MIN_SWIPE_LENGTH_SAME_INCHES
                || ieee.gtb swipe2Length GUESS_MIN_SWIPE_LENGTH_SAME_INCHES)
               && ieee.gtb yProduct 0
       then
         (* same direction in y *)
         when (m_tiltEnabled th') (assign (set_m_gestureMode DUAL_POINTER_TILT))
       else ret tt) ;;
    assign (set_m_prevScreenPos1 screenPos1) ;;
    assign (set_m_prevScreenPos2 screenPos2).

(** [TouchHandler::dualPointerPan] *)
Definition dualPointerPan (screenPos1 screenPos2 : ScreenPos) (rotate scale : bool)
  : Eff V unit :=
  th <- this ;;
  let prev1 := m_prevScreenPos1 th in
  let prev2 := m_prevScreenPos2 th in
  (* center points *)
  let prevCenter := mkScreenPos ((x prev1 + x prev2) * (1 # 2)) ((y prev1 + y prev2) * (1 # 2)) in
  let currCenter := mkScreenPos ((x screenPos1 + x screenPos2) * (1 # 2))
                                ((y screenPos1 + y screenPos2) * (1 # 2)) in
  (* pan, if enabled *)
  when (m_panEnabled th)
    (translation <- getTranslation (x prevCenter) (y prevCenter) (x currCenter) (y currCenter) ;;
     view_translate2 translation) ;;
  when (scale && m_zoomEnabled th)
    (let prevDist := std_sqrt M (pow2 (x prev2 - x prev1) + pow2 (y prev2 - y prev1)) in
     let currDist :=
       std_sqrt M (pow2 (x screenPos2 - x screenPos1) + pow2 (y screenPos2 - y screenPos1)) in
     when (Qgtb prevDist 0 && Qgtb currDist 0)
       (let scaleFactor := currDist / prevDist in
        v <- view ;;
        let elev := screenPositionToLngLat VO v (x currCenter) (y currCenter) in
        let start := screenToGroundPlane VO v (x currCenter) (y currCenter) elev in
        view_zoom (std_log2 M scaleFactor) ;;
        v' <- view ;;
        let end_ := screenToGroundPlane VO v' (x currCenter) (y currCenter) elev in
        when (m_panEnabled th) (view_translate2 (glm.sub start end_)))) ;;
  when (rotate && m_rotateEnabled th)
    (let prevAngle := std_atan2 M (y prev2 - y prev1) (x prev2 - x prev1) in
     let currAngle := std_atan2 M (y screenPos2 - y screenPos1) (x screenPos2 - x screenPos1) in
     let rotation := currAngle - prevAngle in
     v <- view ;;
     let elev := screenPositionToLngLat VO v (x currCenter) (y currCenter) in
     let offset := screenToGroundPlane VO v (x currCenter) (y currCenter) elev in
     let translation_rot := glm.sub offset (glm_rotate offset rotation) in
     when (m_panEnabled th) (view_translate2 translation_rot) ;;
     view_yaw rotation) ;;
  assign (set_m_prevScreenPos1 screenPos1) ;;
  assign (set_m_prevScreenPos2 screenPos2).

(** [TouchHandler::dualPointerTilt] *)
Definition dualPointerTilt (screenPos1 : ScreenPos) : Eff V unit :=
  th <- this ;;
  if negb (m_tiltEnabled th) then
    assign (set_m_prevScreenPos1 screenPos1)
  else
    v <- view ;;
    let deltaY := y screenPos1 - y (m_prevScreenPos1 th) in
    let angle := - M_PI M * deltaY / getHeight VO v in
    let maxpitch := std_min (75 * (M_PI M / 180)) (getMaxPitch VO v) in
    let pitch0 := glm_clamp (getPitch VO v) 0 maxpitch in
    let pitch1 := glm_clamp (getPitch VO v + angle) 0 maxpitch in
    view_pitch (pitch1 - pitch0) ;;
    assign (set_m_prevScreenPos1 screenPos1).

(** [TouchHandler::calculateRotatingScalingFactor]: positive values
    indicate rotation, negative values indicate scaling. *)
Definition calculateRotatingScalingFactor (th : TouchHandler)
  (screenPos1 screenPos2 : ScreenPos) : float :=
  let prev1 := m_prevScreenPos1 th in
  let prev2 := m_prevScreenPos2 th in
  let prevDist := std_sqrt M (pow2 (x prev2 - x prev1) + pow2 (y prev2 - y prev1)) in
  let currDist :=
    std_sqrt M (pow2 (x screenPos2 - x screenPos1) + pow2 (y screenPos2 - y screenPos1)) in
  if Qltb prevDist 1 || Qltb currDist 1 then 0
  else
    let prevAngle := std_atan2 M (y prev2 - y prev1) (x prev2 - x prev1) in
    let currAngle := std_atan2 M (y screenPos2 - y screenPos1) (x screenPos2 - x screenPos1) in
    let angleChange := std_abs (currAngle - prevAngle) in
    let scaleChange := std_abs (currDist - prevDist) / prevDist in
    if Qgtb angleChange (scaleChange * 2) then angleChange
    else if Qgtb scaleChange (angleChange * 2) then - scaleChange
    else 0.

(** The interaction listener is asked, under the listeners' lock, and its
    answer is stored in [m_interactionConsumed]; nothing happens when no
    listener is set. *)
Definition askInteractionListener (isPanning isZooming isRotating isTilting : bool)
  : Eff V unit :=
  th <- this ;;
  match m_mapInteractionListener th with
  | Some l =>
      r <- callback (OnMapInteraction isPanning isZooming isRotating isTilting)
                    (l isPanning isZooming isRotating isTilting) ;;
      assign (set_m_interactionConsumed r)
  | None => ret tt
  end.

(** The pointer count update that ends [onTouchEvent]. *)
Definition updatePointerCount (action : TouchAction) : Eff V unit :=
  match action with
  | POINTER_1_DOWN | POINTER_2_DOWN =>
      assign (fun th => set_m_pointersDown (Z.min 2 (m_pointersDown th + 1)) th)
  | POINTER_1_UP | POINTER_2_UP =>
      assign (fun th => set_m_pointersDown (Z.max 0 (m_pointersDown th - 1)) th)
  | CANCEL => assign (set_m_pointersDown 0%Z)
  | MOVE => ret tt
  end.

(** [TouchHandler::onTouchEvent].  [now] is the reading of the clock on
    entry; [later] is the reading the handler takes where it calls
    [steady_clock::now()] again. *)
Definition onTouchEvent (action : TouchAction) (screenPos1 screenPos2 : ScreenPos)
  (now later : time_point) : Eff V bool :=
  th0 <- this ;;
  (* DPI-adjusted threshold *)
  let tapThreshold := TAP_MOVEMENT_THRESHOLD_INCHES * m_dpi th0 in
  match action with
  | POINTER_1_DOWN =>
      assign (set_m_pointer1DownTime now) ;;
      assign (set_m_noDualPointerYet true) ;;
      assign (set_m_interactionConsumed false) ;;
      setVelocity 0 (glm.mk 0 0) ;;
      assign (set_m_prevScreenPos1 screenPos1) ;;
      th <- this ;;
      (* check for double-tap *)
      let timeSinceFirstTap := duration_cast_ms (now - m_firstTapTime th)%Z in
      let distFromFirstTap :=
        std_sqrt M (pow2 (x screenPos1 - x (m_firstTapPos th))
                    + pow2 (y screenPos1 - y (m_firstTapPos th))) in
      if (timeSinceFirstTap <? DOUBLE_TAP_TIMEOUT)%Z
         && Qltb distFromFirstTap tapThreshold
         && GestureMode_eqb (m_gestureMode th) SINGLE_POINTER_CLICK_GUESS
      then
        if negb (m_doubleTapDragEnabled th) then
          (* double tap + drag disabled *)
          assign (set_m_gestureMode SINGLE_POINTER_CLICK_GUESS)
        else
          (* start zoom mode: call the interaction listener for zooming *)
          askInteractionListener false true false false ;;
          th <- this ;;
          if negb (m_interactionConsumed th) then startSinglePointerZoom screenPos1
          else assign (set_m_gestureMode SINGLE_POINTER_CLICK_GUESS)
      else
        (* start tracking for a potential first tap *)
        assign (set_m_gestureMode SINGLE_POINTER_CLICK_GUESS) ;;
        assign (set_m_firstTapTime now) ;;
        assign (set_m_firstTapPos screenPos1)
  | POINTER_2_DOWN =>
      assign (set_m_noDualPointerYet false) ;;
      th <- this ;;
      match m_gestureMode th with
      | SINGLE_POINTER_CLICK_GUESS => assign (set_m_gestureMode DUAL_POINTER_CLICK_GUESS)
      | SINGLE_POINTER_PAN | SINGLE_POINTER_ZOOM => startDualPointer screenPos1 screenPos2
      | _ => ret tt
      end
  | MOVE =>
      th <- this ;;
      if m_interactionConsumed th then
        ret tt  (* skip: the interaction was consumed *)
      else
        match m_gestureMode th with
        | SINGLE_POINTER_CLICK_GUESS =>
            (* moved too far to be a tap? *)
            let dist :=
              std_sqrt M (pow2 (x screenPos1 - x (m_prevScreenPos1 th))
                          + pow2 (y screenPos1 - y (m_prevScreenPos1 th))) in
            let tapThreshold := TAP_MOVEMENT_THRESHOLD_INCHES * m_dpi th in
            if Qgtb dist tapThreshold then
              if negb (m_panEnabled th) then ret tt  (* pan disabled *)
              else
                (* transition to pan: call the interaction listener *)
                askInteractionListener true false false false ;;
                th <- this ;;
                when (negb (m_interactionConsumed th))
                  (assign (set_m_gestureMode SINGLE_POINTER_PAN) ;;
                   assign (set_m_prevScreenPos1 screenPos1))
            else ret tt
        | DUAL_POINTER_CLICK_GUESS =>
            (* transition to dual pointer: call the interaction listener *)
            askInteractionListener true true true true ;;
            th <- this ;;
            when (negb (m_interactionConsumed th))
              (assign (set_m_gestureMode DUAL_POINTER_GUESS) ;;
               assign (set_m_prevScreenPos1 screenPos1) ;;
               assign (set_m_prevScreenPos2 screenPos2))
        | SINGLE_POINTER_PAN =>
            let deltaTime := (later - m_dualPointerReleaseTime th)%Z in
            when (deltaTime >=? DUAL_STOP_HOLD_DURATION * ticks_per_ms)%Z
              (singlePointerPan screenPos1)
        | SINGLE_POINTER_ZOOM => singlePointerZoom screenPos1
        | DUAL_POINTER_GUESS => dualPointerGuess screenPos1 screenPos2
        | DUAL_POINTER_TILT => dualPointerTilt screenPos1
        | DUAL_POINTER_ROTATE | DUAL_POINTER_SCALE =>
            (* STICKY: the gesture may switch; STICKY_FINAL: it stays locked *)
            when (PanningMode_eqb (m_panningMode th) STICKY)
              (let factor := calculateRotatingScalingFactor th screenPos1 screenPos2 in
               if Qgtb factor ROTATION_SCALING_FACTOR_THRESHOLD_STICKY then
                 assign (set_m_gestureMode DUAL_POINTER_ROTATE)
               else if Qltb factor (- ROTATION_SCALING_FACTOR_THRESHOLD_STICKY) then
                 assign (set_m_gestureMode DUAL_POINTER_SCALE)
               else ret tt) ;;
            th <- this ;;
            dualPointerPan screenPos1 screenPos2
              (GestureMode_eqb (m_gestureMode th) DUAL_POINTER_ROTATE)
              (GestureMode_eqb (m_gestureMode th) DUAL_POINTER_SCALE)
        | DUAL_POINTER_FREE =>
            (* FREE: always both rotate and scale *)
            dualPointerPan screenPos1 screenPos2 true true
        end
  | CANCEL =>
      assign (set_m_pointersDown 0%Z) ;;
      assign (set_m_gestureMode SINGLE_POINTER_CLICK_GUESS) ;;
      setVelocity 0 (glm.mk 0 0)
  | POINTER_1_UP =>
      th <- this ;;
      let tapDuration := duration_cast_ms (now - m_pointer1DownTime th)%Z in
      let moveDist :=
        std_sqrt M (pow2 (x screenPos1 - x (m_prevScreenPos1 th))
                    + pow2 (y screenPos1 - y (m_prevScreenPos1 th))) in
      match m_gestureMode th with
      | SINGLE_POINTER_CLICK_GUESS =>
          when (Qltb moveDist tapThreshold)
            (if (tapDuration >=? LONG_PRESS_TIMEOUT)%Z then handleLongPress screenPos1
             else if (tapDuration <? DOUBLE_TAP_TIMEOUT)%Z then handleSingleTap screenPos1
             else ret tt) ;;
          assign (set_m_gestureMode SINGLE_POINTER_CLICK_GUESS)
      | DUAL_POINTER_CLICK_GUESS => assign (set_m_gestureMode SINGLE_POINTER_CLICK_GUESS)
      | SINGLE_POINTER_PAN =>
          assign (set_m_gestureMode SINGLE_POINTER_CLICK_GUESS) ;;
          assign (set_m_interactionConsumed false) ;;
          th <- this ;;
          (* start kinetic pan *)
          when (m_noDualPointerYet th) (setVelocity 0 (m_velocityPan th))
      | SINGLE_POINTER_ZOOM =>
          (* a quick tap without much movement: the double tap itself *)
          when ((tapDuration <? DOUBLE_TAP_TIMEOUT)%Z && Qltb moveDist tapThreshold)
            (handleDoubleTap screenPos1) ;;
          assign (set_m_gestureMode SINGLE_POINTER_CLICK_GUESS) ;;
          assign (set_m_interactionConsumed false) ;;
          th <- this ;;
          when (m_noDualPointerYet th) (setVelocity (m_velocityZoom th) (glm.mk 0 0))
      | DUAL_POINTER_GUESS | DUAL_POINTER_TILT | DUAL_POINTER_ROTATE
      | DUAL_POINTER_SCALE | DUAL_POINTER_FREE =>
          assign (set_m_dualPointerReleaseTime later) ;;
          assign (set_m_prevScreenPos1 screenPos2) ;;
          assign (set_m_gestureMode SINGLE_POINTER_PAN)
      end
  | POINTER_2_UP =>
      th <- this ;;
      match m_gestureMode th with
      | DUAL_POINTER_CLICK_GUESS =>
          (* both fingers went down and up quickly: dual tap *)
          let tapDuration := duration_cast_ms (now - m_pointer1DownTime th)%Z in
          when (tapDuration <? DOUBLE_TAP_TIMEOUT)%Z
            (handleDualTap (m_prevScreenPos1 th) screenPos2) ;;
          assign (set_m_gestureMode SINGLE_POINTER_CLICK_GUESS)
      | DUAL_POINTER_GUESS | DUAL_POINTER_TILT | DUAL_POINTER_ROTATE
      | DUAL_POINTER_SCALE | DUAL_POINTER_FREE =>
          assign (set_m_dualPointerReleaseTime later) ;;
          assign (set_m_prevScreenPos1 screenPos1) ;;
          assign (set_m_gestureMode SINGLE_POINTER_PAN)
      | _ => ret tt
      end
  end ;;
  (* update pointer count *)
  updatePointerCount action ;;
  th <- this ;;
  ret (m_interactionConsumed th).

End Engine.

(** ** A reference math library and a test view

    Concrete, low-precision instances of the two parameters, used to run
    the engine on concrete inputs. *)

Module Ref.

(** a square root rounded down, to 20 binary digits below the
    denominator; exact when the square root is rational *)
Definition sqrt (q : float) : float :=
  if Qle_bool q 0 then 0
  else Z.sqrt (Qnum q * Z.pos (Qden q) * 4 ^ 20) # (Qden q * 2 ^ 20).

Definition pi : float := 355 # 113.

(** [z / (1 + 0.28 z^2)], for [|z| <= 1] *)
Definition atan_unit (z : float) : float := z / (1 + (28 # 100) * z * z).

Definition atan2 (b a : float) : float :=
  if Qeq_bool a 0 && Qeq_bool b 0 then 0
  else if Qle_bool (Qabs b) (Qabs a) then
    if Qle_bool 0 a then atan_unit (b / a)
    else if Qle_bool 0 b then atan_unit (b / a) + pi else atan_unit (b / a) - pi
  else
    if Qle_bool 0 b then pi / 2 - atan_unit (a / b) else - (pi / 2) - atan_unit (a / b).

(** [2^e] for an integer exponent, and a piecewise linear [2^z] *)
Definition exp2Z (e : Z) : float := Qpower 2 e.
Definition exp2 (z : float) : float := exp2Z (Qfloor z) * (1 + (z - inject_Z (Qfloor z))).

(** piecewise linear [log2], exact at the powers of two *)
Definition log2 (q : float) : float :=
  if Qle_bool q 0 then 0
  else
    let e0 := (Z.log2 (Qnum q) - Z.log2 (Z.pos (Qden q)))%Z in
    let m0 := q / exp2Z e0 in
    if Qle_bool 1 m0 then inject_Z e0 + (m0 - 1)
    else inject_Z (e0 - 1) + (2 * m0 - 1).

Definition cos (a : float) : float := 1 - a * a / 2 + a * a * a * a / 24.
Definition sin (a : float) : float := a - a * a * a / 6 + a * a * a * a * a / 120.

Definition math : MathLib :=
  {| std_sqrt := sqrt; std_atan2 := atan2; std_log2 := log2;
     std_cos := cos; std_sin := sin; M_PI := pi |}.

(** A flat, north-up view of 800 x 600 pixels: the ground plane under a
    screen point is its offset from the screen centre in meters, relative
    to the centre of the view. *)
Record View : Type := mkView {
  centre : glm.vec2;
  zoomLevel : float;
  yawAngle : float;
  pitchAngle : float
}.

Definition ppm (v : View) : float := exp2 (zoomLevel v) / 156543.

Definition ground (v : View) (sx sy elev : float) : glm.vec2 :=
  glm.mk ((sx - 400) / ppm v) ((300 - sy) / ppm v).

Definition viewOps : ViewOps View :=
  {| pixelsPerMeter := ppm;
     pixelScale := fun _ => 1;
     getZoom := zoomLevel;
     getPitch := pitchAngle;
     getMaxPitch := fun _ => pi / 2;
     getHeight := fun _ => 600;
     screenPositionToLngLat := fun _ _ _ => 0;
     screenToGroundPlane := ground;
     translate := fun v dx dy =>
       mkView (glm.add (centre v) (glm.mk dx dy)) (zoomLevel v) (yawAngle v) (pitchAngle v);
     zoom := fun v dz => mkView (centre v) (zoomLevel v + dz) (yawAngle v) (pitchAngle v);
     yaw := fun v r => mkView (centre v) (zoomLevel v) (yawAngle v + r) (pitchAngle v);
     pitch := fun v r => mkView (centre v) (zoomLevel v) (yawAngle v) (pitchAngle v + r);
     handleDoubleTapGesture := fun v _ _ _ => v |}.

(** zoom 10, pitch 0, yaw 0 *)
Definition view0 : View := mkView (glm.mk 0 0) 10 0 0.

(** the engine as constructed at time 0, with a map *)
Definition engine0 : TouchHandler := TouchHandler_new true 0%Z 0%Z 0%Z.

End Ref.

(** ** Runs of the engine *)

(** One call of [onTouchEvent], with the clock readings it takes. *)
Record TouchEvent : Type := mkTouchEvent {
  ev_action : TouchAction;
  ev_pos1 : ScreenPos;
  ev_pos2 : ScreenPos;
  ev_now : time_point;
  ev_later : time_point
}.

Section Runs.

Variable M : MathLib.
Variable V : Type.
Variable VO : ViewOps V.

(** the call of [onTouchEvent] an event stands for *)
Definition dispatch (e : TouchEvent) : Eff V bool :=
  onTouchEvent M V VO (ev_action e) (ev_pos1 e) (ev_pos2 e) (ev_now e) (ev_later e).

(** a sequence of [onTouchEvent] calls *)
Fixpoint onTouchEvents (evs : list TouchEvent) : Eff V unit :=
  match evs with
  | [] => ret tt
  | e :: rest => dispatch e ;; onTouchEvents rest
  end.

(** a sequence of [update] calls *)
Fixpoint updates (dts : list float) : Eff V unit :=
  match dts with
  | [] => ret tt
  | dt :: rest => update M V VO dt ;; updates rest
  end.

(** One step of a run: the engine and the view an event found, and the
    outcome of its call. *)
Record Step : Type := mkStep {
  engineBefore : TouchHandler;
  viewBefore : V;
  event : TouchEvent;
  outcome : Outcome V bool
}.

(** the steps of the run of [evs] from the engine [th] and the view [v] *)
Fixpoint history (evs : list TouchEvent) (th : TouchHandler) (v : V) : list Step :=
  match evs with
  | [] => []
  | e :: rest =>
      let r := dispatch e th v in
      mkStep th v e r :: history rest (self r) (viewOf r)
  end.

(** Up to the next P1Down, no Move of these steps makes a call or changes
    the view. *)
Fixpoint silentUntilP1Down (steps : list Step) : Prop :=
  match steps with
  | [] => True
  | s :: rest =>
      match ev_action (event s) with
      | POINTER_1_DOWN => True
      | MOVE =>
          (calls (outcome s) = [] /\ viewOf (outcome s) = viewBefore s)
          /\ silentUntilP1Down rest
      | _ => silentUntilP1Down rest
      end
  end.

(** The engines that the public interface can produce: construction, then
    any calls of [onTouchEvent], [update], [cancel] and the setters, on any
    view. *)
Inductive reachable : TouchHandler -> Prop :=
| reach_new : forall _map t1 t2 t3, reachable (TouchHandler_new _map t1 t2 t3)
| reach_onTouchEvent : forall th v e,
    reachable th -> reachable (self (dispatch e th v))
| reach_update : forall th v dt,
    reachable th -> reachable (self (update M V VO dt th v))
| reach_cancel : forall th (v : V),
    reachable th -> reachable (self (cancel V th v))
| reach_setGesturesEnabled : forall th (v : V) b1 b2 b3 b4 b5 b6,
    reachable th -> reachable (self (setGesturesEnabled V b1 b2 b3 b4 b5 b6 th v))
| reach_setZoomEnabled : forall th (v : V) b,
    reachable th -> reachable (self (setZoomEnabled V b th v))
| reach_setPanEnabled : forall th (v : V) b,
    reachable th -> reachable (self (setPanEnabled V b th v))
| reach_setDoubleTapEnabled : forall th (v : V) b,
    reachable th -> reachable (self (setDoubleTapEnabled V b th v))
| reach_setDoubleTapDragEnabled : forall th (v : V) b,
    reachable th -> reachable (self (setDoubleTapDragEnabled V b th v))
| reach_setTiltEnabled : forall th (v : V) b,
    reachable th -> reachable (self (setTiltEnabled V b th v))
| reach_setRotateEnabled : forall th (v : V) b,
    reachable th -> reachable (self (setRotateEnabled V b th v))
| reach_setDpi : forall th (v : V) dpi,
    reachable th -> reachable (self (setDpi V dpi th v))
| reach_setPanningMode : forall th (v : V) mode,
    reachable th -> reachable (self (setPanningMode V mode th v))
| reach_setMap : forall th (v : V) _map,
    reachable th -> reachable (self (setMap V _map th v))
| reach_setMapClickListener : forall th (v : V) l,
    reachable th -> reachable (self (setMapClickListener V l th v))
| reach_setMapInteractionListener : forall th (v : V) l,
    reachable th -> reachable (self (setMapInteractionListener V l th v)).

End Runs.

Arguments engineBefore {V}.
Arguments viewBefore {V}.
Arguments event {V}.
Arguments outcome {V}.
Arguments silentUntilP1Down {V}.

(** ** Counting pointers *)

Definition isDown (a : TouchAction) : bool :=
  match a with POINTER_1_DOWN | POINTER_2_DOWN => true | _ => false end.

Definition isUp (a : TouchAction) : bool :=
  match a with POINTER_1_UP | POINTER_2_UP => true | _ => false end.

Definition isCancel (a : TouchAction) : bool :=
  match a with CANCEL => true | _ => false end.

(** The count of the specification: the actions after the last [CANCEL]
    (all of them when there is none), and the Downs minus the Ups among
    them. *)
Fixpoint sinceLastCancel (acts : list TouchAction) : list TouchAction :=
  match acts with
  | [] => []
  | a :: rest =>
      if existsb isCancel rest then sinceLastCancel rest
      else if isCancel a then rest else a :: rest
  end.

Definition countZ (p : TouchAction -> bool) (acts : list TouchAction) : Z :=
  Z.of_nat (length (filter p acts)).

Definition downsMinusUps (acts : list TouchAction) : Z :=
  (countZ isDown (sinceLastCancel acts) - countZ isUp (sinceLastCancel acts))%Z.

(** what one action does to the pointer count: the arithmetic of
    [updatePointerCount] *)
Definition pointerStep (n : Z) (a : TouchAction) : Z :=
  match a with
  | POINTER_1_DOWN | POINTER_2_DOWN => Z.min 2 (n + 1)
  | POINTER_1_UP | POINTER_2_UP => Z.max 0 (n - 1)
  | CANCEL => 0
  | MOVE => n
  end%Z.

(** the arithmetic of an action without the clamp *)
Definition tally (n : Z) (a : TouchAction) : Z :=
  match a with
  | POINTER_1_DOWN | POINTER_2_DOWN => n + 1
  | POINTER_1_UP | POINTER_2_UP => n - 1
  | CANCEL => 0
  | MOVE => n
  end%Z.

(** the count that saturates at 0 and at 2 *)
Definition clampedCount (acts : list TouchAction) : Z := fold_left pointerStep acts 0%Z.

(** the Downs minus the Ups stayed within 0..2 after every action *)
Definition staysInRange (acts : list TouchAction) : Prop :=
  forall k : nat, (0 <= downsMinusUps (firstn k acts) <= 2)%Z.

(** ** Quantities the statements name *)

(** the tap threshold in pixels, [TAP_MOVEMENT_THRESHOLD_INCHES * m_dpi] *)
Definition tapThresholdOf (th : TouchHandler) : float :=
  TAP_MOVEMENT_THRESHOLD_INCHES * m_dpi th.

(** the distance between two screen positions, as [onTouchEvent] computes
    [moveDist], [dist] and [distFromFirstTap] *)
Definition distance (M : MathLib) (a b : ScreenPos) : float :=
  std_sqrt M (pow2 (x a - x b) + pow2 (y a - y b)).

(** [tapDuration] of [onTouchEvent], in milliseconds *)
Definition tapDurationOf (th : TouchHandler) (now : time_point) : Z :=
  duration_cast_ms (now - m_pointer1DownTime th)%Z.

(** the swipe [dualPointerGuess] accumulates for a pointer that moved from
    [prev] to [pos] *)
Definition accumulatedSwipe (dpi : float) (swipe : ieee.vec2) (prev pos : ScreenPos)
  : ieee.vec2 :=
  ieee.addv swipe (ieee.mulv (glm.mk (x pos - x prev) (y pos - y prev)) (ieee.div 1 dpi)).

Definition accumulatedSwipe1 (th : TouchHandler) (pos1 : ScreenPos) : ieee.vec2 :=
  accumulatedSwipe (m_dpi th) (m_swipe1 th) (m_prevScreenPos1 th) pos1.

Definition accumulatedSwipe2 (th : TouchHandler) (pos2 : ScreenPos) : ieee.vec2 :=
  accumulatedSwipe (m_dpi th) (m_swipe2 th) (m_prevScreenPos2 th) pos2.

(** the pointers' separation in y, in inches, as [dualPointerGuess]
    computes [deltaY] *)
Definition deltaYInches (th : TouchHandler) (pos1 pos2 : ScreenPos) : xfloat :=
  ieee.div (std_abs (y pos1 - y pos2)) (m_dpi th).

(** the pan velocity in pixels per second, as [update] computes it *)
Definition velocityPanPixels {V : Type} (VO : ViewOps V) (th : TouchHandler) (v : V)
  : glm.vec2 :=
  glm.scale (pixelsPerMeter VO v / pixelScale VO v) (m_velocityPan th).

(** A computation is quiet when it leaves the pointer count, the consumed
    flag and the velocities of the engine [th] alone, and the interaction
    listener did not answer [true] in it. *)
Definition Quiet {V A : Type} (th : TouchHandler) (r : Outcome V A) : Prop :=
  m_pointersDown (self r) = m_pointersDown th
  /\ m_interactionConsumed (self r) = m_interactionConsumed th
  /\ m_velocityPan (self r) = m_velocityPan th
  /\ m_velocityZoom (self r) = m_velocityZoom th
  /\ existsb isInteractionConsumed (calls r) = false.

(** While [m_interactionConsumed] is set, the mode is SingleClickGuess or
    DualClickGuess: the modes in which the interaction listener is asked. *)
Definition consumedInGuess (th : TouchHandler) : Prop :=
  m_interactionConsumed th = true ->
  m_gestureMode th = SINGLE_POINTER_CLICK_GUESS
  \/ m_gestureMode th = DUAL_POINTER_CLICK_GUESS.

(** What a call of [onTouchEvent] with the action [a] on the engine [th]
    leaves in its outcome [r], whatever the mode and the positions: the
    pointer count moved by [pointerStep], the answer of the interaction
    listener stored, each velocity kept or zeroed, [consumedInGuess]
    kept, and [m_interactionConsumed] kept set by every action but a
    P1Down. *)
Definition Framed {V : Type} (th : TouchHandler) (a : TouchAction) (r : Outcome V bool)
  : Prop :=
  m_pointersDown (self r) = pointerStep (m_pointersDown th) a
  /\ (existsb isInteractionConsumed (calls r) = true -> m_interactionConsumed (self r) = true)
  /\ (m_velocityPan (self r) = m_velocityPan th \/ m_velocityPan (self r) = glm.mk 0 0)
  /\ (m_velocityZoom (self r) = m_velocityZoom th \/ m_velocityZoom (self r) = 0)
  /\ (consumedInGuess th -> consumedInGuess (self r))
  /\ (consumedInGuess th -> m_interactionConsumed th = true -> a <> POINTER_1_DOWN ->
      m_interactionConsumed (self r) = true).

(** equality of vectors up to the equality of rationals *)
Definition vec2_eq (a b : glm.vec2) : Prop :=
  glm.x a == glm.x b /\ glm.y a == glm.y b.

(** both velocities are zero *)
Definition velocitiesVanish (th : TouchHandler) : Prop :=
  vec2_eq (m_velocityPan th) (glm.mk 0 0) /\ m_velocityZoom th == 0.

(** Modelled from the spec: the class [View] is not part of the sources of
    the engine.  These are the laws of a view whose [screenToGroundPlane]
    is relative to the position of the view on the ground plane, under
    which "the ground-plane point under a screen point" has a meaning:
    [translate] moves the position and nothing else, [zoom] keeps it. *)
Record GroundPlaneView {V : Type} (VO : ViewOps V) : Type := {
  position : V -> glm.vec2;
  translate_moves_position : forall v dx dy,
    vec2_eq (position (translate VO v dx dy)) (glm.add (position v) (glm.mk dx dy));
  translate_keeps_projection : forall v dx dy sx sy elev,
    vec2_eq (screenToGroundPlane VO (translate VO v dx dy) sx sy elev)
            (screenToGroundPlane VO v sx sy elev);
  zoom_keeps_position : forall v dz, vec2_eq (position (zoom VO v dz)) (position v)
}.

Arguments position {V VO}.

(** the point of the ground plane under the screen position [p] *)
Definition groundPointUnder {V : Type} {VO : ViewOps V} (G : GroundPlaneView VO)
  (v : V) (p : ScreenPos) (elev : float) : glm.vec2 :=
  glm.add (position G v) (screenToGroundPlane VO v (x p) (y p) elev).

(** the velocities [update] leaves when the view is flinging *)
Definition dampedPan (dt : float) (vp : glm.vec2) : glm.vec2 :=
  glm.sub vp (glm.scale (std_min (dt * DAMPING_PAN) 1) vp).

Definition dampedZoom (dt : float) (vz : float) : float :=
  vz - std_min (dt * DAMPING_ZOOM) 1 * vz.

(** ** Concrete engines, events and runs *)

Module Examples.

(** [n] milliseconds after the construction of the engine *)
Definition ms (n : Z) : time_point := (n * ticks_per_ms)%Z.

(** the "no coordinate" position of an absent pointer *)
Definition noPos : ScreenPos := mkScreenPos (-1) (-1).

Definition at_ (t : Z) (a : TouchAction) (p1 p2 : ScreenPos) : TouchEvent :=
  mkTouchEvent a p1 p2 (ms t) (ms t).

(** the run of [evs] from the engine [th], on the test view *)
Definition run (evs : list TouchEvent) (th : TouchHandler) : Outcome Ref.View unit :=
  onTouchEvents Ref.math Ref.View Ref.viewOps evs th Ref.view0.

Definition touch (e : TouchEvent) (th : TouchHandler) (v : Ref.View)
  : Outcome Ref.View bool :=
  dispatch Ref.math Ref.View Ref.viewOps e th v.

(** a two-finger gesture: both pointers go down, move, and lift *)
Definition pinch : list TouchEvent :=
  [ at_ 1000 POINTER_1_DOWN (mkScreenPos 300 300) noPos;
    at_ 1050 POINTER_2_DOWN (mkScreenPos 300 300) (mkScreenPos 500 300);
    at_ 1100 MOVE (mkScreenPos 280 300) (mkScreenPos 520 300);
    at_ 1200 POINTER_2_UP (mkScreenPos 280 300) (mkScreenPos 520 300);
    at_ 1300 POINTER_1_UP (mkScreenPos 280 300) noPos ].

(** a second pointer reported down twice *)
Definition secondPointerTwice : list TouchEvent :=
  [ at_ 1000 POINTER_1_DOWN (mkScreenPos 300 300) noPos;
    at_ 1050 POINTER_2_DOWN (mkScreenPos 300 300) (mkScreenPos 500 300);
    at_ 1100 POINTER_2_DOWN (mkScreenPos 300 300) (mkScreenPos 500 300) ].

(** a pointer lifted that never went down *)
Definition strayUp : list TouchEvent :=
  [ at_ 1000 POINTER_1_UP (mkScreenPos 300 300) noPos ].

(** the first pointer down, and the same pointer reported down again *)
Definition firstDown : TouchEvent := at_ 1000 POINTER_1_DOWN (mkScreenPos 100 100) noPos.
Definition duplicateDown : TouchEvent := at_ 1100 POINTER_1_DOWN (mkScreenPos 100 100) noPos.
Definition cancelEvent : TouchEvent := at_ 1050 CANCEL noPos noPos.

(** an interaction listener that consumes every interaction *)
Definition consumingListener : MapInteractionListener := fun _ _ _ _ => true.

(** the engine, with that listener, after a drag that the listener consumed *)
Definition consumedDrag : Outcome Ref.View unit :=
  run [ at_ 1000 POINTER_1_DOWN (mkScreenPos 100 100) noPos;
        at_ 1100 MOVE (mkScreenPos 200 100) noPos ]
      (set_m_mapInteractionListener (Some consumingListener) Ref.engine0).

(** a click listener that does not consume *)
Definition passiveClickListener : MapClickListener := fun _ _ _ => false.

(** the engine, with that click listener, while a finger rests on the map *)
Definition fingerResting : Outcome Ref.View unit :=
  run [ at_ 1000 POINTER_1_DOWN (mkScreenPos 200 200) noPos ]
      (set_m_mapClickListener (Some passiveClickListener) Ref.engine0).

(** the engine after a tap and a second touch down: double-tap drag zoom *)
Definition dragZoomStarted : Outcome Ref.View unit :=
  run [ at_ 1000 POINTER_1_DOWN (mkScreenPos 300 300) noPos;
        at_ 1100 POINTER_1_UP (mkScreenPos 300 300) noPos;
        at_ 1200 POINTER_1_DOWN (mkScreenPos 300 300) noPos ]
      Ref.engine0.

(** the same, after [setDoubleTapDragEnabled(false)] *)
Definition dragZoomDisabled : TouchHandler :=
  self (setDoubleTapDragEnabled Ref.View false (self dragZoomStarted) (viewOf dragZoomStarted)).

(** the engine after two pointers went down and moved once: the
    dual-pointer guess has begun, with no swipe accumulated yet *)
Definition dualGuessBegun : Outcome Ref.View unit :=
  run [ at_ 1000 POINTER_1_DOWN (mkScreenPos 300 300) noPos;
        at_ 1050 POINTER_2_DOWN (mkScreenPos 300 300) (mkScreenPos 500 300);
        at_ 1100 MOVE (mkScreenPos 300 300) (mkScreenPos 500 300) ]
      Ref.engine0.

(** the two pointers move apart vertically, twice *)
Definition oppositeSwipe : TouchEvent :=
  at_ 1150 MOVE (mkScreenPos 300 260) (mkScreenPos 500 340).
Definition oppositeSwipeAgain : TouchEvent :=
  at_ 1200 MOVE (mkScreenPos 300 250) (mkScreenPos 500 350).

End Examples.

(** * The rest of the gesture engine, and its caller

    The members of [TouchHandler] that no gesture path of this revision
    calls, the accessors of touchHandler.h, the numbering of
    [enum class TouchAction], and [MapView.handleTouchEventNew] of the
    Android platform, which turns the [MotionEvent]s of the system into the
    actions of the engine. *)

(** ** Members and accessors *)

Section Members.

Variable M : MathLib.
Variable V : Type.
Variable VO : ViewOps V.

(** [TouchHandler::singlePointerZoomStop] *)
Definition singlePointerZoomStop (screenPos : ScreenPos) : Eff V bool :=
  ret false.

(** [TouchHandler::doubleTapZoom] *)
Definition doubleTapZoom (screenPos : ScreenPos) : Eff V unit :=
  setVelocity V 0 (glm.mk 0 0) ;;
  v <- view ;;
  let elev := screenPositionToLngLat VO v (x screenPos) (y screenPos) in
  let start := screenToGroundPlane VO v (x screenPos) (y screenPos) elev in
  (* zoom in by 2x *)
  view_zoom V VO (std_log2 M 2) ;;
  v' <- view ;;
  let end_ := screenToGroundPlane VO v' (x screenPos) (y screenPos) elev in
  view_translate2 V VO (glm.sub start end_).

(** the inline accessors of touchHandler.h *)
Definition isZoomEnabled : Eff V bool := th <- this ;; ret (m_zoomEnabled th).
Definition isPanEnabled : Eff V bool := th <- this ;; ret (m_panEnabled th).
Definition isDoubleTapEnabled : Eff V bool := th <- this ;; ret (m_doubleTapEnabled th).
Definition isDoubleTapDragEnabled : Eff V bool :=
  th <- this ;; ret (m_doubleTapDragEnabled th).
Definition isTiltEnabled : Eff V bool := th <- this ;; ret (m_tiltEnabled th).
Definition isRotateEnabled : Eff V bool := th <- this ;; ret (m_rotateEnabled th).
Definition getDpi : Eff V float := th <- this ;; ret (m_dpi th).
Definition getPanningMode : Eff V PanningMode := th <- this ;; ret (m_panningMode th).

End Members.

(** the enumerators of [enum class TouchAction], as numbered in
    touchHandler.h, and the action a number stands for *)
Definition TouchAction_value (a : TouchAction) : Z :=
  match a with
  | POINTER_1_DOWN => 0
  | POINTER_2_DOWN => 1
  | MOVE => 2
  | CANCEL => 3
  | POINTER_1_UP => 4
  | POINTER_2_UP => 5
  end%Z.

Definition TouchAction_of_value (n : Z) : option TouchAction :=
  if (n =? 0)%Z then Some POINTER_1_DOWN
  else if (n =? 1)%Z then Some POINTER_2_DOWN
  else if (n =? 2)%Z then Some MOVE
  else if (n =? 3)%Z then Some CANCEL
  else if (n =? 4)%Z then Some POINTER_1_UP
  else if (n =? 5)%Z then Some POINTER_2_UP
  else None.

(** ** Vocabulary of the statements about calls *)

(** the view after a call that leaves the engine: a listener callback
    leaves it as it is *)
Definition applyCall {V : Type} (VO : ViewOps V) (v : V) (c : Call) : V :=
  match c with
  | ViewTranslate dx dy => translate VO v dx dy
  | ViewZoom dz => zoom VO v dz
  | ViewYaw rad => yaw VO v rad
  | ViewPitch rad => pitch VO v rad
  | OnMapClick _ _ _ _ => v
  | OnMapInteraction _ _ _ _ _ => v
  | MapHandleDoubleTapGesture cx cy zoomOut => handleDoubleTapGesture VO v cx cy zoomOut
  end.

Definition applyCalls {V : Type} (VO : ViewOps V) (l : list Call) (v : V) : V :=
  fold_left (applyCall VO) l v.

Definition isViewCall (c : Call) : bool :=
  match c with
  | ViewTranslate _ _ | ViewZoom _ | ViewYaw _ | ViewPitch _ => true
  | _ => false
  end.

Definition isInteractionCall (c : Call) : bool :=
  match c with OnMapInteraction _ _ _ _ _ => true | _ => false end.

Definition isMapGestureCall (c : Call) : bool :=
  match c with MapHandleDoubleTapGesture _ _ _ => true | _ => false end.

Definition Call_isZoom (c : Call) : bool :=
  match c with ViewZoom _ => true | _ => false end.

Definition Call_isYaw (c : Call) : bool :=
  match c with ViewYaw _ => true | _ => false end.


(** the click listener returned [true] *)
Definition isClickConsumed (c : Call) : bool :=
  match c with OnMapClick _ _ _ answer => answer | _ => false end.

(** The calls an action can make: a P1Down asks the interaction listener
    about a zoom; a Move asks it about a pan or about a dual-pointer
    gesture, and moves the view; a P1Up or a P2Up reports a click and runs
    the double-tap gesture of the map. *)
Definition callOfAction (a : TouchAction) (c : Call) : bool :=
  match a, c with
  | POINTER_1_DOWN, OnMapInteraction false true false false _ => true
  | MOVE, OnMapInteraction true false false false _ => true
  | MOVE, OnMapInteraction true true true true _ => true
  | MOVE, (ViewTranslate _ _ | ViewZoom _ | ViewYaw _ | ViewPitch _) => true
  | POINTER_1_UP, OnMapClick (SINGLE | LONG | DOUBLE) _ _ _ => true
  | POINTER_1_UP, MapHandleDoubleTapGesture _ _ false => true
  | POINTER_2_UP, OnMapClick DUAL _ _ _ => true
  | POINTER_2_UP, MapHandleDoubleTapGesture _ _ true => true
  | _, _ => false
  end.

(** the modes in which a Move runs [dualPointerPan] *)
Definition isDualPanMode (g : GestureMode) : bool :=
  match g with
  | DUAL_POINTER_ROTATE | DUAL_POINTER_SCALE | DUAL_POINTER_FREE => true
  | _ => false
  end.

(** the modes of a gesture of two pointers that has begun to move *)
Definition isDualMoveMode (g : GestureMode) : bool :=
  match g with
  | DUAL_POINTER_GUESS | DUAL_POINTER_TILT | DUAL_POINTER_ROTATE
  | DUAL_POINTER_SCALE | DUAL_POINTER_FREE => true
  | _ => false
  end.

(** What the enable flags and the mode of the engine [th] allow a call of
    [onTouchEvent] to do to the view and the map. *)
Definition callOfFlags (th : TouchHandler) (c : Call) : bool :=
  let g := m_gestureMode th in
  let dragZoom := GestureMode_eqb g SINGLE_POINTER_ZOOM && m_doubleTapDragEnabled th in
  match c with
  | ViewYaw _ => m_rotateEnabled th && isDualPanMode g
  | ViewPitch _ => m_tiltEnabled th && GestureMode_eqb g DUAL_POINTER_TILT
  | ViewZoom _ => dragZoom || (m_zoomEnabled th && isDualPanMode g)
  | ViewTranslate _ _ =>
      GestureMode_eqb g SINGLE_POINTER_PAN || dragZoom || (m_panEnabled th && isDualPanMode g)
  | MapHandleDoubleTapGesture _ _ _ => m_doubleTapEnabled th && m_map th
  | OnMapClick _ _ _ _ =>
      match m_mapClickListener th with Some _ => true | None => false end
  | OnMapInteraction _ _ _ _ _ =>
      match m_mapInteractionListener th with Some _ => true | None => false end
  end.

(** what [dualPointerPan] may call, by its arguments and the flags *)
Definition callOfPan (th : TouchHandler) (rotate scale : bool) (c : Call) : bool :=
  match c with
  | ViewTranslate _ _ => m_panEnabled th
  | ViewZoom _ => scale && m_zoomEnabled th
  | ViewYaw _ => rotate && m_rotateEnabled th
  | _ => false
  end.

(** the report of a click to the listener, when one is set, and its answer *)
Definition clickCalls (th : TouchHandler) (t : ClickType) (cx cy : float) : list Call :=
  match m_mapClickListener th with
  | Some l => [OnMapClick t cx cy (l t cx cy)]
  | None => []
  end.

Definition clickConsumed (th : TouchHandler) (t : ClickType) (cx cy : float) : bool :=
  match m_mapClickListener th with
  | Some l => l t cx cy
  | None => false
  end.

(** the question put to the interaction listener, when one is set, and its
    answer *)
Definition interactionCalls (th : TouchHandler) (isPanning isZooming isRotating isTilting : bool)
  : list Call :=
  match m_mapInteractionListener th with
  | Some l => [OnMapInteraction isPanning isZooming isRotating isTilting
                 (l isPanning isZooming isRotating isTilting)]
  | None => []
  end.

Definition interactionRefused (th : TouchHandler)
  (isPanning isZooming isRotating isTilting : bool) : bool :=
  match m_mapInteractionListener th with
  | Some l => l isPanning isZooming isRotating isTilting
  | None => false
  end.

(** the default behaviour of a double tap and of a dual tap, when the
    click was not consumed *)
Definition defaultZoomCalls (th : TouchHandler) (consumed : bool) (cx cy : float)
  (zoomOut : bool) : list Call :=
  if negb consumed && (m_doubleTapEnabled th && m_map th)
  then [MapHandleDoubleTapGesture cx cy zoomOut] else [].

(** the pitch limit of [dualPointerTilt] *)
Definition maxTiltPitch {V : Type} (M : MathLib) (VO : ViewOps V) (v : V) : float :=
  std_min (75 * (M_PI M / 180)) (getMaxPitch VO v).

(** the pitch above which [getTranslation] limits the pan *)
Definition panLimitPitch (M : MathLib) : float :=
  MAX_PITCH_FOR_PAN_LIMITING * M_PI M / 180.

(** the time a P1Down at [now] finds since the first tap, in milliseconds *)
Definition sinceFirstTap (th : TouchHandler) (now : time_point) : Z :=
  duration_cast_ms (now - m_firstTapTime th)%Z.

(** a P1Down at [pos] and [now] continues a tap as a double tap *)
Definition continuesTap (M : MathLib) (th : TouchHandler) (pos : ScreenPos)
  (now : time_point) : bool :=
  (sinceFirstTap th now <? DOUBLE_TAP_TIMEOUT)%Z
  && Qltb (distance M pos (m_firstTapPos th)) (tapThresholdOf th)
  && GestureMode_eqb (m_gestureMode th) SINGLE_POINTER_CLICK_GUESS.

(** the quantities of [calculateRotatingScalingFactor] *)
Definition angleChangeOf (M : MathLib) (th : TouchHandler) (p1 p2 : ScreenPos) : float :=
  std_abs (std_atan2 M (y p2 - y p1) (x p2 - x p1)
           - std_atan2 M (y (m_prevScreenPos2 th) - y (m_prevScreenPos1 th))
                         (x (m_prevScreenPos2 th) - x (m_prevScreenPos1 th))).

Definition scaleChangeOf (M : MathLib) (th : TouchHandler) (p1 p2 : ScreenPos) : float :=
  std_abs (distance M p2 p1 - distance M (m_prevScreenPos2 th) (m_prevScreenPos1 th))
  / distance M (m_prevScreenPos2 th) (m_prevScreenPos1 th).

(** the midpoint of two screen positions, as [dualPointerPan] computes its
    centres *)
Definition centreOf (a b : ScreenPos) : ScreenPos :=
  mkScreenPos ((x a + x b) * (1 # 2)) ((y a + y b) * (1 # 2)).

(** the settings of [th'] are those of [th]: the map, the DPI, the panning
    mode, the listeners and the six enable flags *)
Definition sameSettings (th th' : TouchHandler) : Prop :=
  m_map th' = m_map th
  /\ m_dpi th' = m_dpi th
  /\ m_panningMode th' = m_panningMode th
  /\ m_mapClickListener th' = m_mapClickListener th
  /\ m_mapInteractionListener th' = m_mapInteractionListener th
  /\ m_zoomEnabled th' = m_zoomEnabled th
  /\ m_panEnabled th' = m_panEnabled th
  /\ m_doubleTapEnabled th' = m_doubleTapEnabled th
  /\ m_doubleTapDragEnabled th' = m_doubleTapDragEnabled th
  /\ m_tiltEnabled th' = m_tiltEnabled th
  /\ m_rotateEnabled th' = m_rotateEnabled th.

(** the engine has no interaction listener and no interaction is consumed *)
Definition unlistened (th : TouchHandler) : Prop :=
  m_mapInteractionListener th = None /\ m_interactionConsumed th = false.

(** ** [MapView.handleTouchEventNew] of the Android platform *)

Module MapView.

(** the constants of MapView.java *)
Definition NATIVE_ACTION_POINTER_1_DOWN : Z := 0.
Definition NATIVE_ACTION_POINTER_2_DOWN : Z := 1.
Definition NATIVE_ACTION_MOVE : Z := 2.
Definition NATIVE_ACTION_CANCEL : Z := 3.
Definition NATIVE_ACTION_POINTER_1_UP : Z := 4.
Definition NATIVE_ACTION_POINTER_2_UP : Z := 5.
Definition NATIVE_NO_COORDINATE : float := -1.
Definition INVALID_POINTER_ID : Z := -1.

(** [MotionEvent.getActionMasked()], by the constants the switch names;
    [ACTION_OTHER] is any other value. *)
Inductive MaskedAction : Type :=
| ACTION_DOWN | ACTION_POINTER_DOWN | ACTION_MOVE | ACTION_CANCEL
| ACTION_UP | ACTION_POINTER_UP | ACTION_OTHER.

(** [android.view.MotionEvent], as far as the handler reads it.  The class
    belongs to the platform: its accessors are parameters.  An accessor
    that takes a pointer index answers [None] where the platform throws
    [IllegalArgumentException]. *)
Record MotionEvent : Type := mkMotionEvent {
  getActionMasked : MaskedAction;
  getActionIndex : Z;
  getPointerCount : Z;
  getPointerId : Z -> option Z;
  findPointerIndex : Z -> Z;
  getX : Z -> option float;
  getY : Z -> option float
}.

(** The fields of [MapView] the handler reads and writes, with what it
    asks of its superclass ([isClickable()], [isLongClickable()],
    [isEnabled()]). *)
Record State : Type := mkState {
  mapController : bool;        (* [mapController] is not null *)
  nativeMap : bool;            (* [mapController.nativeMap] is not null *)
  pointer1Id : Z;
  pointer2Id : Z;
  useNewTouchHandling : bool;
  isClickable : bool;
  isLongClickable : bool;
  isEnabled : bool
}.

Definition set_pointer1Id (id : Z) (s : State) : State :=
  {| mapController := mapController s; nativeMap := nativeMap s;
     pointer1Id := id; pointer2Id := pointer2Id s;
     useNewTouchHandling := useNewTouchHandling s;
     isClickable := isClickable s; isLongClickable := isLongClickable s;
     isEnabled := isEnabled s |}.

Definition set_pointer2Id (id : Z) (s : State) : State :=
  {| mapController := mapController s; nativeMap := nativeMap s;
     pointer1Id := pointer1Id s; pointer2Id := id;
     useNewTouchHandling := useNewTouchHandling s;
     isClickable := isClickable s; isLongClickable := isLongClickable s;
     isEnabled := isEnabled s |}.

Definition set_useNewTouchHandling (b : bool) (s : State) : State :=
  {| mapController := mapController s; nativeMap := nativeMap s;
     pointer1Id := pointer1Id s; pointer2Id := pointer2Id s;
     useNewTouchHandling := b;
     isClickable := isClickable s; isLongClickable := isLongClickable s;
     isEnabled := isEnabled s |}.

(** a call [mapController.nativeMap.handleTouchEvent(action, x1, y1, x2, y2)] *)
Record NativeCall : Type := mkNativeCall {
  action : Z;
  x1 : float;
  y1 : float;
  x2 : float;
  y2 : float
}.

(** A statement sequence of the [try] block: it ends normally with a
    result or abruptly with an [IllegalArgumentException] ([None]), and in
    both cases leaves a state and the native calls made so far. *)
Record Run (A : Type) : Type := mkRun {
  normal : option A;
  after : State;
  natives : list NativeCall
}.

Arguments mkRun {A}.
Arguments normal {A}.
Arguments after {A}.
Arguments natives {A}.

Definition Java (A : Type) : Type := State -> Run A.

Definition jret {A : Type} (a : A) : Java A := fun s => mkRun (Some a) s [].

Definition jbind {A B : Type} (m : Java A) (k : A -> Java B) : Java B :=
  fun s =>
    match m s with
    | mkRun (Some a) s1 l1 =>
        match k a s1 with
        | mkRun b s2 l2 => mkRun b s2 (l1 ++ l2)
        end
    | mkRun None s1 l1 => mkRun None s1 l1
    end.

Declare Scope java_scope.
Delimit Scope java_scope with java.
Notation "a <- m ;; k" := (jbind m (fun a => k))
  (at level 61, m at next level, right associativity) : java_scope.
Notation "m ;; k" := (jbind m (fun _ => k))
  (at level 61, right associativity) : java_scope.

(** the fields as they are now *)
Definition fields : Java State := fun s => mkRun (Some s) s [].

(** an assignment to a field *)
Definition store (f : State -> State) : Java unit := fun s => mkRun (Some tt) (f s) [].

(** the answer of an accessor of the event *)
Definition answer {A : Type} (r : option A) : Java A := fun s => mkRun r s [].

(** [mapController.nativeMap.handleTouchEvent(act, px1, py1, px2, py2)] *)
Definition handleTouchEvent (act : Z) (px1 py1 px2 py2 : float) : Java unit :=
  fun s => mkRun (Some tt) s [mkNativeCall act px1 py1 px2 py2].

Local Open Scope java_scope.

(** a native call with the position of one pointer, given by its index *)
Definition forwardOne (event : MotionEvent) (act : Z) (pointer1Index : Z) : Java unit :=
  px1 <- answer (getX event pointer1Index) ;;
  py1 <- answer (getY event pointer1Index) ;;
  handleTouchEvent act px1 py1 NATIVE_NO_COORDINATE NATIVE_NO_COORDINATE.

(** a native call with the positions of two pointers, given by their
    indices; the arguments are evaluated from left to right *)
Definition forwardTwo (event : MotionEvent) (act : Z) (pointer1Index pointer2Index : Z)
  : Java unit :=
  px1 <- answer (getX event pointer1Index) ;;
  py1 <- answer (getY event pointer1Index) ;;
  px2 <- answer (getX event pointer2Index) ;;
  py2 <- answer (getY event pointer2Index) ;;
  handleTouchEvent act px1 py1 px2 py2.

(** the [switch] of [handleTouchEventNew] *)
Definition switchOnAction (event : MotionEvent) : Java unit :=
  match getActionMasked event with
  | ACTION_DOWN =>
      let pointer1Index := getActionIndex event in
      id <- answer (getPointerId event pointer1Index) ;;
      store (set_pointer1Id id) ;;
      forwardOne event NATIVE_ACTION_POINTER_1_DOWN pointer1Index
  | ACTION_POINTER_DOWN =>
      if (getPointerCount event =? 2)%Z then
        s <- fields ;;
        (* which pointer to use *)
        if negb (pointer1Id s =? INVALID_POINTER_ID)%Z then
          let pointer1Index := findPointerIndex event (pointer1Id s) in
          let pointer2Index := getActionIndex event in
          id <- answer (getPointerId event (getActionIndex event)) ;;
          store (set_pointer2Id id) ;;
          forwardTwo event NATIVE_ACTION_POINTER_2_DOWN pointer1Index pointer2Index
        else if negb (pointer2Id s =? INVALID_POINTER_ID)%Z then
          let pointer2Index := findPointerIndex event (pointer2Id s) in
          let pointer1Index := getActionIndex event in
          id <- answer (getPointerId event (getActionIndex event)) ;;
          store (set_pointer1Id id) ;;
          forwardTwo event NATIVE_ACTION_POINTER_2_DOWN pointer1Index pointer2Index
        else jret tt
      else jret tt
  | ACTION_MOVE =>
      s <- fields ;;
      if negb (pointer1Id s =? INVALID_POINTER_ID)%Z
         && (pointer2Id s =? INVALID_POINTER_ID)%Z then
        let pointer1Index := findPointerIndex event (pointer1Id s) in
        forwardOne event NATIVE_ACTION_MOVE pointer1Index
      else if negb (pointer1Id s =? INVALID_POINTER_ID)%Z
              && negb (pointer2Id s =? INVALID_POINTER_ID)%Z then
        let pointer1Index := findPointerIndex event (pointer1Id s) in
        let pointer2Index := findPointerIndex event (pointer2Id s) in
        forwardTwo event NATIVE_ACTION_MOVE pointer1Index pointer2Index
      else jret tt
  | ACTION_CANCEL =>
      handleTouchEvent NATIVE_ACTION_CANCEL NATIVE_NO_COORDINATE NATIVE_NO_COORDINATE
                       NATIVE_NO_COORDINATE NATIVE_NO_COORDINATE ;;
      store (set_pointer1Id INVALID_POINTER_ID) ;;
      store (set_pointer2Id INVALID_POINTER_ID)
  | ACTION_UP | ACTION_POINTER_UP =>
      let pointerIndex := getActionIndex event in
      pointerId <- answer (getPointerId event pointerIndex) ;;
      s <- fields ;;
      if (pointer1Id s =? pointerId)%Z && (pointer2Id s =? INVALID_POINTER_ID)%Z then
        (* single pointer *)
        let pointer1Index := findPointerIndex event (pointer1Id s) in
        forwardOne event NATIVE_ACTION_POINTER_1_UP pointer1Index ;;
        store (set_pointer1Id INVALID_POINTER_ID)
      else if (pointer1Id s =? pointerId)%Z then
        (* dual pointer, first pointer up *)
        let pointer1Index := findPointerIndex event (pointer1Id s) in
        let pointer2Index := findPointerIndex event (pointer2Id s) in
        forwardTwo event NATIVE_ACTION_POINTER_1_UP pointer1Index pointer2Index ;;
        store (fun s => set_pointer1Id (pointer2Id s) s) ;;
        store (set_pointer2Id INVALID_POINTER_ID)
      else if (pointer2Id s =? pointerId)%Z then
        (* dual pointer, second pointer up *)
        let pointer1Index := findPointerIndex event (pointer1Id s) in
        let pointer2Index := findPointerIndex event (pointer2Id s) in
        forwardTwo event NATIVE_ACTION_POINTER_2_UP pointer1Index pointer2Index ;;
        store (set_pointer2Id INVALID_POINTER_ID)
      else jret tt
  | ACTION_OTHER => jret tt
  end.

(** What a call of the handler leaves: its result, the fields, and the
    native calls it made. *)
Record Handled : Type := mkHandled {
  result : bool;
  fieldsAfter : State;
  forwarded : list NativeCall
}.

(** [MapView.handleTouchEventNew]; the [catch] clause logs the exception
    and returns [false] *)
Definition handleTouchEventNew (event : MotionEvent) (s : State) : Handled :=
  if negb (mapController s) || negb (nativeMap s) then mkHandled false s []
  else
    let clickable := isClickable s || isLongClickable s in
    if negb (isEnabled s) || negb clickable then mkHandled clickable s []
    else
      match switchOnAction event s with
      | mkRun (Some _) s' l => mkHandled true s' l
      | mkRun None s' l => mkHandled false s' l
      end.

(** [MapView.setNewTouchHandlingEnabled] *)
Definition setNewTouchHandlingEnabled (enabled : bool) (s : State) : State :=
  set_useNewTouchHandling enabled s.

(** [MapView.onTouchEvent]; [handleGesture] is the answer of
    [mapController.handleGesture(this, ev)], the gesture detectors of the
    legacy path *)
Definition onTouchEvent (handleGesture : MotionEvent -> bool) (ev : MotionEvent)
  (s : State) : Handled :=
  if mapController s then
    if useNewTouchHandling s then handleTouchEventNew ev s
    else mkHandled (handleGesture ev) s []
  else mkHandled false s [].

(** a sequence of events through the handler: the native calls, in order,
    and the fields at the end *)
Fixpoint handleAll (evs : list MotionEvent) (s : State) : State * list NativeCall :=
  match evs with
  | [] => (s, [])
  | ev :: rest =>
      let h := handleTouchEventNew ev s in
      let (s', l) := handleAll rest (fieldsAfter h) in
      (s', forwarded h ++ l)
  end.

(** the fields of a view as constructed, with a map, that takes clicks *)
Definition created : State :=
  {| mapController := true; nativeMap := true;
     pointer1Id := INVALID_POINTER_ID; pointer2Id := INVALID_POINTER_ID;
     useNewTouchHandling := false;
     isClickable := true; isLongClickable := false; isEnabled := true |}.

(** pointer 2 is tracked only beside pointer 1 *)
Definition pointer2BesidePointer1 (s : State) : Prop :=
  pointer2Id s <> INVALID_POINTER_ID -> pointer1Id s <> INVALID_POINTER_ID.

(** no pointer of the event has the id [INVALID_POINTER_ID] *)
Definition idsAreValid (ev : MotionEvent) : Prop :=
  forall i id, getPointerId ev i = Some id -> id <> INVALID_POINTER_ID.

(** the actions of the engine that an event of the platform can stand for *)
Definition actionsOf (m : MaskedAction) : list TouchAction :=
  match m with
  | ACTION_DOWN => [POINTER_1_DOWN]
  | ACTION_POINTER_DOWN => [POINTER_2_DOWN]
  | ACTION_MOVE => [MOVE]
  | ACTION_CANCEL => [CANCEL]
  | ACTION_UP | ACTION_POINTER_UP => [POINTER_1_UP; POINTER_2_UP]
  | ACTION_OTHER => []
  end.

Definition TouchAction_eqb (a b : TouchAction) : bool :=
  (TouchAction_value a =? TouchAction_value b)%Z.

(** the native call [c] carries the number of one of the actions [acts] *)
Definition carriesOneOf (acts : list TouchAction) (c : NativeCall) : bool :=
  match TouchAction_of_value (action c) with
  | Some a => existsb (TouchAction_eqb a) acts
  | None => false
  end.

End MapView.

(** ** Concrete gestures and events *)

Module Gestures.

Import Examples.

(** a finger goes down at (100, 100) and drags: the engine is panning *)
Definition panning : Outcome Ref.View unit :=
  run [ at_ 1000 POINTER_1_DOWN (mkScreenPos 100 100) noPos;
        at_ 1100 MOVE (mkScreenPos 200 100) noPos ]
      Ref.engine0.

(** two fingers go down and move down together, a quarter of an inch: the
    engine is tilting *)
Definition tiltBegun : Outcome Ref.View unit :=
  run [ at_ 1000 POINTER_1_DOWN (mkScreenPos 300 300) noPos;
        at_ 1050 POINTER_2_DOWN (mkScreenPos 300 300) (mkScreenPos 500 300);
        at_ 1100 MOVE (mkScreenPos 300 300) (mkScreenPos 500 300);
        at_ 1150 MOVE (mkScreenPos 300 340) (mkScreenPos 500 340) ]
      Ref.engine0.

(** the two fingers move down together after the guess began *)
Definition sameSwipe : TouchEvent :=
  at_ 1150 MOVE (mkScreenPos 300 340) (mkScreenPos 500 340).

(** under the panning mode Sticky, two fingers move apart vertically,
    twice: the engine is rotating *)
Definition rotateBegun : Outcome Ref.View unit :=
  run [ at_ 1000 POINTER_1_DOWN (mkScreenPos 300 300) noPos;
        at_ 1050 POINTER_2_DOWN (mkScreenPos 300 300) (mkScreenPos 500 300);
        at_ 1100 MOVE (mkScreenPos 300 300) (mkScreenPos 500 300);
        oppositeSwipe; oppositeSwipeAgain ]
      (self (setPanningMode Ref.View STICKY Ref.engine0 Ref.view0)).

(** with rotate disabled, two fingers go down and move 1.25 inch apart in
    y: the engine is in DualFree mode *)
Definition pinchBegun : Outcome Ref.View unit :=
  run [ at_ 1000 POINTER_1_DOWN (mkScreenPos 300 300) noPos;
        at_ 1050 POINTER_2_DOWN (mkScreenPos 300 300) (mkScreenPos 500 300);
        at_ 1100 MOVE (mkScreenPos 300 300) (mkScreenPos 500 300);
        at_ 1150 MOVE (mkScreenPos 300 200) (mkScreenPos 500 400) ]
      (self (setRotateEnabled Ref.View false Ref.engine0 Ref.view0)).

(** a click listener that consumes the double tap alone *)
Definition doubleTapListener : MapClickListener :=
  fun t _ _ => match t with DOUBLE => true | _ => false end.

(** the engine as constructed, with the passive click listener *)
Definition listening : TouchHandler :=
  self (setMapClickListener Ref.View (Some passiveClickListener) Ref.engine0 Ref.view0).

(** the engine as constructed, with double-tap drag disabled *)
Definition withoutDrag : TouchHandler :=
  self (setDoubleTapDragEnabled Ref.View false listening Ref.view0).




(** An event of the platform from its pointers, each an id and a position,
    in the order of their indices: an accessor answers for the indices
    [0 .. count - 1], and [findPointerIndex] answers -1 for an id that no
    pointer has. *)
Definition pointerAt (pointers : list (Z * ScreenPos)) (i : Z) : option (Z * ScreenPos) :=
  if (i <? 0)%Z then None else nth_error pointers (Z.to_nat i).

Fixpoint indexOf (pointers : list (Z * ScreenPos)) (id : Z) (i : Z) : Z :=
  match pointers with
  | [] => -1
  | (id', _) :: rest => if (id' =? id)%Z then i else indexOf rest id (i + 1)
  end%Z.

Definition eventOf (a : MapView.MaskedAction) (actionIndex : Z)
  (pointers : list (Z * ScreenPos)) : MapView.MotionEvent :=
  {| MapView.getActionMasked := a;
     MapView.getActionIndex := actionIndex;
     MapView.getPointerCount := Z.of_nat (length pointers);
     MapView.getPointerId := fun i => option_map fst (pointerAt pointers i);
     MapView.findPointerIndex := fun id => indexOf pointers id 0;
     MapView.getX := fun i => option_map (fun p => x (snd p)) (pointerAt pointers i);
     MapView.getY := fun i => option_map (fun p => y (snd p)) (pointerAt pointers i) |}.

(** two fingers, with the ids 0 and 1, go down one after the other *)
Definition twoFingersDown : list MapView.MotionEvent :=
  [ eventOf MapView.ACTION_DOWN 0 [(0%Z, mkScreenPos 300 300)];
    eventOf MapView.ACTION_POINTER_DOWN 1
            [(0%Z, mkScreenPos 300 300); (1%Z, mkScreenPos 500 300)] ].

(** the first of them lifts, and the other one moves *)
Definition firstFingerUp : MapView.MotionEvent :=
  eventOf MapView.ACTION_POINTER_UP 0
          [(0%Z, mkScreenPos 310 300); (1%Z, mkScreenPos 500 300)].

Definition otherFingerMoves : MapView.MotionEvent :=
  eventOf MapView.ACTION_MOVE 0 [(1%Z, mkScreenPos 520 310)].

(** a third finger, with the id 2, goes down beside the two *)
Definition thirdFingerDown : MapView.MotionEvent :=
  eventOf MapView.ACTION_POINTER_DOWN 2
          [(0%Z, mkScreenPos 300 300); (1%Z, mkScreenPos 500 300); (2%Z, mkScreenPos 400 500)].

(** the fields of the view after the two fingers went down *)
Definition twoTracked : MapView.State :=
  fst (MapView.handleAll twoFingersDown MapView.created).

End Gestures.

(** * Verification *)

(** ** Proof automation

    [eff_unfold] runs a computation of the engine symbolically
    ([eff_unfold_outer] leaves the calls of [dualPointerPan] and
    [dualPointerGuess] folded), [rec_simpl] reads fields of updated
    engines, [break_match] splits on the condition a computation waits
    for, and [run] follows every branch. *)

Ltac eff_unfold := cbv beta iota zeta delta [
    onTouchEvent updatePointerCount askInteractionListener dualPointerGuess dualPointerPan
    dualPointerTilt startDualPointer handleDualTap handleLongPress handleDoubleTap
    handleSingleTap singlePointerZoom startSinglePointerZoom singlePointerPan getTranslation
    setVelocity update cancel setGesturesEnabled setDpi setPanningMode setMap
    setMapClickListener setMapInteractionListener view_translate view_translate2 view_zoom
    view_yaw view_pitch map_handleDoubleTapGesture dispatch bind ret this assign view
    perform callback when
    setZoomEnabled setPanEnabled setDoubleTapEnabled setDoubleTapDragEnabled
    setTiltEnabled setRotateEnabled].
Ltac eff_unfold_outer := cbv beta iota zeta delta [
    onTouchEvent updatePointerCount askInteractionListener dualPointerTilt startDualPointer
    handleDualTap handleLongPress handleDoubleTap handleSingleTap singlePointerZoom
    startSinglePointerZoom singlePointerPan getTranslation setVelocity update cancel
    setGesturesEnabled setDpi setPanningMode setMap setMapClickListener
    setMapInteractionListener view_translate view_translate2 view_zoom view_yaw view_pitch
    map_handleDoubleTapGesture dispatch bind ret this assign view perform callback when
    setZoomEnabled setPanEnabled setDoubleTapEnabled setDoubleTapDragEnabled
    setTiltEnabled setRotateEnabled].
Ltac rec_simpl := cbn [
    self value viewOf calls app negb andb orb set_m_map set_m_dpi set_m_panningMode
    set_m_mapClickListener set_m_mapInteractionListener set_m_zoomEnabled set_m_panEnabled
    set_m_doubleTapEnabled set_m_doubleTapDragEnabled set_m_tiltEnabled set_m_rotateEnabled
    set_m_gestureMode set_m_pointersDown set_m_noDualPointerYet set_m_interactionConsumed
    set_m_prevScreenPos1 set_m_prevScreenPos2 set_m_firstTapPos set_m_doubleTapStartPos
    set_m_swipe1 set_m_swipe2 set_m_dualPointerReleaseTime set_m_firstTapTime
    set_m_pointer1DownTime set_m_singlePointerZoomStartZoom set_m_velocityPan
    set_m_velocityZoom m_map m_dpi m_panningMode m_mapClickListener m_mapInteractionListener
    m_zoomEnabled m_panEnabled m_doubleTapEnabled m_doubleTapDragEnabled m_tiltEnabled
    m_rotateEnabled m_gestureMode m_pointersDown m_noDualPointerYet m_interactionConsumed
    m_prevScreenPos1 m_prevScreenPos2 m_firstTapPos m_doubleTapStartPos m_swipe1 m_swipe2
    m_dualPointerReleaseTime m_firstTapTime m_pointer1DownTime m_singlePointerZoomStartZoom
    m_velocityPan m_velocityZoom].
Ltac break_match :=
  match goal with
  | |- context [match m_gestureMode ?t with _ => _ end] => destruct (m_gestureMode t) eqn:?
  | |- context [match m_mapInteractionListener ?t with _ => _ end] =>
      destruct (m_mapInteractionListener t) eqn:?
  | |- context [match m_mapClickListener ?t with _ => _ end] =>
      destruct (m_mapClickListener t) eqn:?
  | |- context [if ?b then _ else _] => destruct b eqn:?
  end.
Ltac run := eff_unfold; rec_simpl; repeat (break_match; cbv beta iota; rec_simpl).

(** ** Comparisons of rationals *)

Lemma Qltb_lt (a b : Q) : Qltb a b = true <-> a < b.
Proof.
  unfold Qltb. rewrite negb_true_iff. split.
  - intros H. apply Qnot_le_lt. intros Hle. apply Qle_bool_iff in Hle. congruence.
  - intros H. destruct (Qle_bool b a) eqn:E; [|reflexivity].
    apply Qle_bool_iff in E. exfalso. exact (Qlt_not_le _ _ H E).
Qed.

Lemma Qltb_ge (a b : Q) : Qltb a b = false <-> b <= a.
Proof.
  unfold Qltb. rewrite negb_false_iff. apply Qle_bool_iff.
Qed.

Lemma Qgtb_gt (a b : Q) : Qgtb a b = true <-> b < a.
Proof. apply Qltb_lt. Qed.

Lemma Qgtb_le (a b : Q) : Qgtb a b = false <-> a <= b.
Proof. apply Qltb_ge. Qed.

Lemma Qleb_le (a b : Q) : Qleb a b = true <-> a <= b.
Proof. apply Qle_bool_iff. Qed.

(** ** Quotients by a divisor that is not zero, and by zero *)

Lemma Qeq_bool_false (a b : Q) : ~ a == b -> Qeq_bool a b = false.
Proof.
  intros H. destruct (Qeq_bool a b) eqn:E; [|reflexivity].
  exfalso. apply H. apply Qeq_bool_iff. exact E.
Qed.

Lemma ieee_div_nonzero (a d : Q) : ~ d == 0 -> ieee.div a d = Finite (a / d).
Proof. intros H. unfold ieee.div. rewrite (Qeq_bool_false _ _ H). reflexivity. Qed.

Lemma ieee_gtb_div (a d b : Q) :
  ~ d == 0 -> ieee.gtb (ieee.div a d) b = Qgtb (a / d) b.
Proof. intros H. rewrite (ieee_div_nonzero _ _ H). reflexivity. Qed.

Lemma Qdiv_by_zero (a d : Q) : d == 0 -> a / d == 0.
Proof.
  intros H. unfold Qdiv. rewrite H. unfold Qinv. cbn. ring.
Qed.

(** a rational quotient above a bound that is not negative has a divisor
    that is not zero *)
Lemma ieee_gtb_div_above (a d b : Q) :
  0 <= b -> b < a / d -> ieee.gtb (ieee.div a d) b = true.
Proof.
  intros Hb Hlt.
  assert (Hd : ~ d == 0).
  { intros E. rewrite (Qdiv_by_zero a d E) in Hlt. lra. }
  rewrite (ieee_gtb_div _ _ _ Hd). apply Qltb_lt. exact Hlt.
Qed.

(** the quotient of a positive float by zero is above every bound, the
    quotient of zero by zero above none *)
Lemma ieee_gtb_div_zero (a d b : Q) :
  d == 0 -> ieee.gtb (ieee.div a d) b = Qltb 0 a.
Proof.
  intros H. unfold ieee.div.
  assert (E : Qeq_bool d 0 = true) by (apply Qeq_bool_iff; exact H).
  rewrite E. destruct (a ?= 0) eqn:C; cbn [ieee.gtb]; symmetry.
  - apply Qltb_ge. apply Qeq_alt in C. lra.
  - apply Qltb_ge. apply Qlt_alt in C. lra.
  - apply Qltb_lt. apply Qgt_alt in C. lra.
Qed.

(** a float above a bound is not at most that bound *)
Lemma ieee_gtb_not_leb (a : xfloat) (b : Q) : ieee.gtb a b = true -> ieee.leb a b = false.
Proof.
  destruct a as [q| | |]; cbn [ieee.gtb ieee.leb]; intros H;
    try solve [reflexivity | discriminate H].
  apply Qgtb_gt in H. destruct (Qleb q b) eqn:E; [|reflexivity].
  apply Qleb_le in E. lra.
Qed.

(** ** What every call of [onTouchEvent] does *)

Section Frame.

Variable M : MathLib.
Variable V : Type.
Variable VO : ViewOps V.

(** the outcome of a sequence, field by field *)
Lemma self_bind {A B : Type} (m : Eff V A) (k : A -> Eff V B) th v :
  self (bind m k th v) = self (k (value (m th v)) (self (m th v)) (viewOf (m th v))).
Proof. unfold bind. destruct (m th v). cbn. destruct (k _ _ _). reflexivity. Qed.

Lemma viewOf_bind {A B : Type} (m : Eff V A) (k : A -> Eff V B) th v :
  viewOf (bind m k th v) = viewOf (k (value (m th v)) (self (m th v)) (viewOf (m th v))).
Proof. unfold bind. destruct (m th v). cbn. destruct (k _ _ _). reflexivity. Qed.

Lemma calls_bind {A B : Type} (m : Eff V A) (k : A -> Eff V B) th v :
  calls (bind m k th v)
  = calls (m th v) ++ calls (k (value (m th v)) (self (m th v)) (viewOf (m th v))).
Proof. unfold bind. destruct (m th v). cbn. destruct (k _ _ _). reflexivity. Qed.

(** [dualPointerPan] and [dualPointerGuess] are quiet *)
Lemma dualPointerPan_quiet (p1 p2 : ScreenPos) (rotate scale : bool)
  (th : TouchHandler) (v : V) :
  Quiet th (dualPointerPan M V VO p1 p2 rotate scale th v).
Proof. run; unfold Quiet; rec_simpl; repeat split. Qed.

Lemma dualPointerGuess_quiet (p1 p2 : ScreenPos) (th : TouchHandler) (v : V) :
  Quiet th (dualPointerGuess M V p1 p2 th v).
Proof. run; unfold Quiet; rec_simpl; repeat split. Qed.

(** a call of a quiet member function is replaced by its outcome *)
Ltac quiet_call :=
  match goal with
  | |- context [dualPointerPan M V VO ?p1 ?p2 ?a ?b ?th ?v] =>
      generalize (dualPointerPan_quiet p1 p2 a b th v);
      destruct (dualPointerPan M V VO p1 p2 a b th v) as [? ? ? ?];
      unfold Quiet; rec_simpl; intros (? & ? & ? & ? & ?)
  | |- context [dualPointerGuess M V ?p1 ?p2 ?th ?v] =>
      generalize (dualPointerGuess_quiet p1 p2 th v);
      destruct (dualPointerGuess M V p1 p2 th v) as [? ? ? ?];
      unfold Quiet; rec_simpl; intros (? & ? & ? & ? & ?)
  end.

(** every call of [onTouchEvent] is framed *)
Lemma onTouchEvent_frame (th : TouchHandler) (v : V) (a : TouchAction)
  (p1 p2 : ScreenPos) (now later : time_point) :
  Framed th a (onTouchEvent M V VO a p1 p2 now later th v).
Proof.
  destruct a; eff_unfold_outer; rec_simpl;
    repeat (first [break_match | quiet_call]; cbv beta iota; rec_simpl);
    unfold Framed, consumedInGuess; rec_simpl;
    (split; [solve [reflexivity | assumption]|]);
    (split; [cbn [existsb isInteractionConsumed orb]; rewrite ?orb_false_r, ?app_nil_r;
             solve [discriminate | intros; assumption | reflexivity | congruence]|]);
    (split; [solve [left; solve [reflexivity | assumption] | right; reflexivity]|]);
    (split; [solve [left; solve [reflexivity | assumption] | right; reflexivity]|]);
    repeat match goal with
           | H : negb _ = true |- _ => apply negb_true_iff in H
           | H : negb _ = false |- _ => apply negb_false_iff in H
           end;
    split; intuition congruence.
Qed.

(** the pointer count after one call, and after a sequence of calls *)
Lemma onTouchEvent_pointersDown (th : TouchHandler) (v : V) (a : TouchAction)
  (p1 p2 : ScreenPos) (now later : time_point) :
  m_pointersDown (self (onTouchEvent M V VO a p1 p2 now later th v))
  = pointerStep (m_pointersDown th) a.
Proof. apply onTouchEvent_frame. Qed.

(** an answer [true] of the interaction listener is in [m_interactionConsumed]
    when the call returns *)
Lemma listener_answer_is_stored (th : TouchHandler) (v : V) (a : TouchAction)
  (p1 p2 : ScreenPos) (now later : time_point) :
  existsb isInteractionConsumed (calls (onTouchEvent M V VO a p1 p2 now later th v)) = true ->
  m_interactionConsumed (self (onTouchEvent M V VO a p1 p2 now later th v)) = true.
Proof. apply onTouchEvent_frame. Qed.

(** [consumedInGuess] is kept by every call, and under it a set
    [m_interactionConsumed] is kept by every action but a P1Down *)
Lemma onTouchEvent_consumedInGuess (th : TouchHandler) (v : V) (a : TouchAction)
  (p1 p2 : ScreenPos) (now later : time_point) :
  consumedInGuess th ->
  consumedInGuess (self (onTouchEvent M V VO a p1 p2 now later th v)).
Proof. apply onTouchEvent_frame. Qed.

Lemma consumed_persists (th : TouchHandler) (v : V) (a : TouchAction)
  (p1 p2 : ScreenPos) (now later : time_point) :
  consumedInGuess th ->
  m_interactionConsumed th = true ->
  a <> POINTER_1_DOWN ->
  m_interactionConsumed (self (onTouchEvent M V VO a p1 p2 now later th v)) = true.
Proof. apply onTouchEvent_frame. Qed.

Lemma onTouchEvents_pointersDown (evs : list TouchEvent) :
  forall th v,
    m_pointersDown (self (onTouchEvents M V VO evs th v))
    = fold_left pointerStep (map ev_action evs) (m_pointersDown th).
Proof.
  induction evs as [|e rest IH]; intros th v.
  - reflexivity.
  - cbn [onTouchEvents map fold_left]. rewrite self_bind, IH.
    unfold dispatch. rewrite onTouchEvent_pointersDown. reflexivity.
Qed.

End Frame.

(** ** Counting pointers *)

(** the clamped count stays within 0..2 *)
Lemma pointerStep_range (n : Z) (a : TouchAction) :
  (0 <= n <= 2)%Z -> (0 <= pointerStep n a <= 2)%Z.
Proof. destruct a; cbn; lia. Qed.

Lemma fold_pointerStep_range (acts : list TouchAction) :
  forall n, (0 <= n <= 2)%Z -> (0 <= fold_left pointerStep acts n <= 2)%Z.
Proof.
  induction acts as [|a rest IH]; intros n Hn; cbn [fold_left].
  - exact Hn.
  - apply IH, pointerStep_range, Hn.
Qed.

(** [downsMinusUps] one action later *)
Lemma existsb_isCancel_snoc (acts : list TouchAction) (a : TouchAction) :
  existsb isCancel (acts ++ [a]) = existsb isCancel acts || isCancel a.
Proof. rewrite existsb_app. cbn. now rewrite orb_false_r. Qed.

Lemma sinceLastCancel_no_cancel (acts : list TouchAction) :
  existsb isCancel acts = false -> sinceLastCancel acts = acts.
Proof.
  destruct acts as [|a rest]; [reflexivity|].
  cbn. intros H. apply orb_false_iff in H as [Ha Hr]. now rewrite Hr, Ha.
Qed.

Lemma sinceLastCancel_snoc (acts : list TouchAction) (a : TouchAction) :
  sinceLastCancel (acts ++ [a])
  = if isCancel a then [] else sinceLastCancel acts ++ [a].
Proof.
  induction acts as [|b rest IH].
  - cbn. destruct (isCancel a); reflexivity.
  - cbn [app sinceLastCancel]. rewrite existsb_isCancel_snoc, IH.
    destruct (isCancel a) eqn:Ha.
    + now rewrite orb_true_r.
    + rewrite orb_false_r. destruct (existsb isCancel rest); [reflexivity|].
      destruct (isCancel b); reflexivity.
Qed.

Lemma countZ_snoc (p : TouchAction -> bool) (acts : list TouchAction) (a : TouchAction) :
  countZ p (acts ++ [a]) = (countZ p acts + if p a then 1 else 0)%Z.
Proof.
  unfold countZ. rewrite filter_app, length_app. cbn [filter].
  destruct (p a); cbn [length]; lia.
Qed.

Lemma downsMinusUps_snoc (acts : list TouchAction) (a : TouchAction) :
  downsMinusUps (acts ++ [a]) = tally (downsMinusUps acts) a.
Proof.
  unfold downsMinusUps. rewrite sinceLastCancel_snoc.
  destruct a; cbn [isCancel tally]; try reflexivity;
    rewrite !countZ_snoc; cbn [isDown isUp]; lia.
Qed.

(** while the count stays in range, the clamp does not bite *)
Lemma staysInRange_snoc (acts : list TouchAction) (a : TouchAction) :
  staysInRange (acts ++ [a]) ->
  staysInRange acts /\ (0 <= downsMinusUps (acts ++ [a]) <= 2)%Z.
Proof.
  intros H. split.
  - intros k. destruct (Nat.le_gt_cases k (length acts)) as [Hk|Hk].
    + specialize (H k). rewrite firstn_app in H.
      replace (k - length acts)%nat with 0%nat in H by lia.
      cbn [firstn] in H. now rewrite app_nil_r in H.
    + rewrite firstn_all2 by lia. specialize (H (length acts)).
      rewrite firstn_app, Nat.sub_diag, firstn_all in H. cbn [firstn] in H.
      now rewrite app_nil_r in H.
  - specialize (H (length (acts ++ [a]))). now rewrite firstn_all in H.
Qed.

Lemma clampedCount_snoc (acts : list TouchAction) (a : TouchAction) :
  clampedCount (acts ++ [a]) = pointerStep (clampedCount acts) a.
Proof. unfold clampedCount. now rewrite fold_left_app. Qed.

Lemma clampedCount_in_range (acts : list TouchAction) :
  staysInRange acts -> clampedCount acts = downsMinusUps acts.
Proof.
  induction acts as [|a acts IH] using rev_ind; intros H.
  - reflexivity.
  - apply staysInRange_snoc in H as [Hacts Hlast].
    rewrite clampedCount_snoc, IH by exact Hacts.
    rewrite downsMinusUps_snoc in *.
    destruct a; cbn [pointerStep tally] in *; lia.
Qed.

(** ** Arithmetic of the kinetic decay *)


Lemma std_min_below (a : Q) : a < 1 -> std_min a 1 = a.
Proof.
  intros Ha. unfold std_min. destruct (Qltb 1 a) eqn:E; [|reflexivity].
  apply Qltb_lt in E. lra.
Qed.





(** ** Properties of the engine *)

Section Properties.

Variable M : MathLib.
Variable V : Type.
Variable VO : ViewOps V.

(** C1 (amended).  After any sequence of [onTouchEvent] calls on an engine
    whose pointer count is 0, [m_pointersDown] is 0, 1 or 2 and is the
    clamped count of the actions: a Down adds one up to 2, an Up subtracts
    one down to 0, a Cancel resets to 0.  It is the number of Downs minus
    the number of Ups since the last Cancel whenever that difference stayed
    within 0..2 after every action of the sequence. *)
Theorem pointersDown_is_clamped_count (th : TouchHandler) (v : V) (evs : list TouchEvent) :
  m_pointersDown th = 0%Z ->
  let p := m_pointersDown (self (onTouchEvents M V VO evs th v)) in
  (p = 0 \/ p = 1 \/ p = 2)%Z
  /\ p = clampedCount (map ev_action evs)
  /\ (staysInRange (map ev_action evs) -> p = downsMinusUps (map ev_action evs)).
Proof.
  intros H0 p.
  assert (Hp : p = clampedCount (map ev_action evs)).
  { unfold p, clampedCount. now rewrite (onTouchEvents_pointersDown M V VO), H0. }
  split; [|split].
  - pose proof (fold_pointerStep_range (map ev_action evs) 0%Z ltac:(lia)) as Hr.
    fold (clampedCount (map ev_action evs)) in Hr. lia.
  - exact Hp.
  - intros Hin. rewrite Hp. now apply clampedCount_in_range.
Qed.

(** A Move that finds [m_interactionConsumed] set does nothing at all. *)
Lemma move_when_consumed (th : TouchHandler) (v : V) (p1 p2 : ScreenPos)
  (now later : time_point) :
  m_interactionConsumed th = true ->
  onTouchEvent M V VO MOVE p1 p2 now later th v = mkOutcome true th v [].
Proof.
  intros H. eff_unfold. rewrite H. cbn [app]. rewrite H. reflexivity.
Qed.

(** A P1Down clears [m_interactionConsumed] before it asks the interaction
    listener: when it returns, the flag is the answer of the listener, and
    it is clear when the listener was not asked. *)
Lemma P1Down_resets_consumed (th : TouchHandler) (v : V) (p1 p2 : ScreenPos)
  (now later : time_point) :
  let r := onTouchEvent M V VO POINTER_1_DOWN p1 p2 now later th v in
  m_interactionConsumed (self r) = existsb isInteractionConsumed (calls r).
Proof.
  cbv zeta. run; cbn [existsb isInteractionConsumed orb]; rewrite ?orb_false_r;
    solve [reflexivity | assumption].
Qed.

(** What the [CANCEL] action does: the velocities are zeroed, the mode is
    SingleClickGuess, the pointer count is 0; [m_interactionConsumed] is
    not written. *)
Lemma onTouchEvent_CANCEL (th : TouchHandler) (v : V) (p1 p2 : ScreenPos)
  (now later : time_point) :
  let r := onTouchEvent M V VO CANCEL p1 p2 now later th v in
  m_velocityPan (self r) = glm.mk 0 0
  /\ m_velocityZoom (self r) = 0
  /\ m_gestureMode (self r) = SINGLE_POINTER_CLICK_GUESS
  /\ m_pointersDown (self r) = 0%Z
  /\ m_interactionConsumed (self r) = m_interactionConsumed th
  /\ value r = m_interactionConsumed th
  /\ viewOf r = v /\ calls r = [].
Proof. cbv zeta. eff_unfold. rec_simpl. repeat split. Qed.

(** What [cancel()] does: the same, and [m_interactionConsumed] is
    cleared. *)
Lemma cancel_clears (th : TouchHandler) (v : V) :
  let r := cancel V th v in
  m_velocityPan (self r) = glm.mk 0 0
  /\ m_velocityZoom (self r) = 0
  /\ m_gestureMode (self r) = SINGLE_POINTER_CLICK_GUESS
  /\ m_pointersDown (self r) = 0%Z
  /\ m_interactionConsumed (self r) = false.
Proof. cbv zeta. eff_unfold. rec_simpl. repeat split. Qed.

(** C10.  A P1Up in SingleClickGuess mode whose movement is below the tap
    threshold and whose tap duration is at least DOUBLE_TAP_TIMEOUT (300
    ms) and less than LONG_PRESS_TIMEOUT (500 ms) makes no call: no click
    callback, Single or Long, and no default click behaviour.  The view is
    unchanged and the mode remains SingleClickGuess; the engine changes in
    its pointer count only. *)
Theorem no_click_between_timeouts (th : TouchHandler) (v : V) (pos1 pos2 : ScreenPos)
  (now later : time_point) :
  m_gestureMode th = SINGLE_POINTER_CLICK_GUESS ->
  distance M pos1 (m_prevScreenPos1 th) < tapThresholdOf th ->
  (DOUBLE_TAP_TIMEOUT <= tapDurationOf th now < LONG_PRESS_TIMEOUT)%Z ->
  let r := onTouchEvent M V VO POINTER_1_UP pos1 pos2 now later th v in
  calls r = []
  /\ viewOf r = v
  /\ m_gestureMode (self r) = SINGLE_POINTER_CLICK_GUESS
  /\ self r = set_m_pointersDown (Z.max 0 (m_pointersDown th - 1))
                (set_m_gestureMode SINGLE_POINTER_CLICK_GUESS th).
Proof.
  intros Hmode Hdist Hdur. cbv zeta.
  unfold tapDurationOf in Hdur.
  assert (Hlong : (duration_cast_ms (now - m_pointer1DownTime th) >=? LONG_PRESS_TIMEOUT)%Z = false)
    by (rewrite Z.geb_leb; apply Z.leb_gt; lia).
  assert (Hshort : (duration_cast_ms (now - m_pointer1DownTime th) <? DOUBLE_TAP_TIMEOUT)%Z = false)
    by (apply Z.ltb_ge; lia).
  eff_unfold. rewrite Hmode. cbv beta iota. rewrite Hlong, Hshort.
  destruct (Qltb _ _); cbv beta iota; rec_simpl; repeat split.
Qed.

(** C2 (amended).  A Move in SingleZoom mode, not consumed, with
    double-tap drag enabled: the engine calls [zoom] with
    [(pos.y - prev1.y) * 0.005], then [translate] with [start - end], where
    [start] and [end] are [screenToGroundPlane] of [m_doubleTapStartPos]
    before and after the zoom, and sets [prev1] to [pos], changing nothing
    else in the engine.  On a view whose projection is relative to its
    position, the ground-plane point under [m_doubleTapStartPos] is the
    same before and after. *)
Theorem singleZoom_move (G : GroundPlaneView VO) (th : TouchHandler) (v : V)
  (pos pos2 : ScreenPos) (now later : time_point) :
  m_gestureMode th = SINGLE_POINTER_ZOOM ->
  m_interactionConsumed th = false ->
  m_doubleTapDragEnabled th = true ->
  let anchor := m_doubleTapStartPos th in
  let zoomDelta := (y pos - y (m_prevScreenPos1 th)) * (5 # 1000) in
  let elev := screenPositionToLngLat VO v (x anchor) (y anchor) in
  let start := screenToGroundPlane VO v (x anchor) (y anchor) elev in
  let zoomed := zoom VO v zoomDelta in
  let end_ := screenToGroundPlane VO zoomed (x anchor) (y anchor) elev in
  let r := onTouchEvent M V VO MOVE pos pos2 now later th v in
  calls r = [ViewZoom zoomDelta;
             ViewTranslate (glm.x start - glm.x end_) (glm.y start - glm.y end_)]
  /\ viewOf r = translate VO zoomed (glm.x start - glm.x end_) (glm.y start - glm.y end_)
  /\ self r = set_m_prevScreenPos1 pos th
  /\ vec2_eq (groundPointUnder G (viewOf r) anchor elev) (groundPointUnder G v anchor elev).
Proof.
  intros Hmode Hc Hen. cbv zeta.
  eff_unfold. rewrite Hc. cbv beta iota. rewrite Hmode. cbv beta iota.
  rewrite Hen. cbn [negb]. cbv beta iota. rec_simpl.
  split; [reflexivity|]. split; [reflexivity|]. split; [reflexivity|].
  unfold groundPointUnder, vec2_eq.
  set (a := m_doubleTapStartPos th).
  set (dz := (y pos - y (m_prevScreenPos1 th)) * SINGLE_POINTER_ZOOM_SENSITIVITY).
  set (e := screenPositionToLngLat VO v (x a) (y a)).
  set (s := screenToGroundPlane VO v (x a) (y a) e).
  set (z := zoom VO v dz).
  set (e' := screenToGroundPlane VO z (x a) (y a) e).
  destruct (translate_moves_position VO G z (glm.x s - glm.x e') (glm.y s - glm.y e')) as [Hx Hy].
  destruct (translate_keeps_projection VO G z (glm.x s - glm.x e') (glm.y s - glm.y e') (x a) (y a) e) as [Px Py].
  destruct (zoom_keeps_position VO G v dz) as [Zx Zy].
  fold z in Zx, Zy. fold e' in Px, Py.
  cbn [glm.add glm.sub glm.x glm.y] in *.
  split; lra.
Qed.


(** [update] when the view is not flinging: nothing changes. *)
Lemma update_idle (th : TouchHandler) (v : V) (dt : float) :
  isFlinging M V VO th v = false ->
  update M V VO dt th v = mkOutcome false th v [].
Proof.
  intros H. eff_unfold. fold (isFlinging M V VO th v). rewrite H. reflexivity.
Qed.

(** [update] when the view is flinging. *)
Lemma update_flinging (th : TouchHandler) (v : V) (dt : float) :
  isFlinging M V VO th v = true ->
  let vp := dampedPan dt (m_velocityPan th) in
  let vz := dampedZoom dt (m_velocityZoom th) in
  update M V VO dt th v
  = mkOutcome true
      (set_m_velocityZoom vz (set_m_velocityPan vp th))
      (zoom VO (translate VO v (dt * glm.x vp) (dt * glm.y vp)) (vz * dt))
      [ViewTranslate (dt * glm.x vp) (dt * glm.y vp); ViewZoom (vz * dt)].
Proof.
  intros H. cbv zeta. eff_unfold. fold (isFlinging M V VO th v). rewrite H. reflexivity.
Qed.

(** Once the view is not flinging, no sequence of [update] calls changes
    anything. *)
Lemma updates_idle (dts : list float) (th : TouchHandler) (v : V) :
  isFlinging M V VO th v = false ->
  updates M V VO dts th v = mkOutcome tt th v [].
Proof.
  intros H. induction dts as [|dt rest IH]; [reflexivity|].
  cbn [updates]. unfold bind. rewrite update_idle by exact H. rewrite IH. reflexivity.
Qed.

(** what every step of a run does with [m_interactionConsumed] *)
Lemma history_steps (evs : list TouchEvent) :
  forall (th : TouchHandler) (v : V),
  Forall (fun s =>
      (existsb isInteractionConsumed (calls (outcome s)) = true ->
       m_interactionConsumed (self (outcome s)) = true)
      /\ (ev_action (event s) = MOVE ->
          m_interactionConsumed (engineBefore s) = true ->
          calls (outcome s) = []
          /\ viewOf (outcome s) = viewBefore s
          /\ self (outcome s) = engineBefore s)
      /\ (ev_action (event s) = POINTER_1_DOWN ->
          m_interactionConsumed (self (outcome s))
          = existsb isInteractionConsumed (calls (outcome s))))
    (history M V VO evs th v).
Proof.
  induction evs as [|e rest IH]; intros th v; cbn [history].
  - constructor.
  - constructor; [|apply IH]. cbn [outcome event engineBefore viewBefore].
    split; [|split].
    + apply (listener_answer_is_stored M V VO).
    + intros Ha Hc. unfold dispatch. rewrite Ha, move_when_consumed by exact Hc.
      cbn. auto.
    + intros Ha. unfold dispatch. rewrite Ha. apply P1Down_resets_consumed.
Qed.

(** in every engine that can be reached, a set [m_interactionConsumed]
    comes with one of the two click-guess modes *)
Lemma reachable_consumedInGuess (th : TouchHandler) :
  reachable M V VO th -> consumedInGuess th.
Proof.
  induction 1 as [ | th v e _ IH | th v dt _ IH | th v _ IH
                 | th v b1 b2 b3 b4 b5 b6 _ IH
                 | th v b _ IH | th v b _ IH | th v b _ IH
                 | th v b _ IH | th v b _ IH | th v b _ IH
                 | th v dpi _ IH | th v mode _ IH | th v m _ IH | th v l _ IH | th v l _ IH ];
    try exact IH.
  - intros H. discriminate H.
  - apply (onTouchEvent_consumedInGuess M V VO). exact IH.
  - destruct (isFlinging M V VO th v) eqn:E.
    + rewrite update_flinging by exact E. exact IH.
    + rewrite update_idle by exact E. exact IH.
  - intros H. discriminate H.
Qed.

(** once [m_interactionConsumed] is set, the Moves are silent up to the
    next P1Down, whatever the other actions in between *)
Lemma silent_while_consumed (evs : list TouchEvent) :
  forall (th : TouchHandler) (v : V),
    consumedInGuess th ->
    m_interactionConsumed th = true ->
    silentUntilP1Down (history M V VO evs th v).
Proof.
  induction evs as [|e rest IH]; intros th v Hg Hc; cbn [history silentUntilP1Down].
  - exact I.
  - cbn [event outcome viewBefore].
    assert (Hnext : ev_action e <> POINTER_1_DOWN ->
                    silentUntilP1Down
                      (history M V VO rest (self (dispatch M V VO e th v))
                               (viewOf (dispatch M V VO e th v)))).
    { intros Hne. apply IH.
      - apply (onTouchEvent_consumedInGuess M V VO). exact Hg.
      - apply (consumed_persists M V VO); assumption. }
    destruct (ev_action e) eqn:Ha; try (apply Hnext; discriminate).
    + exact I.
    + split; [|apply Hnext; discriminate].
      unfold dispatch. rewrite Ha, move_when_consumed by exact Hc. cbn. auto.
Qed.

(** C5.  In the run of any sequence of actions, from any engine and view:
    a call in which the interaction listener returned [true] leaves
    [m_interactionConsumed] set; every Move processed while
    [m_interactionConsumed] is set makes no call (no translate, zoom, yaw
    or pitch) and changes neither the view nor the engine; and a P1Down
    clears the flag, which is then set again only by the answer of the
    listener to that P1Down.  So, on an engine reached from construction,
    once the listener has returned [true] in a call, no Move of the
    actions that follow makes a call or changes the view, up to the next
    P1Down. *)
Theorem consumed_interaction_silences_moves (th : TouchHandler) (v : V)
  (evs : list TouchEvent) :
  Forall (fun s =>
      (existsb isInteractionConsumed (calls (outcome s)) = true ->
       m_interactionConsumed (self (outcome s)) = true)
      /\ (ev_action (event s) = MOVE ->
          m_interactionConsumed (engineBefore s) = true ->
          calls (outcome s) = []
          /\ viewOf (outcome s) = viewBefore s
          /\ self (outcome s) = engineBefore s)
      /\ (ev_action (event s) = POINTER_1_DOWN ->
          m_interactionConsumed (self (outcome s))
          = existsb isInteractionConsumed (calls (outcome s))))
    (history M V VO evs th v)
  /\ (reachable M V VO th ->
      forall e : TouchEvent,
        let r := dispatch M V VO e th v in
        existsb isInteractionConsumed (calls r) = true ->
        silentUntilP1Down (history M V VO evs (self r) (viewOf r))).
Proof.
  split; [apply history_steps|].
  intros Hr e r Hans. apply silent_while_consumed.
  - apply reachable_consumedInGuess. apply reach_onTouchEvent. exact Hr.
  - apply (listener_answer_is_stored M V VO). exact Hans.
Qed.


(** C7 (amended).  A Move in DualGuess mode, not consumed, with tilt and
    rotate-or-zoom enabled, a DPI that is not zero and the pointers at most
    1.0 inch apart in y: when, after the swipes are accumulated, some swipe
    is longer than GUESS_MIN_SWIPE_LENGTH_OPPOSITE (0.075 in), the same
    swipe had a length above zero before this Move, and the product of the
    y components is at most 0, the mode becomes DualFree under the panning
    mode Free and DualRotate under Sticky and StickyFinal.  The
    comparisons are those of the floats: a swipe left by an earlier Move
    under a DPI of zero need not be finite. *)
Theorem dualGuess_opposite_swipes (th : TouchHandler) (v : V) (pos1 pos2 : ScreenPos)
  (now later : time_point) :
  m_gestureMode th = DUAL_POINTER_GUESS ->
  m_interactionConsumed th = false ->
  m_tiltEnabled th = true ->
  m_rotateEnabled th || m_zoomEnabled th = true ->
  ~ m_dpi th == 0 ->
  std_abs (y pos1 - y pos2) / m_dpi th <= GUESS_MAX_DELTA_Y_INCHES ->
  let swipe1 := accumulatedSwipe1 th pos1 in
  let swipe2 := accumulatedSwipe2 th pos2 in
  (ieee.gt (ieee_length M swipe1) GUESS_MIN_SWIPE_LENGTH_OPPOSITE_INCHES
   /\ ieee.gt (ieee_length M (m_swipe1 th)) 0)
  \/ (ieee.gt (ieee_length M swipe2) GUESS_MIN_SWIPE_LENGTH_OPPOSITE_INCHES
      /\ ieee.gt (ieee_length M (m_swipe2 th)) 0) ->
  ieee.le (ieee.mul (ieee.y swipe1) (ieee.y swipe2)) 0 ->
  let r := onTouchEvent M V VO MOVE pos1 pos2 now later th v in
  m_gestureMode (self r)
  = match m_panningMode th with
    | FREE => DUAL_POINTER_FREE
    | STICKY | STICKY_FINAL => DUAL_POINTER_ROTATE
    end
  /\ m_swipe1 (self r) = swipe1
  /\ m_swipe2 (self r) = swipe2
  /\ calls r = [] /\ viewOf r = v.
Proof.
  intros Hmode Hc Htilt Hrz Hdpi Hdy swipe1 swipe2 Hlen Hprod. cbv zeta.
  assert (Hsep : ieee.gtb (ieee.div (std_abs (y pos1 - y pos2)) (m_dpi th))
                          GUESS_MAX_DELTA_Y_INCHES = false)
    by (rewrite (ieee_gtb_div _ _ _ Hdpi); apply Qgtb_le; exact Hdy).
  assert (Hcond :
    (ieee.gtb (ieee_length M swipe1) GUESS_MIN_SWIPE_LENGTH_OPPOSITE_INCHES
     && ieee.gtb (ieee_length M (m_swipe1 th)) 0
     || ieee.gtb (ieee_length M swipe2) GUESS_MIN_SWIPE_LENGTH_OPPOSITE_INCHES
        && ieee.gtb (ieee_length M (m_swipe2 th)) 0)
    && ieee.leb (ieee.mul (ieee.y swipe1) (ieee.y swipe2)) 0 = true).
  { apply andb_true_iff. split; [|exact Hprod].
    apply orb_true_iff.
    destruct Hlen as [[H1 H2]|[H1 H2]]; [left|right];
      apply andb_true_iff; split; assumption. }
  subst swipe1 swipe2. unfold accumulatedSwipe1, accumulatedSwipe2, accumulatedSwipe in *.
  eff_unfold. rewrite Hc. cbv beta iota. rewrite Hmode. cbv beta iota.
  rewrite Htilt, Hrz. cbn [Z.add Z.eqb Pos.add Pos.eqb Z.pos_sub Pos.succ].
  cbv beta iota. rewrite Hsep. cbv beta iota. rec_simpl.
  rewrite Hcond. cbv beta iota. rewrite Hrz. cbv beta iota.
  destruct (m_panningMode th); cbn [PanningMode_eqb orb]; cbv beta iota; rec_simpl;
    repeat split.
Qed.

(** C9 (amended).  A P1Down is processed as it stands, with no implicit
    Cancel: the pointer count becomes [min(2, m_pointersDown + 1)], so it
    is 2 after a P1Down that finds one pointer down, where a Cancel
    followed by the P1Down leaves 1.  When the mode is SingleClickGuess
    the two agree on the view, the calls, the result and every other field
    of the engine. *)
Theorem duplicate_P1Down_is_plain_P1Down (th : TouchHandler) (v : V)
  (pos1 pos2 cpos1 cpos2 : ScreenPos) (now later cnow clater : time_point) :
  let direct := onTouchEvent M V VO POINTER_1_DOWN pos1 pos2 now later th v in
  let cancelled := onTouchEvent M V VO CANCEL cpos1 cpos2 cnow clater th v in
  let viaCancel :=
    onTouchEvent M V VO POINTER_1_DOWN pos1 pos2 now later
                 (self cancelled) (viewOf cancelled) in
  m_pointersDown (self direct) = Z.min 2 (m_pointersDown th + 1)
  /\ m_pointersDown (self viaCancel) = 1%Z
  /\ (m_gestureMode th = SINGLE_POINTER_CLICK_GUESS ->
      self direct = set_m_pointersDown (Z.min 2 (m_pointersDown th + 1)) (self viaCancel)
      /\ viewOf direct = viewOf viaCancel
      /\ calls direct = calls viaCancel
      /\ value direct = value viaCancel).
Proof.
  cbv zeta. split; [|split].
  - apply (onTouchEvent_pointersDown M V VO th v POINTER_1_DOWN).
  - rewrite (onTouchEvent_pointersDown M V VO).
    destruct (onTouchEvent_CANCEL th v cpos1 cpos2 cnow clater) as (_ & _ & _ & Hp & _).
    rewrite Hp. reflexivity.
  - intros Hmode.
    eff_unfold. rec_simpl. rewrite Hmode. 
    repeat (break_match; cbv beta iota; rec_simpl); repeat split.
Qed.

(** the engine a sequence of [onTouchEvent] calls leaves is reachable *)
Lemma reachable_onTouchEvents (evs : list TouchEvent) :
  forall (th : TouchHandler) (v : V),
    reachable M V VO th -> reachable M V VO (self (onTouchEvents M V VO evs th v)).
Proof.
  induction evs as [|e rest IH]; intros th v H; cbn [onTouchEvents].
  - exact H.
  - rewrite (self_bind V). apply IH. apply reach_onTouchEvent. exact H.
Qed.


(** both velocities of an engine that can be reached are zero *)
Lemma velocities_of_reachable (th : TouchHandler) :
  reachable M V VO th -> velocitiesVanish th.
Proof.
  unfold velocitiesVanish, vec2_eq.
  induction 1 as [ | th v e _ IH | th v dt _ IH | th v _ IH
                 | th v b1 b2 b3 b4 b5 b6 _ IH
                 | th v b _ IH | th v b _ IH | th v b _ IH
                 | th v b _ IH | th v b _ IH | th v b _ IH
                 | th v dpi _ IH | th v mode _ IH | th v m _ IH | th v l _ IH | th v l _ IH ];
    try exact IH.
  - cbn. repeat split; reflexivity.
  - unfold dispatch.
    destruct (onTouchEvent_frame M V VO th v (ev_action e) (ev_pos1 e) (ev_pos2 e)
                (ev_now e) (ev_later e))
      as (_ & _ & [Hp|Hp] & [Hz|Hz] & _); rewrite Hp, Hz; cbn [glm.x glm.y];
      intuition (try reflexivity).
  - destruct IH as [[Hx Hy] Hz]. cbn [glm.x glm.y] in *.
    destruct (isFlinging M V VO th v) eqn:E.
    + rewrite update_flinging by exact E. rec_simpl.
      unfold dampedPan, dampedZoom. cbn [glm.sub glm.scale glm.x glm.y].
      rewrite Hx, Hy, Hz. repeat split; ring.
    + rewrite update_idle by exact E. rec_simpl. auto.
  - cbn. repeat split; reflexivity.
Qed.

(** with both velocities zero the view is not flinging, for a square root
    that is at most 24 at zero *)
Lemma vanished_is_idle (th : TouchHandler) (v : V) :
  (forall z : Q, z == 0 -> std_sqrt M z <= THRESHOLD_STOP_PAN) ->
  velocitiesVanish th -> isFlinging M V VO th v = false.
Proof.
  intros Hsqrt [[Hx Hy] Hz]. cbn [glm.x glm.y] in Hx, Hy.
  unfold isFlinging. apply orb_false_iff. split.
  - apply Qgtb_le. apply Hsqrt.
    unfold glm.dot2, glm.scale. cbn [glm.x glm.y]. rewrite Hx, Hy. ring.
  - apply Qgtb_le. unfold std_abs. rewrite Hz. unfold THRESHOLD_STOP_ZOOM.
    cbn. discriminate.
Qed.





(** X1.  No call of the public interface gives a velocity a value other
    than zero: both velocities are zero in every engine that can be reached
    from construction. *)
Lemma reachable_velocities_vanish (th : TouchHandler) :
  reachable M V VO th -> velocitiesVanish th.
Proof.
  unfold velocitiesVanish, vec2_eq.
  induction 1 as [ | th v e _ IH | th v dt _ IH | th v _ IH
                 | th v b1 b2 b3 b4 b5 b6 _ IH
                 | th v b _ IH | th v b _ IH | th v b _ IH
                 | th v b _ IH | th v b _ IH | th v b _ IH
                 | th v dpi _ IH | th v mode _ IH | th v m _ IH | th v l _ IH | th v l _ IH ];
    try exact IH.
  - cbn. repeat split; reflexivity.
  - unfold dispatch.
    destruct (onTouchEvent_frame M V VO th v (ev_action e) (ev_pos1 e) (ev_pos2 e) (ev_now e) (ev_later e))
      as (_ & _ & [Hp|Hp] & [Hz|Hz] & _); rewrite Hp, Hz; cbn [glm.x glm.y];
      intuition (try reflexivity).
  - destruct IH as [[Hx Hy] Hz]. cbn [glm.x glm.y] in *.
    destruct (isFlinging M V VO th v) eqn:E.
    + rewrite update_flinging by exact E. rec_simpl.
      unfold dampedPan, dampedZoom. cbn [glm.sub glm.scale glm.x glm.y].
      rewrite Hx, Hy, Hz. repeat split; ring.
    + rewrite update_idle by exact E. rec_simpl. auto.
  - cbn. repeat split; reflexivity.
Qed.

End Properties.

(** ** The properties on concrete runs *)

Import Examples.

(** the pointers of the pinch stay within 0..2 *)
Lemma staysInRange_pinch : staysInRange (map ev_action pinch).
Proof.
  intros k. do 6 (destruct k as [|k]; [vm_compute; split; intros H; discriminate H|]).
  vm_compute; split; intros H; discriminate H.
Qed.

(** C1, witness: the pointer count after the pinch gesture, on the engine
    as constructed. *)
Lemma pinch_pointer_count :
  m_pointersDown Ref.engine0 = 0%Z
  /\ staysInRange (map ev_action pinch)
  /\ (let p := m_pointersDown (self (run pinch Ref.engine0)) in
      (p = 0 \/ p = 1 \/ p = 2)%Z
      /\ p = clampedCount (map ev_action pinch)
      /\ (staysInRange (map ev_action pinch) -> p = downsMinusUps (map ev_action pinch))).
Proof.
  split; [reflexivity|]. split; [exact staysInRange_pinch|].
  exact (pointersDown_is_clamped_count Ref.math Ref.View Ref.viewOps
           Ref.engine0 Ref.view0 pinch eq_refl).
Defined.

(** C1, counterexample: after P1Down, P2Down, P2Down the pointer count is
    2 and the Downs minus the Ups are 3; after a lone P1Up the pointer
    count is 0 and the Downs minus the Ups are -1. *)
Lemma pointersDown_saturates :
  (m_pointersDown (self (run secondPointerTwice Ref.engine0)) = 2
   /\ downsMinusUps (map ev_action secondPointerTwice) = 3)%Z
  /\ (m_pointersDown (self (run strayUp Ref.engine0)) = 0
      /\ downsMinusUps (map ev_action strayUp) = -1)%Z.
Proof. vm_compute. repeat split. Qed.

(** the test view is a view whose projection is relative to its centre *)
Definition Ref_groundPlane : GroundPlaneView Ref.viewOps.
Proof.
  refine {| position := Ref.centre |}.
  - intros v dx dy. split; reflexivity.
  - intros v dx dy sx sy elev. split; reflexivity.
  - intros v dz. split; reflexivity.
Defined.

(** C2, witness: a Move 40 pixels down during a double-tap drag zoom. *)
Lemma drag_zoom_step :
  let th := self dragZoomStarted in
  let v := viewOf dragZoomStarted in
  let pos := mkScreenPos 300 340 in
  (m_gestureMode th = SINGLE_POINTER_ZOOM
   /\ m_interactionConsumed th = false
   /\ m_doubleTapDragEnabled th = true)
  /\ (let anchor := m_doubleTapStartPos th in
      let zoomDelta := (y pos - y (m_prevScreenPos1 th)) * (5 # 1000) in
      let elev := screenPositionToLngLat Ref.viewOps v (x anchor) (y anchor) in
      let start := screenToGroundPlane Ref.viewOps v (x anchor) (y anchor) elev in
      let zoomed := zoom Ref.viewOps v zoomDelta in
      let end_ := screenToGroundPlane Ref.viewOps zoomed (x anchor) (y anchor) elev in
      let r := touch (at_ 1300 MOVE pos noPos) th v in
      calls r = [ViewZoom zoomDelta;
                 ViewTranslate (glm.x start - glm.x end_) (glm.y start - glm.y end_)]
      /\ viewOf r
         = translate Ref.viewOps zoomed (glm.x start - glm.x end_) (glm.y start - glm.y end_)
      /\ self r = set_m_prevScreenPos1 pos th
      /\ vec2_eq (groundPointUnder Ref_groundPlane (viewOf r) anchor elev)
                 (groundPointUnder Ref_groundPlane v anchor elev)).
Proof.
  split; [repeat split|].
  exact (singleZoom_move Ref.math Ref.View Ref.viewOps Ref_groundPlane
           (self dragZoomStarted) (viewOf dragZoomStarted) (mkScreenPos 300 340) noPos
           (ms 1300) (ms 1300) eq_refl eq_refl eq_refl).
Defined.

(** C2, counterexample: in SingleZoom mode, after
    [setDoubleTapDragEnabled(false)], a Move that is not consumed makes no
    call, leaves the view as it is and does not set [prev1] to its
    position (300, 340). *)
Lemma disabled_drag_zoom_ignores_move :
  let th := dragZoomDisabled in
  let r := touch (at_ 1300 MOVE (mkScreenPos 300 340) noPos) th (viewOf dragZoomStarted) in
  m_gestureMode th = SINGLE_POINTER_ZOOM
  /\ m_interactionConsumed th = false
  /\ calls r = []
  /\ viewOf r = viewOf dragZoomStarted
  /\ m_prevScreenPos1 (self r) = mkScreenPos 300 300.
Proof. vm_compute. repeat split. Qed.

(** the reference square root is 0 at zero *)
Lemma Ref_sqrt_at_zero (z : Q) : z == 0 -> Ref.sqrt z <= THRESHOLD_STOP_PAN.
Proof.
  intros Hz. unfold Ref.sqrt.
  assert (E : Qle_bool z 0 = true) by (apply Qle_bool_iff; rewrite Hz; apply Qle_refl).
  rewrite E. apply Qleb_le. reflexivity.
Qed.



(** C6.  On the engine of a drag that the interaction listener consumed,
    the [CANCEL] action leaves [m_interactionConsumed] set (and
    [onTouchEvent] returns [true]), where [cancel()] clears it. *)
Lemma cancel_action_keeps_interactionConsumed :
  let th := self consumedDrag in
  let v := viewOf consumedDrag in
  let r := touch (at_ 1200 CANCEL noPos noPos) th v in
  m_interactionConsumed th = true
  /\ m_interactionConsumed (self r) = true
  /\ value r = true
  /\ m_interactionConsumed (self (cancel Ref.View th v)) = false.
Proof. vm_compute. repeat split. Qed.


(** C9, counterexample: after P1Down, P1Down the pointer count is 2; after
    P1Down, Cancel, P1Down it is 1. *)
Lemma duplicate_P1Down_counts_two :
  m_pointersDown (self (run [firstDown] Ref.engine0)) = 1%Z
  /\ m_pointersDown (self (run [firstDown; duplicateDown] Ref.engine0)) = 2%Z
  /\ m_pointersDown (self (run [firstDown; cancelEvent; duplicateDown] Ref.engine0)) = 1%Z.
Proof. vm_compute. repeat split. Qed.

(** C10, witness: a finger lifted 400 ms after it went down, one pixel
    away. *)
Lemma resting_finger_release :
  let th := self fingerResting in
  let v := viewOf fingerResting in
  let pos1 := mkScreenPos 201 201 in
  (m_gestureMode th = SINGLE_POINTER_CLICK_GUESS
   /\ distance Ref.math pos1 (m_prevScreenPos1 th) < tapThresholdOf th
   /\ (DOUBLE_TAP_TIMEOUT <= tapDurationOf th (ms 1400) < LONG_PRESS_TIMEOUT)%Z)
  /\ (let r := touch (at_ 1400 POINTER_1_UP pos1 noPos) th v in
      calls r = []
      /\ viewOf r = v
      /\ m_gestureMode (self r) = SINGLE_POINTER_CLICK_GUESS
      /\ self r = set_m_pointersDown (Z.max 0 (m_pointersDown th - 1))
                    (set_m_gestureMode SINGLE_POINTER_CLICK_GUESS th)).
Proof.
  assert (Hd : distance Ref.math (mkScreenPos 201 201) (m_prevScreenPos1 (self fingerResting))
               < tapThresholdOf (self fingerResting))
    by (apply Qltb_lt; vm_compute; reflexivity).
  assert (Ht : (DOUBLE_TAP_TIMEOUT <= tapDurationOf (self fingerResting) (ms 1400)
                < LONG_PRESS_TIMEOUT)%Z)
    by (vm_compute; split; [intros H; discriminate H | reflexivity]).
  split; [split; [reflexivity | split; [exact Hd | exact Ht]]|].
  exact (no_click_between_timeouts Ref.math Ref.View Ref.viewOps
           (self fingerResting) (viewOf fingerResting) (mkScreenPos 201 201) noPos
           (ms 1400) (ms 1400) eq_refl Hd Ht).
Defined.

(** C7, counterexample: on the first Move after the guess began, with
    both gesture families enabled, a DPI of 160, the pointers 0.5 inch
    apart in y, swipes of 0.25 inch each and opposite in y, the mode stays
    DualGuess. *)
Lemma first_opposite_swipe_is_not_classified :
  let th := self dualGuessBegun in
  let v := viewOf dualGuessBegun in
  let pos1 := ev_pos1 oppositeSwipe in
  let pos2 := ev_pos2 oppositeSwipe in
  let swipe1 := accumulatedSwipe1 th pos1 in
  let swipe2 := accumulatedSwipe2 th pos2 in
  let r := touch oppositeSwipe th v in
  (m_gestureMode th = DUAL_POINTER_GUESS
   /\ m_interactionConsumed th = false
   /\ m_tiltEnabled th = true /\ m_rotateEnabled th = true /\ m_zoomEnabled th = true
   /\ m_panningMode th = FREE /\ m_dpi th = 160)
  /\ (std_abs (y pos1 - y pos2) / m_dpi th <= GUESS_MAX_DELTA_Y_INCHES
      /\ ieee.gt (ieee_length Ref.math swipe1) GUESS_MIN_SWIPE_LENGTH_OPPOSITE_INCHES
      /\ ieee.gt (ieee_length Ref.math swipe2) GUESS_MIN_SWIPE_LENGTH_OPPOSITE_INCHES
      /\ ieee.le (ieee.mul (ieee.y swipe1) (ieee.y swipe2)) 0)
  /\ m_swipe1 (self r) = swipe1
  /\ m_swipe2 (self r) = swipe2
  /\ m_gestureMode (self r) = DUAL_POINTER_GUESS.
Proof.
  cbv zeta. split; [vm_compute; repeat split|].
  split; [|vm_compute; repeat split].
  split; [apply Qleb_le; vm_compute; reflexivity|].
  repeat split; vm_compute; reflexivity.
Qed.

(** C7, witness: the Move after that one. *)
Lemma second_opposite_swipe :
  let th := self (touch oppositeSwipe (self dualGuessBegun) (viewOf dualGuessBegun)) in
  let v := viewOf dualGuessBegun in
  let pos1 := ev_pos1 oppositeSwipeAgain in
  let pos2 := ev_pos2 oppositeSwipeAgain in
  let swipe1 := accumulatedSwipe1 th pos1 in
  let swipe2 := accumulatedSwipe2 th pos2 in
  (m_gestureMode th = DUAL_POINTER_GUESS
   /\ m_interactionConsumed th = false
   /\ m_tiltEnabled th = true
   /\ m_rotateEnabled th || m_zoomEnabled th = true
   /\ ~ m_dpi th == 0
   /\ std_abs (y pos1 - y pos2) / m_dpi th <= GUESS_MAX_DELTA_Y_INCHES
   /\ ((ieee.gt (ieee_length Ref.math swipe1) GUESS_MIN_SWIPE_LENGTH_OPPOSITE_INCHES
        /\ ieee.gt (ieee_length Ref.math (m_swipe1 th)) 0)
       \/ (ieee.gt (ieee_length Ref.math swipe2) GUESS_MIN_SWIPE_LENGTH_OPPOSITE_INCHES
           /\ ieee.gt (ieee_length Ref.math (m_swipe2 th)) 0))
   /\ ieee.le (ieee.mul (ieee.y swipe1) (ieee.y swipe2)) 0)
  /\ (let r := touch oppositeSwipeAgain th v in
      m_gestureMode (self r)
      = match m_panningMode th with
        | FREE => DUAL_POINTER_FREE
        | STICKY | STICKY_FINAL => DUAL_POINTER_ROTATE
        end
      /\ m_swipe1 (self r) = swipe1
      /\ m_swipe2 (self r) = swipe2
      /\ calls r = [] /\ viewOf r = v).
Proof.
  cbv zeta.
  set (th := self (touch oppositeSwipe (self dualGuessBegun) (viewOf dualGuessBegun))).
  assert (Hdpi : ~ m_dpi th == 0) by (intros E; vm_compute in E; discriminate E).
  assert (Hdy : std_abs (y (ev_pos1 oppositeSwipeAgain) - y (ev_pos2 oppositeSwipeAgain))
                / m_dpi th <= GUESS_MAX_DELTA_Y_INCHES)
    by (apply Qleb_le; vm_compute; reflexivity).
  assert (Hlen :
    (ieee.gt (ieee_length Ref.math (accumulatedSwipe1 th (ev_pos1 oppositeSwipeAgain)))
             GUESS_MIN_SWIPE_LENGTH_OPPOSITE_INCHES
     /\ ieee.gt (ieee_length Ref.math (m_swipe1 th)) 0)
    \/ (ieee.gt (ieee_length Ref.math (accumulatedSwipe2 th (ev_pos2 oppositeSwipeAgain)))
                GUESS_MIN_SWIPE_LENGTH_OPPOSITE_INCHES
        /\ ieee.gt (ieee_length Ref.math (m_swipe2 th)) 0))
    by (left; split; vm_compute; reflexivity).
  assert (Hprod : ieee.le (ieee.mul (ieee.y (accumulatedSwipe1 th (ev_pos1 oppositeSwipeAgain)))
                                    (ieee.y (accumulatedSwipe2 th (ev_pos2 oppositeSwipeAgain))))
                          0)
    by (vm_compute; reflexivity).
  split; [repeat split; try assumption; vm_compute; reflexivity|].
  exact (dualGuess_opposite_swipes Ref.math Ref.View Ref.viewOps th (viewOf dualGuessBegun)
           (ev_pos1 oppositeSwipeAgain) (ev_pos2 oppositeSwipeAgain) (ms 1200) (ms 1200)
           eq_refl eq_refl eq_refl eq_refl Hdpi Hdy Hlen Hprod).
Defined.

(** C5, witness: on the engine with a consuming listener and a finger
    down, a Move that the listener consumes, and then Moves, a second
    pointer down and up, and a Cancel: all silent. *)
Lemma consumed_drag_history :
  let th := self (run [ at_ 1000 POINTER_1_DOWN (mkScreenPos 100 100) noPos ]
                      (set_m_mapInteractionListener (Some consumingListener) Ref.engine0)) in
  let e := at_ 1100 MOVE (mkScreenPos 200 100) noPos in
  let evs := [ at_ 1200 MOVE (mkScreenPos 300 100) noPos;
               at_ 1300 POINTER_2_DOWN (mkScreenPos 300 100) (mkScreenPos 500 100);
               at_ 1400 MOVE (mkScreenPos 300 150) (mkScreenPos 500 50);
               at_ 1500 POINTER_2_UP (mkScreenPos 300 150) (mkScreenPos 500 50);
               at_ 1600 CANCEL noPos noPos;
               at_ 1700 MOVE (mkScreenPos 400 100) noPos ] in
  (reachable Ref.math Ref.View Ref.viewOps th
   /\ existsb isInteractionConsumed (calls (touch e th Ref.view0)) = true)
  /\ Forall (fun s =>
        (existsb isInteractionConsumed (calls (outcome s)) = true ->
         m_interactionConsumed (self (outcome s)) = true)
        /\ (ev_action (event s) = MOVE ->
            m_interactionConsumed (engineBefore s) = true ->
            calls (outcome s) = []
            /\ viewOf (outcome s) = viewBefore s
            /\ self (outcome s) = engineBefore s)
        /\ (ev_action (event s) = POINTER_1_DOWN ->
            m_interactionConsumed (self (outcome s))
            = existsb isInteractionConsumed (calls (outcome s))))
      (history Ref.math Ref.View Ref.viewOps evs th Ref.view0)
  /\ silentUntilP1Down
       (history Ref.math Ref.View Ref.viewOps evs
          (self (touch e th Ref.view0)) (viewOf (touch e th Ref.view0))).
Proof.
  cbv zeta.
  set (th := self (run [ at_ 1000 POINTER_1_DOWN (mkScreenPos 100 100) noPos ]
                       (set_m_mapInteractionListener (Some consumingListener) Ref.engine0))).
  set (e := at_ 1100 MOVE (mkScreenPos 200 100) noPos).
  set (evs := [ at_ 1200 MOVE (mkScreenPos 300 100) noPos;
                at_ 1300 POINTER_2_DOWN (mkScreenPos 300 100) (mkScreenPos 500 100);
                at_ 1400 MOVE (mkScreenPos 300 150) (mkScreenPos 500 50);
                at_ 1500 POINTER_2_UP (mkScreenPos 300 150) (mkScreenPos 500 50);
                at_ 1600 CANCEL noPos noPos;
                at_ 1700 MOVE (mkScreenPos 400 100) noPos ]).
  assert (Hr : reachable Ref.math Ref.View Ref.viewOps th).
  { apply reachable_onTouchEvents.
    apply (reach_setMapInteractionListener Ref.math Ref.View Ref.viewOps
             Ref.engine0 Ref.view0 (Some consumingListener)).
    apply reach_new. }
  assert (Hans : existsb isInteractionConsumed (calls (touch e th Ref.view0)) = true)
    by reflexivity.
  pose proof (consumed_interaction_silences_moves Ref.math Ref.View Ref.viewOps
                th Ref.view0 evs) as [Hsteps Hsilent].
  split; [split; [exact Hr | exact Hans]|].
  split; [exact Hsteps|].
  exact (Hsilent Hr e Hans).
Defined.

(** C9, witness: a P1Down that finds the first pointer down, in
    SingleClickGuess mode. *)
Lemma repeated_first_down :
  let th := self (run [firstDown] Ref.engine0) in
  let v := Ref.view0 in
  let direct := touch duplicateDown th v in
  let cancelled := touch cancelEvent th v in
  let viaCancel := touch duplicateDown (self cancelled) (viewOf cancelled) in
  m_gestureMode th = SINGLE_POINTER_CLICK_GUESS
  /\ m_pointersDown (self direct) = Z.min 2 (m_pointersDown th + 1)
  /\ m_pointersDown (self viaCancel) = 1%Z
  /\ (m_gestureMode th = SINGLE_POINTER_CLICK_GUESS ->
      self direct = set_m_pointersDown (Z.min 2 (m_pointersDown th + 1)) (self viaCancel)
      /\ viewOf direct = viewOf viaCancel
      /\ calls direct = calls viaCancel
      /\ value direct = value viaCancel).
Proof.
  split; [reflexivity|].
  exact (duplicate_P1Down_is_plain_P1Down Ref.math Ref.View Ref.viewOps
           (self (run [firstDown] Ref.engine0)) Ref.view0
           (ev_pos1 duplicateDown) (ev_pos2 duplicateDown)
           (ev_pos1 cancelEvent) (ev_pos2 cancelEvent)
           (ev_now duplicateDown) (ev_later duplicateDown)
           (ev_now cancelEvent) (ev_later cancelEvent)).
Defined.

(** X1, witness: the engine the pinch gesture leaves is reachable, and
    its velocities are zero. *)
Lemma pinch_leaves_no_velocity :
  reachable Ref.math Ref.View Ref.viewOps (self (run pinch Ref.engine0))
  /\ velocitiesVanish (self (run pinch Ref.engine0)).
Proof.
  assert (H : reachable Ref.math Ref.View Ref.viewOps (self (run pinch Ref.engine0)))
    by (apply reachable_onTouchEvents; apply reach_new).
  split; [exact H|].
  exact (reachable_velocities_vanish Ref.math Ref.View Ref.viewOps _ H).
Defined.

(** * The calls of the engine, and what gates them *)

(** ** What the dual-pointer members do *)

Lemma forallb_weaken {A : Type} (f g : A -> bool) (l : list A) :
  (forall a, f a = true -> g a = true) -> forallb f l = true -> forallb g l = true.
Proof.
  intros H. induction l as [|a l IH]; cbn; [reflexivity|].
  intros E. apply andb_true_iff in E as [Ea El]. rewrite (H a Ea), (IH El). reflexivity.
Qed.

Lemma applyCalls_app {V : Type} (VO : ViewOps V) (l1 l2 : list Call) (v : V) :
  applyCalls VO (l1 ++ l2) v = applyCalls VO l2 (applyCalls VO l1 v).
Proof. unfold applyCalls. apply fold_left_app. Qed.

Section Effects.

Variable M : MathLib.
Variable V : Type.
Variable VO : ViewOps V.

(** [dualPointerPan] sets the two previous positions and nothing else in
    the engine; it translates only with pan enabled, zooms only when asked
    to scale with zoom enabled, rotates only when asked to rotate with
    rotate enabled; and the view it leaves is the view with these calls
    applied. *)
Lemma dualPointerPan_self (p1 p2 : ScreenPos) (rotate scale : bool)
  (th : TouchHandler) (v : V) :
  self (dualPointerPan M V VO p1 p2 rotate scale th v)
  = set_m_prevScreenPos2 p2 (set_m_prevScreenPos1 p1 th).
Proof. run; reflexivity. Qed.

Lemma dualPointerPan_calls (p1 p2 : ScreenPos) (rotate scale : bool)
  (th : TouchHandler) (v : V) :
  forallb (callOfPan th rotate scale) (calls (dualPointerPan M V VO p1 p2 rotate scale th v))
  = true.
Proof.
  run; cbn [forallb callOfPan andb];
    repeat match goal with
           | H : _ && _ = true |- _ => apply andb_true_iff in H; destruct H
           end;
    repeat match goal with
           | H : ?b = true |- context [?b] => rewrite H
           end;
    reflexivity.
Qed.

Lemma dualPointerPan_view (p1 p2 : ScreenPos) (rotate scale : bool)
  (th : TouchHandler) (v : V) :
  viewOf (dualPointerPan M V VO p1 p2 rotate scale th v)
  = applyCalls VO (calls (dualPointerPan M V VO p1 p2 rotate scale th v)) v.
Proof. run; reflexivity. Qed.

Lemma dualPointerPan_effect (p1 p2 : ScreenPos) (rotate scale : bool)
  (th : TouchHandler) (v : V) :
  let r := dualPointerPan M V VO p1 p2 rotate scale th v in
  self r = set_m_prevScreenPos2 p2 (set_m_prevScreenPos1 p1 th)
  /\ forallb (callOfPan th rotate scale) (calls r) = true
  /\ viewOf r = applyCalls VO (calls r) v.
Proof.
  cbv zeta. split; [apply dualPointerPan_self|].
  split; [apply dualPointerPan_calls | apply dualPointerPan_view].
Qed.

(** [dualPointerGuess] writes the mode, the previous positions and the
    swipes, makes no call and leaves the view. *)
Lemma dualPointerGuess_self (p1 p2 : ScreenPos) (th : TouchHandler) (v : V) :
  exists g q1 q2 s1 s2,
    self (dualPointerGuess M V p1 p2 th v)
    = set_m_prevScreenPos2 q2 (set_m_prevScreenPos1 q1
        (set_m_gestureMode g (set_m_swipe2 s2 (set_m_swipe1 s1 th)))).
Proof.
  run;
    match goal with
    | |- exists g q1 q2 s1 s2, ?s = _ =>
        exists (m_gestureMode s), (m_prevScreenPos1 s), (m_prevScreenPos2 s),
               (m_swipe1 s), (m_swipe2 s)
    end; reflexivity.
Qed.

Lemma dualPointerGuess_silent (p1 p2 : ScreenPos) (th : TouchHandler) (v : V) :
  calls (dualPointerGuess M V p1 p2 th v) = []
  /\ viewOf (dualPointerGuess M V p1 p2 th v) = v.
Proof. run; split; reflexivity. Qed.

Lemma dualPointerGuess_effect (p1 p2 : ScreenPos) (th : TouchHandler) (v : V) :
  let r := dualPointerGuess M V p1 p2 th v in
  (exists g q1 q2 s1 s2,
      self r = set_m_prevScreenPos2 q2 (set_m_prevScreenPos1 q1
                 (set_m_gestureMode g (set_m_swipe2 s2 (set_m_swipe1 s1 th)))))
  /\ calls r = [] /\ viewOf r = v.
Proof.
  cbv zeta. split; [apply dualPointerGuess_self | apply dualPointerGuess_silent].
Qed.

End Effects.

(** a call of a dual-pointer member is replaced by what it does *)
Ltac effect_call M V VO :=
  match goal with
  | |- context [dualPointerPan M V VO ?p1 ?p2 ?a ?b ?th ?v] =>
      let ps := fresh "ps" in
      let pl := fresh "pl" in
      let pv := fresh "pv" in
      generalize (dualPointerPan_effect M V VO p1 p2 a b th v); cbv zeta;
      destruct (dualPointerPan M V VO p1 p2 a b th v) as [? ps pv pl];
      rec_simpl; intros (-> & ? & ->)
  | |- context [dualPointerGuess M V ?p1 ?p2 ?th ?v] =>
      let ps := fresh "ps" in
      let pl := fresh "pl" in
      let pv := fresh "pv" in
      generalize (dualPointerGuess_effect M V p1 p2 th v); cbv zeta;
      destruct (dualPointerGuess M V p1 p2 th v) as [? ps pv pl];
      rec_simpl; intros ((? & ? & ? & ? & ? & ->) & -> & ->)
  end.

(** the conditions a branch was taken under, as equations on the flags *)
Ltac flags :=
  repeat match goal with
         | H : _ && _ = true |- _ => apply andb_true_iff in H; destruct H
         | H : _ || _ = false |- _ => apply orb_false_iff in H; destruct H
         | H : negb _ = true |- _ => apply negb_true_iff in H
         | H : negb _ = false |- _ => apply negb_false_iff in H
         end.

Ltac use_flags :=
  repeat match goal with
         | H : ?b = true |- context [?b] => rewrite H
         | H : ?b = false |- context [?b] => rewrite H
         end.

Section Calls.

Variable M : MathLib.
Variable V : Type.
Variable VO : ViewOps V.

Lemma callOfPan_of_move (th : TouchHandler) (rotate scale : bool) (c : Call) :
  callOfPan th rotate scale c = true -> callOfAction MOVE c = true.
Proof. destruct c; cbn; intros H; solve [reflexivity | discriminate H]. Qed.

(** X2.  The calls [onTouchEvent] makes, by action: a P2Down and a Cancel
    make none; a P1Down only asks the interaction listener about a zoom; a
    Move only asks the interaction listener and moves the view; a P1Up and
    a P2Up only report a click and run the double-tap gesture of the map.
    The view a call leaves is the view it found with these calls applied,
    in order: a P1Down, a P2Down and a Cancel leave the view as it is. *)
Theorem onTouchEvent_calls_by_action (th : TouchHandler) (v : V) (a : TouchAction)
  (p1 p2 : ScreenPos) (now later : time_point) :
  let r := onTouchEvent M V VO a p1 p2 now later th v in
  forallb (callOfAction a) (calls r) = true
  /\ viewOf r = applyCalls VO (calls r) v
  /\ match a with
     | POINTER_1_DOWN => viewOf r = v /\ (length (calls r) <= 1)%nat
     | POINTER_2_DOWN | CANCEL => viewOf r = v /\ calls r = []
     | _ => True
     end.
Proof.
  cbv zeta.
  destruct a; eff_unfold_outer; rec_simpl;
    repeat (first [break_match | effect_call M V VO]; cbv beta iota; rec_simpl);
    rewrite ?app_nil_r;
    cbn [forallb callOfAction andb applyCalls fold_left applyCall app length];
    repeat split; try reflexivity; try lia;
    try (eapply forallb_weaken; [apply callOfPan_of_move | eassumption]).
Qed.

Lemma callOfPan_of_flags (th th' : TouchHandler) (rotate scale : bool) (c : Call) :
  m_panEnabled th' = m_panEnabled th ->
  m_zoomEnabled th' = m_zoomEnabled th ->
  m_rotateEnabled th' = m_rotateEnabled th ->
  isDualPanMode (m_gestureMode th) = true ->
  callOfPan th' rotate scale c = true -> callOfFlags th c = true.
Proof.
  intros Hp Hz Hr Hg. destruct c; cbn [callOfPan callOfFlags]; rewrite ?Hp, ?Hz, ?Hr, ?Hg;
    intros H; try discriminate H.
  - rewrite H. cbn [andb]. apply orb_true_r.
  - apply andb_true_iff in H as [_ H]. rewrite H. cbn [andb]. apply orb_true_r.
  - apply andb_true_iff in H as [_ H]. rewrite H. reflexivity.
Qed.

(** the calls of the branch at hand are allowed by the flags it tested *)
Ltac close_flags :=
  cbn [forallb callOfFlags app]; flags;
  repeat match goal with
         | H : m_gestureMode ?t = _ |- context [m_gestureMode ?t] => rewrite H
         | H : m_mapClickListener ?t = _ |- context [m_mapClickListener ?t] => rewrite H
         | H : m_mapInteractionListener ?t = _ |- context [m_mapInteractionListener ?t] =>
             rewrite H
         | H : ?b = true |- context [?b] => rewrite H
         end;
  cbn [GestureMode_eqb isDualPanMode andb orb]; rewrite ?orb_true_r;
  try reflexivity.

(** X3.  What the enable flags gate.  Every call [onTouchEvent] makes is
    allowed by the flags and the mode of the engine it found: a rotation
    of the view needs rotate enabled and a tilt needs tilt enabled; a zoom
    needs zoom enabled, the drag zoom of SingleZoom mode apart, which needs
    double-tap drag alone; a translation needs pan enabled, apart from the
    pan of SinglePan mode and the translation that anchors the drag zoom;
    the double-tap gesture of the map needs double tap enabled and a map;
    and a listener is called only when it is set. *)
Theorem enable_flags_gate_calls (th : TouchHandler) (v : V) (a : TouchAction)
  (p1 p2 : ScreenPos) (now later : time_point) :
  forallb (callOfFlags th) (calls (onTouchEvent M V VO a p1 p2 now later th v)) = true.
Proof.
  destruct a; eff_unfold_outer; rec_simpl;
    repeat (first [break_match | effect_call M V VO]; cbv beta iota; rec_simpl);
    rewrite ?app_nil_r;
    try (eapply forallb_weaken; [|eassumption]; intros c; apply callOfPan_of_flags;
         try reflexivity;
         match goal with H : m_gestureMode _ = _ |- _ => rewrite H; reflexivity end);
    close_flags.
Qed.

End Calls.

(** * Engines that can be reached, and engines without a listener *)

Section Reached.

Variable M : MathLib.
Variable V : Type.
Variable VO : ViewOps V.

(** X4.  Kinetic scrolling does not run in this revision: on every engine
    that can be reached from construction through the public interface,
    the view is not flinging, and [update] returns [false], makes no call
    and changes neither the engine nor the view, whatever [dt]; this for a
    square root that is at most 24 at zero. *)
Theorem update_is_idle_when_reachable (th : TouchHandler) (v : V) (dts : list float) :
  (forall z : Q, z == 0 -> std_sqrt M z <= THRESHOLD_STOP_PAN) ->
  reachable M V VO th ->
  isFlinging M V VO th v = false
  /\ (forall dt : float, update M V VO dt th v = mkOutcome false th v [])
  /\ updates M V VO dts th v = mkOutcome tt th v [].
Proof.
  intros Hsqrt Hr.
  assert (E : isFlinging M V VO th v = false)
    by (apply (vanished_is_idle M V VO);
        [exact Hsqrt | apply (velocities_of_reachable M V VO); exact Hr]).
  split; [exact E|]. split.
  - intros dt. apply update_idle. exact E.
  - apply updates_idle. exact E.
Qed.

(** a call on an engine without an interaction listener, with no
    interaction consumed *)
Lemma unlistened_step (th : TouchHandler) (v : V) (a : TouchAction)
  (p1 p2 : ScreenPos) (now later : time_point) :
  unlistened th ->
  let r := onTouchEvent M V VO a p1 p2 now later th v in
  unlistened (self r)
  /\ value r = false
  /\ forallb (fun c => negb (isInteractionCall c)) (calls r) = true.
Proof.
  intros [Hl Hc]. cbv zeta. unfold unlistened.
  destruct a; eff_unfold_outer; rec_simpl; rewrite ?Hl, ?Hc; cbv beta iota; rec_simpl;
    repeat (first [break_match | effect_call M V VO]; cbv beta iota; rec_simpl;
            rewrite ?Hl, ?Hc; cbv beta iota; rec_simpl);
    rewrite ?app_nil_r; cbn [forallb isInteractionCall negb andb app];
    repeat split; try assumption; try reflexivity;
    try (eapply forallb_weaken; [|eassumption]; intros c; destruct c; cbn; intros E;
         solve [reflexivity | discriminate E]).
Qed.

(** X5.  Without an interaction listener nothing is consumed: in the run
    of any sequence of actions from an engine that has no interaction
    listener and no interaction consumed, every call of [onTouchEvent]
    returns [false], asks no interaction listener, and leaves an engine
    with no interaction consumed. *)
Theorem no_listener_nothing_consumed (th : TouchHandler) (v : V) (evs : list TouchEvent) :
  unlistened th ->
  Forall (fun s =>
      value (outcome s) = false
      /\ m_interactionConsumed (self (outcome s)) = false
      /\ forallb (fun c => negb (isInteractionCall c)) (calls (outcome s)) = true)
    (history M V VO evs th v).
Proof.
  revert th v. induction evs as [|e rest IH]; intros th v Hu; cbn [history].
  - constructor.
  - destruct (unlistened_step th v (ev_action e) (ev_pos1 e) (ev_pos2 e)
                (ev_now e) (ev_later e) Hu) as (Hu' & Hv & Hcalls).
    constructor.
    + cbn [outcome]. unfold dispatch. split; [exact Hv|]. split; [apply Hu' | exact Hcalls].
    + apply IH. exact Hu'.
Qed.

End Reached.

(** * Setters, accessors and members outside the gesture paths *)

Section Settings.

Variable M : MathLib.
Variable V : Type.
Variable VO : ViewOps V.

(** X6.  [setGesturesEnabled] leaves the engine the six single setters
    leave, called one after the other in the order of its arguments or in
    the opposite order; each accessor then returns the value that was set;
    and the gesture in progress is not touched: the mode, the pointer
    count, the consumed flag, the tracked positions and the velocities are
    as before, as are the view and the listeners. *)
Theorem setGesturesEnabled_is_six_setters (th : TouchHandler) (v : V)
  (zoom_ pan doubleTap doubleTapDrag tilt rotate : bool) :
  let r := setGesturesEnabled V zoom_ pan doubleTap doubleTapDrag tilt rotate th v in
  let th' := self r in
  let one_by_one :=
    (setZoomEnabled V zoom_ ;; setPanEnabled V pan ;; setDoubleTapEnabled V doubleTap ;;
     setDoubleTapDragEnabled V doubleTapDrag ;; setTiltEnabled V tilt ;;
     setRotateEnabled V rotate) th v in
  let backwards :=
    (setRotateEnabled V rotate ;; setTiltEnabled V tilt ;;
     setDoubleTapDragEnabled V doubleTapDrag ;; setDoubleTapEnabled V doubleTap ;;
     setPanEnabled V pan ;; setZoomEnabled V zoom_) th v in
  r = one_by_one /\ r = backwards
  /\ (value (isZoomEnabled V th' v) = zoom_
      /\ value (isPanEnabled V th' v) = pan
      /\ value (isDoubleTapEnabled V th' v) = doubleTap
      /\ value (isDoubleTapDragEnabled V th' v) = doubleTapDrag
      /\ value (isTiltEnabled V th' v) = tilt
      /\ value (isRotateEnabled V th' v) = rotate)
  /\ (m_gestureMode th' = m_gestureMode th
      /\ m_pointersDown th' = m_pointersDown th
      /\ m_interactionConsumed th' = m_interactionConsumed th
      /\ m_prevScreenPos1 th' = m_prevScreenPos1 th
      /\ m_prevScreenPos2 th' = m_prevScreenPos2 th
      /\ m_velocityPan th' = m_velocityPan th
      /\ m_velocityZoom th' = m_velocityZoom th
      /\ m_mapClickListener th' = m_mapClickListener th
      /\ m_mapInteractionListener th' = m_mapInteractionListener th
      /\ m_dpi th' = m_dpi th
      /\ m_panningMode th' = m_panningMode th)
  /\ viewOf r = v /\ calls r = [].
Proof.
  cbv zeta. eff_unfold.
  cbv beta iota zeta delta [isZoomEnabled isPanEnabled isDoubleTapEnabled
    isDoubleTapDragEnabled isTiltEnabled isRotateEnabled bind ret this].
  rec_simpl. repeat split.
Qed.

(** X7.  [doubleTapZoom] zeroes both velocities, zooms the view in by
    [log2(2)] and translates it by [start - end], the ground-plane
    positions of the tapped point before and after the zoom; on a view
    whose projection is relative to its position, the point of the ground
    plane under the tapped screen position is the same before and after.
    [singlePointerZoomStop] returns [false] and does nothing. *)
Theorem doubleTapZoom_keeps_tapped_point (G : GroundPlaneView VO) (th : TouchHandler)
  (v : V) (pos : ScreenPos) :
  let elev := screenPositionToLngLat VO v (x pos) (y pos) in
  let start := screenToGroundPlane VO v (x pos) (y pos) elev in
  let zoomed := zoom VO v (std_log2 M 2) in
  let end_ := screenToGroundPlane VO zoomed (x pos) (y pos) elev in
  let r := doubleTapZoom M V VO pos th v in
  calls r = [ViewZoom (std_log2 M 2);
             ViewTranslate (glm.x start - glm.x end_) (glm.y start - glm.y end_)]
  /\ viewOf r = translate VO zoomed (glm.x start - glm.x end_) (glm.y start - glm.y end_)
  /\ self r = set_m_velocityZoom 0 (set_m_velocityPan (glm.mk 0 0) th)
  /\ vec2_eq (groundPointUnder G (viewOf r) pos elev) (groundPointUnder G v pos elev)
  /\ singlePointerZoomStop V pos th v = mkOutcome false th v [].
Proof.
  cbv zeta. unfold doubleTapZoom, singlePointerZoomStop. eff_unfold. rec_simpl.
  split; [reflexivity|]. split; [reflexivity|]. split; [reflexivity|].
  split; [|reflexivity].
  unfold groundPointUnder, vec2_eq.
  set (e := screenPositionToLngLat VO v (x pos) (y pos)).
  set (s := screenToGroundPlane VO v (x pos) (y pos) e).
  set (z := zoom VO v (std_log2 M 2)).
  set (e' := screenToGroundPlane VO z (x pos) (y pos) e).
  destruct (translate_moves_position VO G z (glm.x s - glm.x e') (glm.y s - glm.y e'))
    as [Hx Hy].
  destruct (translate_keeps_projection VO G z (glm.x s - glm.x e') (glm.y s - glm.y e')
              (x pos) (y pos) e) as [Px Py].
  destruct (zoom_keeps_position VO G v (std_log2 M 2)) as [Zx Zy].
  fold z in Zx, Zy. fold e' in Px, Py.
  cbn [glm.add glm.sub glm.x glm.y] in *.
  split; lra.
Qed.

End Settings.

(** * The gestures, Move by Move *)

(** ** Arithmetic of the clamp *)

Lemma glm_clamp_range (w hi : Q) : 0 <= hi -> 0 <= glm_clamp w 0 hi /\ glm_clamp w 0 hi <= hi.
Proof.
  intros H. unfold glm_clamp, std_min, std_max.
  destruct (Qltb w 0) eqn:E1.
  - destruct (Qltb hi 0) eqn:E2.
    + apply Qltb_lt in E2. lra.
    + split; lra.
  - apply Qltb_ge in E1. destruct (Qltb hi w) eqn:E2.
    + split; lra.
    + apply Qltb_ge in E2. split; lra.
Qed.

Lemma glm_clamp_inside (w hi : Q) : 0 <= w -> w <= hi -> glm_clamp w 0 hi = w.
Proof.
  intros H0 H1. unfold glm_clamp, std_min, std_max.
  destruct (Qltb w 0) eqn:E1.
  - apply Qltb_lt in E1. lra.
  - destruct (Qltb hi w) eqn:E2; [|reflexivity].
    apply Qltb_lt in E2. lra.
Qed.

Section Moves.

Variable M : MathLib.
Variable V : Type.
Variable VO : ViewOps V.

(** X8.  A Move in SinglePan mode, not consumed, at least 500 ms
    (DUAL_STOP_HOLD_DURATION) after the last release of a dual-pointer
    gesture, on a view whose pitch is at most 75 degrees: the view is
    translated by the ground-plane position of the previous pointer
    position minus that of the new one, and [prev1] becomes the new
    position, nothing else changing in the engine.  On a view whose
    projection is relative to its position, the point of the ground plane
    that was under the finger stays under the finger. *)
Theorem singlePan_move_keeps_point_under_finger (G : GroundPlaneView VO)
  (th : TouchHandler) (v : V) (pos pos2 : ScreenPos) (now later : time_point) :
  m_gestureMode th = SINGLE_POINTER_PAN ->
  m_interactionConsumed th = false ->
  (DUAL_STOP_HOLD_DURATION * ticks_per_ms <= later - m_dualPointerReleaseTime th)%Z ->
  getPitch VO v <= panLimitPitch M ->
  let prev := m_prevScreenPos1 th in
  let elev := screenPositionToLngLat VO v (x prev) (y prev) in
  let d := glm.sub (screenToGroundPlane VO v (x prev) (y prev) elev)
                   (screenToGroundPlane VO v (x pos) (y pos) elev) in
  let r := onTouchEvent M V VO MOVE pos pos2 now later th v in
  calls r = [ViewTranslate (glm.x d) (glm.y d)]
  /\ viewOf r = translate VO v (glm.x d) (glm.y d)
  /\ self r = set_m_prevScreenPos1 pos th
  /\ vec2_eq (groundPointUnder G (viewOf r) pos elev) (groundPointUnder G v prev elev).
Proof.
  intros Hmode Hc Hhold Hpitch. cbv zeta.
  apply Qgtb_le in Hpitch. unfold panLimitPitch in Hpitch.
  assert (Hge : (later - m_dualPointerReleaseTime th
                 >=? DUAL_STOP_HOLD_DURATION * ticks_per_ms)%Z = true)
    by (rewrite Z.geb_leb; apply Z.leb_le; exact Hhold).
  eff_unfold. rewrite Hc. cbv beta iota. rewrite Hmode. cbv beta iota.
  rewrite Hge. cbv beta iota. rewrite Hpitch. cbv beta iota. rec_simpl.
  split; [reflexivity|]. split; [reflexivity|]. split; [reflexivity|].
  unfold groundPointUnder, vec2_eq.
  set (p := m_prevScreenPos1 th).
  set (e := screenPositionToLngLat VO v (x p) (y p)).
  set (s := screenToGroundPlane VO v (x p) (y p) e).
  set (t := screenToGroundPlane VO v (x pos) (y pos) e).
  destruct (translate_moves_position VO G v (glm.x (glm.sub s t)) (glm.y (glm.sub s t)))
    as [Hx Hy].
  destruct (translate_keeps_projection VO G v (glm.x (glm.sub s t)) (glm.y (glm.sub s t))
              (x pos) (y pos) e) as [Px Py].
  fold t in Px, Py.
  cbn [glm.add glm.sub glm.x glm.y] in *.
  split; lra.
Qed.

(** X9.  The hold after a dual-pointer gesture.  A P1Up or a P2Up in a
    dual-pointer mode (DualGuess, DualTilt, DualRotate, DualScale,
    DualFree) makes no call, records the release time, goes to SinglePan
    mode and takes the position of the pointer that remains as [prev1]:
    the second position for a P1Up, the first for a P2Up.  A Move less
    than 500 ms later does nothing at all. *)
Theorem moves_wait_after_dual_release (th : TouchHandler) (v : V) (a : TouchAction)
  (p1 p2 q1 q2 : ScreenPos) (now later now' later' : time_point) :
  isDualMoveMode (m_gestureMode th) = true ->
  a = POINTER_1_UP \/ a = POINTER_2_UP ->
  (later' - later < DUAL_STOP_HOLD_DURATION * ticks_per_ms)%Z ->
  let r := onTouchEvent M V VO a p1 p2 now later th v in
  let r' := onTouchEvent M V VO MOVE q1 q2 now' later' (self r) (viewOf r) in
  (m_gestureMode (self r) = SINGLE_POINTER_PAN
   /\ m_prevScreenPos1 (self r) = match a with POINTER_1_UP => p2 | _ => p1 end
   /\ m_dualPointerReleaseTime (self r) = later
   /\ calls r = [] /\ viewOf r = v)
  /\ (calls r' = [] /\ viewOf r' = v /\ self r' = self r).
Proof.
  intros Hmode Ha Hhold. cbv zeta.
  assert (Hlt : (later' - later >=? DUAL_STOP_HOLD_DURATION * ticks_per_ms)%Z = false)
    by (rewrite Z.geb_leb; apply Z.leb_gt; exact Hhold).
  destruct Ha as [-> | ->];
    destruct (m_gestureMode th) eqn:Hg; try discriminate Hmode;
    eff_unfold; rewrite Hg; cbv beta iota; rec_simpl;
    destruct (m_interactionConsumed th) eqn:Hc; cbv beta iota; rec_simpl;
    rewrite ?Hlt; cbv beta iota; rec_simpl; repeat split.
Qed.

(** X10.  A Move in DualTilt mode, not consumed, with tilt enabled, on a
    view whose height is not zero and whose pitch is within the limit, the
    smaller of 75 degrees and the maximum pitch of the view: [pitch] is
    called once, with the clamped new pitch minus the pitch of the view.
    The pitch plus that change is within the limit, so that the pitch of
    the view after the Move is within the limit when [pitch] adds its
    argument to the pitch of a view; and the change is the angle of the
    movement, [-pi * dy / height], when that stays within the limit. *)
Theorem tilt_move_keeps_pitch_in_range (th : TouchHandler) (v : V) (pos pos2 : ScreenPos)
  (now later : time_point) :
  m_gestureMode th = DUAL_POINTER_TILT ->
  m_interactionConsumed th = false ->
  m_tiltEnabled th = true ->
  ~ getHeight VO v == 0 ->
  0 <= getPitch VO v <= maxTiltPitch M VO v ->
  let angle := - M_PI M * (y pos - y (m_prevScreenPos1 th)) / getHeight VO v in
  let r := onTouchEvent M V VO MOVE pos pos2 now later th v in
  exists d : float,
    calls r = [ViewPitch d]
    /\ viewOf r = pitch VO v d
    /\ self r = set_m_prevScreenPos1 pos th
    /\ d = glm_clamp (getPitch VO v + angle) 0 (maxTiltPitch M VO v) - getPitch VO v
    /\ 0 <= getPitch VO v + d <= maxTiltPitch M VO v
    /\ (0 <= getPitch VO v + angle <= maxTiltPitch M VO v -> d == angle)
    /\ ((forall (w : V) (e : float), getPitch VO (pitch VO w e) == getPitch VO w + e) ->
        0 <= getPitch VO (viewOf r) <= maxTiltPitch M VO v).
Proof.
  intros Hmode Hc Htilt _ [Hp0 Hp1]. cbv zeta.
  assert (Hmax : 0 <= maxTiltPitch M VO v) by lra.
  eff_unfold. rewrite Hc. cbv beta iota. rewrite Hmode. cbv beta iota.
  rewrite Htilt. cbn [negb]. cbv beta iota. rec_simpl.
  fold (maxTiltPitch M VO v).
  rewrite (glm_clamp_inside (getPitch VO v) _ Hp0 Hp1).
  eexists. split; [reflexivity|]. split; [reflexivity|]. split; [reflexivity|].
  split; [reflexivity|].
  destruct (glm_clamp_range
              (getPitch VO v + - M_PI M * (y pos - y (m_prevScreenPos1 th)) / getHeight VO v)
              _ Hmax) as [C0 C1].
  split; [split; lra|]. split.
  - intros [A0 A1]. rewrite (glm_clamp_inside _ _ A0 A1). ring.
  - intros Hadd. rewrite Hadd. split; lra.
Qed.

End Moves.

(** * Rotation, scaling and the dual-pointer guess *)

Section Dual.

Variable M : MathLib.
Variable V : Type.
Variable VO : ViewOps V.

(** X11.  [calculateRotatingScalingFactor] is 0 when the pointers were or
    are less than one pixel apart.  Otherwise, with the change of angle
    [an] and the relative change of distance [sc], both of which are at
    least 0: it is [an], and positive, when [an > 2 sc]; it is [-sc], and
    negative, when that fails and [sc > 2 an]; and it is 0 when neither
    dominates. *)
Theorem rotatingScalingFactor_sign (th : TouchHandler) (p1 p2 : ScreenPos) :
  let f := calculateRotatingScalingFactor M th p1 p2 in
  let prevDist := distance M (m_prevScreenPos2 th) (m_prevScreenPos1 th) in
  let currDist := distance M p2 p1 in
  let an := angleChangeOf M th p1 p2 in
  let sc := scaleChangeOf M th p1 p2 in
  (Qltb prevDist 1 || Qltb currDist 1 = true -> f = 0)
  /\ (Qltb prevDist 1 || Qltb currDist 1 = false ->
      (0 <= an /\ 0 <= sc)
      /\ (sc * 2 < an -> f = an /\ 0 < f)
      /\ (an <= sc * 2 -> an * 2 < sc -> f = - sc /\ f < 0)
      /\ (an <= sc * 2 -> sc <= an * 2 -> f = 0)).
Proof.
  cbv zeta. unfold calculateRotatingScalingFactor, angleChangeOf, scaleChangeOf, distance.
  set (pd := std_sqrt M (pow2 (x (m_prevScreenPos2 th) - x (m_prevScreenPos1 th))
                         + pow2 (y (m_prevScreenPos2 th) - y (m_prevScreenPos1 th)))).
  set (cd := std_sqrt M (pow2 (x p2 - x p1) + pow2 (y p2 - y p1))).
  set (an := std_abs (std_atan2 M (y p2 - y p1) (x p2 - x p1)
                      - std_atan2 M (y (m_prevScreenPos2 th) - y (m_prevScreenPos1 th))
                                    (x (m_prevScreenPos2 th) - x (m_prevScreenPos1 th)))).
  set (sc := std_abs (cd - pd) / pd).
  split; intros Hd; rewrite Hd; [reflexivity|].
  apply orb_false_iff in Hd as [Hp _]. apply Qltb_ge in Hp.
  assert (Han : 0 <= an) by apply Qabs_nonneg.
  assert (Hsc : 0 <= sc).
  { unfold sc. apply Qle_shift_div_l; [lra|]. rewrite Qmult_0_l. apply Qabs_nonneg. }
  split; [split; assumption|]. split; [|split].
  - intros H. apply Qgtb_gt in H as Hb. rewrite Hb. split; [reflexivity | lra].
  - intros H1 H2. apply Qgtb_le in H1 as Hb1. apply Qgtb_gt in H2 as Hb2.
    rewrite Hb1, Hb2. split; [reflexivity | lra].
  - intros H1 H2. apply Qgtb_le in H1 as Hb1. apply Qgtb_le in H2 as Hb2.
    rewrite Hb1, Hb2. reflexivity.
Qed.

(** the mode a Move in DualRotate or DualScale mode goes on in *)
Lemma rotateScale_move_mode (th : TouchHandler) (v : V) (pos1 pos2 : ScreenPos)
  (now later : time_point) :
  isDualPanMode (m_gestureMode th) = true ->
  m_gestureMode th <> DUAL_POINTER_FREE ->
  m_interactionConsumed th = false ->
  let f := calculateRotatingScalingFactor M th pos1 pos2 in
  m_gestureMode (self (onTouchEvent M V VO MOVE pos1 pos2 now later th v))
  = if PanningMode_eqb (m_panningMode th) STICKY then
      if Qgtb f ROTATION_SCALING_FACTOR_THRESHOLD_STICKY then DUAL_POINTER_ROTATE
      else if Qltb f (- ROTATION_SCALING_FACTOR_THRESHOLD_STICKY) then DUAL_POINTER_SCALE
      else m_gestureMode th
    else m_gestureMode th.
Proof.
  intros Hmode Hfree Hc. cbv zeta.
  destruct (m_gestureMode th) eqn:Hg; try discriminate Hmode; try congruence;
    eff_unfold_outer; rewrite Hc; cbv beta iota; rewrite Hg; cbv beta iota; rec_simpl;
    repeat (first [break_match | effect_call M V VO]; cbv beta iota; rec_simpl);
    solve [reflexivity | assumption].
Qed.

Lemma rotateScale_move_calls (th : TouchHandler) (v : V) (pos1 pos2 : ScreenPos)
  (now later : time_point) :
  isDualPanMode (m_gestureMode th) = true ->
  m_gestureMode th <> DUAL_POINTER_FREE ->
  m_interactionConsumed th = false ->
  let r := onTouchEvent M V VO MOVE pos1 pos2 now later th v in
  forallb (callOfPan th (GestureMode_eqb (m_gestureMode (self r)) DUAL_POINTER_ROTATE)
                        (GestureMode_eqb (m_gestureMode (self r)) DUAL_POINTER_SCALE))
          (calls r) = true.
Proof.
  intros Hmode Hfree Hc. cbv zeta.
  destruct (m_gestureMode th) eqn:Hg; try discriminate Hmode; try congruence;
    eff_unfold_outer; rewrite Hc; cbv beta iota; rewrite Hg; cbv beta iota; rec_simpl;
    repeat (first [break_match | effect_call M V VO]; cbv beta iota; rec_simpl);
    rewrite ?app_nil_r; rewrite ?Hg; cbn [GestureMode_eqb];
    try match goal with
        | H : forallb _ _ = true |- _ => rewrite Hg in H; cbn [GestureMode_eqb] in H
        end;
    assumption.
Qed.

(** X12.  A Move in DualRotate or DualScale mode, not consumed.  Under the
    panning modes StickyFinal and Free the mode stays as it is; under
    Sticky it becomes DualRotate when the rotating-scaling factor is above
    0.3, DualScale when it is below -0.3, and stays otherwise.  The Move
    then pans the view when pan is enabled and, in the mode it goes on in,
    only rotates (DualRotate, with rotate enabled) or only zooms
    (DualScale, with zoom enabled): a rotate gesture never zooms and a
    scale gesture never rotates. *)
Theorem rotate_or_scale_move (th : TouchHandler) (v : V) (pos1 pos2 : ScreenPos)
  (now later : time_point) :
  m_gestureMode th = DUAL_POINTER_ROTATE \/ m_gestureMode th = DUAL_POINTER_SCALE ->
  m_interactionConsumed th = false ->
  let f := calculateRotatingScalingFactor M th pos1 pos2 in
  let r := onTouchEvent M V VO MOVE pos1 pos2 now later th v in
  let g := m_gestureMode (self r) in
  g = (if PanningMode_eqb (m_panningMode th) STICKY then
         if Qgtb f ROTATION_SCALING_FACTOR_THRESHOLD_STICKY then DUAL_POINTER_ROTATE
         else if Qltb f (- ROTATION_SCALING_FACTOR_THRESHOLD_STICKY) then DUAL_POINTER_SCALE
         else m_gestureMode th
       else m_gestureMode th)
  /\ (g = DUAL_POINTER_ROTATE \/ g = DUAL_POINTER_SCALE)
  /\ forallb (callOfPan th (GestureMode_eqb g DUAL_POINTER_ROTATE)
                           (GestureMode_eqb g DUAL_POINTER_SCALE)) (calls r) = true
  /\ (g = DUAL_POINTER_ROTATE -> forallb (fun c => negb (Call_isZoom c)) (calls r) = true)
  /\ (g = DUAL_POINTER_SCALE -> forallb (fun c => negb (Call_isYaw c)) (calls r) = true).
Proof.
  intros Hmode Hc. cbv zeta.
  assert (Hd : isDualPanMode (m_gestureMode th) = true)
    by (destruct Hmode as [E|E]; rewrite E; reflexivity).
  assert (Hf : m_gestureMode th <> DUAL_POINTER_FREE)
    by (destruct Hmode as [E|E]; rewrite E; discriminate).
  pose proof (rotateScale_move_mode th v pos1 pos2 now later Hd Hf Hc) as Hg.
  pose proof (rotateScale_move_calls th v pos1 pos2 now later Hd Hf Hc) as Hcalls.
  cbv zeta in Hg, Hcalls.
  set (r := onTouchEvent M V VO MOVE pos1 pos2 now later th v) in *.
  assert (Hrs : m_gestureMode (self r) = DUAL_POINTER_ROTATE
                \/ m_gestureMode (self r) = DUAL_POINTER_SCALE).
  { rewrite Hg. destruct (PanningMode_eqb _ _); [|exact Hmode].
    destruct (Qgtb _ _); [left; reflexivity|].
    destruct (Qltb _ _); [right; reflexivity | exact Hmode]. }
  split; [exact Hg|]. split; [exact Hrs|]. split; [exact Hcalls|].
  split; intros E; rewrite E in Hcalls; cbn [GestureMode_eqb] in Hcalls;
    (eapply forallb_weaken; [|exact Hcalls]); intros c; destruct c; cbn;
    intros H; solve [reflexivity | discriminate H].
Qed.

(** X13.  The shortcuts of the dual-pointer guess.  A Move in DualGuess
    mode, not consumed, makes no call and leaves the view.  With tilt
    enabled and neither rotate nor zoom, the mode becomes DualTilt at
    once; with tilt disabled and rotate or zoom enabled it becomes
    DualFree at once, whatever the panning mode; with none of the three
    enabled it becomes SingleClickGuess, the previous positions staying
    as they were.  With both families enabled and the pointers more than
    1.0 inch apart in y, it becomes DualFree.  In all four cases the
    swipes are left as they were. *)
Theorem dualGuess_shortcuts (th : TouchHandler) (v : V) (pos1 pos2 : ScreenPos)
  (now later : time_point) :
  m_gestureMode th = DUAL_POINTER_GUESS ->
  m_interactionConsumed th = false ->
  let r := onTouchEvent M V VO MOVE pos1 pos2 now later th v in
  let moved g := set_m_prevScreenPos2 pos2 (set_m_prevScreenPos1 pos1 (set_m_gestureMode g th)) in
  (calls r = [] /\ viewOf r = v /\ value r = false)
  /\ (m_tiltEnabled th = true -> m_rotateEnabled th || m_zoomEnabled th = false ->
      self r = moved DUAL_POINTER_TILT)
  /\ (m_tiltEnabled th = false -> m_rotateEnabled th || m_zoomEnabled th = true ->
      self r = moved DUAL_POINTER_FREE)
  /\ (m_tiltEnabled th = false -> m_rotateEnabled th || m_zoomEnabled th = false ->
      self r = set_m_gestureMode SINGLE_POINTER_CLICK_GUESS th)
  /\ (m_tiltEnabled th = true -> m_rotateEnabled th || m_zoomEnabled th = true ->
      GUESS_MAX_DELTA_Y_INCHES < std_abs (y pos1 - y pos2) / m_dpi th ->
      self r = moved DUAL_POINTER_FREE).
Proof.
  intros Hmode Hc. cbv zeta. split; [|split; [|split; [|split]]].
  - eff_unfold_outer. rewrite Hc. cbv beta iota. rewrite Hmode. cbv beta iota.
    effect_call M V VO. rec_simpl. rewrite Hc. repeat split.
  - intros Ht Hrz. eff_unfold. rewrite Hc. cbv beta iota. rewrite Hmode. cbv beta iota.
    rewrite Ht, Hrz. cbn [Z.add Z.eqb Pos.add Pos.eqb Z.pos_sub Pos.succ].
    cbv beta iota. rec_simpl. reflexivity.
  - intros Ht Hrz. eff_unfold. rewrite Hc. cbv beta iota. rewrite Hmode. cbv beta iota.
    rewrite Ht, Hrz. cbn [Z.add Z.eqb Pos.add Pos.eqb Z.pos_sub Pos.succ].
    cbv beta iota. rec_simpl. reflexivity.
  - intros Ht Hrz. eff_unfold. rewrite Hc. cbv beta iota. rewrite Hmode. cbv beta iota.
    rewrite Ht, Hrz. cbn [Z.add Z.eqb Pos.add Pos.eqb Z.pos_sub Pos.succ].
    cbv beta iota. rec_simpl. reflexivity.
  - intros Ht Hrz Hdy.
    apply (ieee_gtb_div_above _ _ GUESS_MAX_DELTA_Y_INCHES) in Hdy;
      [|unfold GUESS_MAX_DELTA_Y_INCHES; lra].
    eff_unfold. rewrite Hc. cbv beta iota. rewrite Hmode. cbv beta iota.
    rewrite Ht, Hrz. cbn [Z.add Z.eqb Pos.add Pos.eqb Z.pos_sub Pos.succ].
    cbv beta iota. rewrite Hdy. cbv beta iota. rec_simpl. reflexivity.
Qed.

(** X14.  During the dual-pointer guess (a Move in DualGuess mode, not
    consumed, with tilt and rotate-or-zoom enabled, a DPI that is not zero
    and the pointers at most 1.0 inch apart in y): when, after the swipes
    are accumulated, the product of their y components is above 0 and some
    swipe is longer than GUESS_MIN_SWIPE_LENGTH_SAME (0.1 in), the mode
    becomes DualTilt; no call is made and the view is left.  The
    comparisons are those of the floats: a swipe left by an earlier Move
    under a DPI of zero need not be finite. *)
Theorem dualGuess_same_direction_swipes (th : TouchHandler) (v : V) (pos1 pos2 : ScreenPos)
  (now later : time_point) :
  m_gestureMode th = DUAL_POINTER_GUESS ->
  m_interactionConsumed th = false ->
  m_tiltEnabled th = true ->
  m_rotateEnabled th || m_zoomEnabled th = true ->
  ~ m_dpi th == 0 ->
  std_abs (y pos1 - y pos2) / m_dpi th <= GUESS_MAX_DELTA_Y_INCHES ->
  let swipe1 := accumulatedSwipe1 th pos1 in
  let swipe2 := accumulatedSwipe2 th pos2 in
  ieee.gt (ieee_length M swipe1) GUESS_MIN_SWIPE_LENGTH_SAME_INCHES
  \/ ieee.gt (ieee_length M swipe2) GUESS_MIN_SWIPE_LENGTH_SAME_INCHES ->
  ieee.gt (ieee.mul (ieee.y swipe1) (ieee.y swipe2)) 0 ->
  let r := onTouchEvent M V VO MOVE pos1 pos2 now later th v in
  self r = set_m_prevScreenPos2 pos2 (set_m_prevScreenPos1 pos1
             (set_m_gestureMode DUAL_POINTER_TILT
                (set_m_swipe2 swipe2 (set_m_swipe1 swipe1 th))))
  /\ calls r = [] /\ viewOf r = v.
Proof.
  intros Hmode Hc Htilt Hrz Hdpi Hdy swipe1 swipe2 Hlen Hprod. cbv zeta.
  assert (Hsep : ieee.gtb (ieee.div (std_abs (y pos1 - y pos2)) (m_dpi th))
                          GUESS_MAX_DELTA_Y_INCHES = false)
    by (rewrite (ieee_gtb_div _ _ _ Hdpi); apply Qgtb_le; exact Hdy).
  assert (Hopp : ieee.leb (ieee.mul (ieee.y swipe1) (ieee.y swipe2)) 0 = false)
    by (apply ieee_gtb_not_leb; exact Hprod).
  assert (Hsame :
    (ieee.gtb (ieee_length M swipe1) GUESS_MIN_SWIPE_LENGTH_SAME_INCHES
     || ieee.gtb (ieee_length M swipe2) GUESS_MIN_SWIPE_LENGTH_SAME_INCHES)
    && ieee.gtb (ieee.mul (ieee.y swipe1) (ieee.y swipe2)) 0 = true).
  { apply andb_true_iff. split; [|exact Hprod].
    apply orb_true_iff. destruct Hlen as [H|H]; [left|right]; exact H. }
  subst swipe1 swipe2. unfold accumulatedSwipe1, accumulatedSwipe2, accumulatedSwipe in *.
  eff_unfold. rewrite Hc. cbv beta iota. rewrite Hmode. cbv beta iota.
  rewrite Htilt, Hrz. cbn [Z.add Z.eqb Pos.add Pos.eqb Z.pos_sub Pos.succ].
  cbv beta iota. rewrite Hsep. cbv beta iota. rec_simpl.
  rewrite Hopp, andb_false_r. cbv beta iota. rewrite Hsame. cbv beta iota.
  rewrite Htilt. cbv beta iota. rec_simpl. repeat split.
Qed.

(** What the guess does under a DPI of zero ([+0.0f], as [setDpi(0)]
    leaves it): with tilt and rotate-or-zoom enabled and the pointers at
    different heights the quotient [|dy| / dpi] is above every bound, and
    a Move in DualGuess mode, not consumed, goes to DualFree mode and
    leaves the swipes. *)
Lemma dualGuess_at_zero_dpi (th : TouchHandler) (v : V) (pos1 pos2 : ScreenPos)
  (now later : time_point) :
  m_gestureMode th = DUAL_POINTER_GUESS ->
  m_interactionConsumed th = false ->
  m_tiltEnabled th = true ->
  m_rotateEnabled th || m_zoomEnabled th = true ->
  m_dpi th == 0 ->
  ~ y pos1 == y pos2 ->
  self (onTouchEvent M V VO MOVE pos1 pos2 now later th v)
  = set_m_prevScreenPos2 pos2 (set_m_prevScreenPos1 pos1
      (set_m_gestureMode DUAL_POINTER_FREE th)).
Proof.
  intros Hmode Hc Htilt Hrz Hdpi Hy.
  assert (Hsep : ieee.gtb (ieee.div (std_abs (y pos1 - y pos2)) (m_dpi th))
                          GUESS_MAX_DELTA_Y_INCHES = true).
  { rewrite (ieee_gtb_div_zero _ _ _ Hdpi). apply Qltb_lt. unfold std_abs.
    destruct (Qlt_le_dec (y pos1 - y pos2) 0) as [Hn|Hn].
    - rewrite Qabs_neg by lra. lra.
    - rewrite Qabs_pos by exact Hn.
      destruct (Qle_lt_or_eq _ _ Hn) as [Hlt|Heq]; [exact Hlt|].
      exfalso. apply Hy. lra. }
  eff_unfold. rewrite Hc. cbv beta iota. rewrite Hmode. cbv beta iota.
  rewrite Htilt, Hrz. cbn [Z.add Z.eqb Pos.add Pos.eqb Z.pos_sub Pos.succ].
  cbv beta iota. rewrite Hsep. cbv beta iota. rec_simpl. reflexivity.
Qed.

End Dual.

(** * Settings, clicks and anchors *)

Section Anchors.

Variable M : MathLib.
Variable V : Type.
Variable VO : ViewOps V.

Lemma sameSettings_refl (th : TouchHandler) : sameSettings th th.
Proof. unfold sameSettings. repeat split. Qed.

Lemma sameSettings_trans (a b c : TouchHandler) :
  sameSettings a b -> sameSettings b c -> sameSettings a c.
Proof. unfold sameSettings. intuition congruence. Qed.

Lemma onTouchEvent_keeps_settings (th : TouchHandler) (v : V) (a : TouchAction)
  (p1 p2 : ScreenPos) (now later : time_point) :
  sameSettings th (self (onTouchEvent M V VO a p1 p2 now later th v)).
Proof.
  destruct a; eff_unfold_outer; rec_simpl;
    repeat (first [break_match | effect_call M V VO]; cbv beta iota; rec_simpl);
    unfold sameSettings; rec_simpl; repeat split.
Qed.

Lemma update_keeps_settings (th : TouchHandler) (v : V) (dt : float) :
  sameSettings th (self (update M V VO dt th v)).
Proof.
  destruct (isFlinging M V VO th v) eqn:E.
  - rewrite (update_flinging M V VO) by exact E. unfold sameSettings. rec_simpl. repeat split.
  - rewrite (update_idle M V VO) by exact E. apply sameSettings_refl.
Qed.

(** X15.  The gestures never change the settings: after any sequence of
    [onTouchEvent] calls, after [update] and after [cancel], the map, the
    DPI, the panning mode, both listeners and the six enable flags of the
    engine are those it had before. *)
Theorem gestures_keep_settings (th : TouchHandler) (v : V) (evs : list TouchEvent)
  (dt : float) :
  sameSettings th (self (onTouchEvents M V VO evs th v))
  /\ sameSettings th (self (update M V VO dt th v))
  /\ sameSettings th (self (cancel V th v)).
Proof.
  split; [|split].
  - revert th v. induction evs as [|e rest IH]; intros th v; cbn [onTouchEvents].
    + apply sameSettings_refl.
    + rewrite (self_bind V). eapply sameSettings_trans; [|apply IH].
      apply onTouchEvent_keeps_settings.
  - apply update_keeps_settings.
  - unfold sameSettings. eff_unfold. rec_simpl. repeat split.
Qed.

(** X16.  A P1Up in SingleClickGuess mode reports at most one click and
    leaves the view: a long press when the pointer moved less than the tap
    threshold and was down for 500 ms or more, a single tap when it moved
    less than the threshold and was down for less than 300 ms, nothing
    when it moved the threshold or more.  The answer of the listener is
    not used: the engine goes on in SingleClickGuess mode with one pointer
    less, whatever it was. *)
Theorem p1Up_reports_tap_or_long_press (th : TouchHandler) (v : V) (pos1 pos2 : ScreenPos)
  (now later : time_point) :
  m_gestureMode th = SINGLE_POINTER_CLICK_GUESS ->
  let moved := distance M pos1 (m_prevScreenPos1 th) in
  let held := tapDurationOf th now in
  let r := onTouchEvent M V VO POINTER_1_UP pos1 pos2 now later th v in
  viewOf r = v
  /\ self r = set_m_pointersDown (Z.max 0 (m_pointersDown th - 1))
                (set_m_gestureMode SINGLE_POINTER_CLICK_GUESS th)
  /\ (moved < tapThresholdOf th -> (LONG_PRESS_TIMEOUT <= held)%Z ->
      calls r = clickCalls th LONG (x pos1) (y pos1))
  /\ (moved < tapThresholdOf th -> (held < DOUBLE_TAP_TIMEOUT)%Z ->
      calls r = clickCalls th SINGLE (x pos1) (y pos1))
  /\ (tapThresholdOf th <= moved -> calls r = []).
Proof.
  intros Hmode. cbv zeta. unfold tapDurationOf, distance, tapThresholdOf, clickCalls.
  split; [|split; [|split; [|split]]].
  - eff_unfold. rewrite Hmode. cbv beta iota.
    repeat (break_match; cbv beta iota; rec_simpl); reflexivity.
  - eff_unfold. rewrite Hmode. cbv beta iota.
    repeat (break_match; cbv beta iota; rec_simpl); reflexivity.
  - intros Hd Hh. apply Qltb_lt in Hd.
    assert (Hb : (duration_cast_ms (now - m_pointer1DownTime th) >=? LONG_PRESS_TIMEOUT)%Z
                 = true) by (rewrite Z.geb_leb; apply Z.leb_le; exact Hh).
    eff_unfold. rewrite Hmode. cbv beta iota. rewrite Hd, Hb. cbv beta iota.
    destruct (m_mapClickListener th); reflexivity.
  - intros Hd Hh. apply Qltb_lt in Hd.
    assert (Hb : (duration_cast_ms (now - m_pointer1DownTime th) >=? LONG_PRESS_TIMEOUT)%Z
                 = false)
      by (rewrite Z.geb_leb; apply Z.leb_gt; unfold LONG_PRESS_TIMEOUT, DOUBLE_TAP_TIMEOUT in *;
          lia).
    apply Z.ltb_lt in Hh.
    eff_unfold. rewrite Hmode. cbv beta iota. rewrite Hd, Hb, Hh. cbv beta iota.
    destruct (m_mapClickListener th); reflexivity.
  - intros Hd. apply Qltb_ge in Hd.
    eff_unfold. rewrite Hmode. cbv beta iota. rewrite Hd. reflexivity.
Qed.


(** X18.  A pinch: a Move in DualFree mode, not consumed, with pan and
    zoom enabled, rotate disabled, both distances of the pointers above 0
    and a view whose pitch is at most 75 degrees.  The view is translated
    from the previous centre of the pointers to the new one, zoomed by
    [log2(currDist / prevDist)], and translated by [start - end], the
    ground-plane positions of the new centre before and after the zoom.
    On a view whose projection is relative to its position, the pan takes
    the ground point under the previous centre to the new centre, and the
    zoom keeps the ground point under the new centre. *)
Theorem pinch_move_is_anchored_at_centre (G : GroundPlaneView VO) (th : TouchHandler)
  (v : V) (pos1 pos2 : ScreenPos) (now later : time_point) :
  m_gestureMode th = DUAL_POINTER_FREE ->
  m_interactionConsumed th = false ->
  m_panEnabled th = true ->
  m_zoomEnabled th = true ->
  m_rotateEnabled th = false ->
  getPitch VO v <= panLimitPitch M ->
  0 < distance M (m_prevScreenPos2 th) (m_prevScreenPos1 th) ->
  0 < distance M pos2 pos1 ->
  let pc := centreOf (m_prevScreenPos1 th) (m_prevScreenPos2 th) in
  let cc := centreOf pos1 pos2 in
  let elev1 := screenPositionToLngLat VO v (x pc) (y pc) in
  let t := glm.sub (screenToGroundPlane VO v (x pc) (y pc) elev1)
                   (screenToGroundPlane VO v (x cc) (y cc) elev1) in
  let v1 := translate VO v (glm.x t) (glm.y t) in
  let elev2 := screenPositionToLngLat VO v1 (x cc) (y cc) in
  let dz := std_log2 M (distance M pos2 pos1
                        / distance M (m_prevScreenPos2 th) (m_prevScreenPos1 th)) in
  let v2 := zoom VO v1 dz in
  let a := glm.sub (screenToGroundPlane VO v1 (x cc) (y cc) elev2)
                   (screenToGroundPlane VO v2 (x cc) (y cc) elev2) in
  let r := onTouchEvent M V VO MOVE pos1 pos2 now later th v in
  calls r = [ViewTranslate (glm.x t) (glm.y t); ViewZoom dz;
             ViewTranslate (glm.x a) (glm.y a)]
  /\ viewOf r = translate VO v2 (glm.x a) (glm.y a)
  /\ self r = set_m_prevScreenPos2 pos2 (set_m_prevScreenPos1 pos1 th)
  /\ vec2_eq (groundPointUnder G v1 cc elev1) (groundPointUnder G v pc elev1)
  /\ vec2_eq (groundPointUnder G (viewOf r) cc elev2) (groundPointUnder G v1 cc elev2).
Proof.
  intros Hmode Hc Hpan Hzoom Hrot Hpitch Hprev Hcurr. cbv zeta.
  apply Qgtb_le in Hpitch. unfold panLimitPitch in Hpitch.
  apply Qgtb_gt in Hprev. apply Qgtb_gt in Hcurr. unfold distance in Hprev, Hcurr.
  unfold centreOf, distance. cbn [x y].
  eff_unfold. rewrite Hc. cbv beta iota. rewrite Hmode. cbv beta iota.
  rewrite Hpan, Hzoom, Hrot. cbn [andb]. cbv beta iota.
  rewrite Hpitch. cbv beta iota. rec_simpl.
  rewrite Hprev, Hcurr. cbn [andb]. cbv beta iota. rec_simpl.
  split; [reflexivity|]. split; [reflexivity|]. split; [reflexivity|].
  unfold groundPointUnder, vec2_eq. cbn [x y].
  set (pcx := (x (m_prevScreenPos1 th) + x (m_prevScreenPos2 th)) * (1 # 2)).
  set (pcy := (y (m_prevScreenPos1 th) + y (m_prevScreenPos2 th)) * (1 # 2)).
  set (ccx := (x pos1 + x pos2) * (1 # 2)).
  set (ccy := (y pos1 + y pos2) * (1 # 2)).
  set (e1 := screenPositionToLngLat VO v pcx pcy).
  set (s1 := screenToGroundPlane VO v pcx pcy e1).
  set (t1 := screenToGroundPlane VO v ccx ccy e1).
  set (w1 := translate VO v (glm.x (glm.sub s1 t1)) (glm.y (glm.sub s1 t1))).
  set (e2 := screenPositionToLngLat VO w1 ccx ccy).
  set (s2 := screenToGroundPlane VO w1 ccx ccy e2).
  set (dz := std_log2 M _).
  set (w2 := zoom VO w1 dz).
  set (t2 := screenToGroundPlane VO w2 ccx ccy e2).
  destruct (translate_moves_position VO G v (glm.x (glm.sub s1 t1)) (glm.y (glm.sub s1 t1)))
    as [Hx Hy].
  destruct (translate_keeps_projection VO G v (glm.x (glm.sub s1 t1)) (glm.y (glm.sub s1 t1))
              ccx ccy e1) as [Px Py].
  destruct (translate_moves_position VO G w2 (glm.x (glm.sub s2 t2)) (glm.y (glm.sub s2 t2)))
    as [Hx2 Hy2].
  destruct (translate_keeps_projection VO G w2 (glm.x (glm.sub s2 t2)) (glm.y (glm.sub s2 t2))
              ccx ccy e2) as [Px2 Py2].
  destruct (zoom_keeps_position VO G w1 dz) as [Zx Zy].
  fold w1 in Hx, Hy, Px, Py. fold t1 in Px, Py. fold w2 in Zx, Zy. fold t2 in Px2, Py2.
  cbn [glm.add glm.sub glm.x glm.y] in *.
  repeat split; lra.
Qed.

End Anchors.

(** * Taps *)

(** the calls that follow the first one of a sequence are set aside while
    the first one runs *)
Ltac set_rest_aside :=
  match goal with
  | |- context [bind (onTouchEvent ?M ?V ?VO ?a ?p1 ?p2 ?n ?l) ?k ?th ?v] =>
      let rest := fresh "rest" in set (rest := k)
  end.

Ltac next_event :=
  cbn [onTouchEvents]; unfold dispatch;
  cbn [ev_action ev_pos1 ev_pos2 ev_now ev_later];
  set_rest_aside; eff_unfold; rec_simpl.

Ltac rest_again :=
  match goal with
  | rest := _ |- _ => subst rest; cbv beta
  end.

Lemma short_is_not_long (d : Z) :
  (d < DOUBLE_TAP_TIMEOUT)%Z -> (d >=? LONG_PRESS_TIMEOUT)%Z = false.
Proof.
  unfold DOUBLE_TAP_TIMEOUT, LONG_PRESS_TIMEOUT. intros H.
  rewrite Z.geb_leb. apply Z.leb_gt. lia.
Qed.

Section Taps.

Variable M : MathLib.
Variable V : Type.
Variable VO : ViewOps V.

(** the run of a double tap *)
Lemma double_tap_run (th : TouchHandler) (v : V) (p p' q q' o1 o2 o3 o4 : ScreenPos)
  (t0 t1 t2 t3 l0 l1 l2 l3 : time_point) :
  m_mapInteractionListener th = None ->
  m_doubleTapDragEnabled th = true ->
  continuesTap M th p t0 = false ->
  (duration_cast_ms (t1 - t0) < DOUBLE_TAP_TIMEOUT)%Z ->
  distance M p' p < tapThresholdOf th ->
  (duration_cast_ms (t2 - t0) < DOUBLE_TAP_TIMEOUT)%Z ->
  distance M q p < tapThresholdOf th ->
  (duration_cast_ms (t3 - t2) < DOUBLE_TAP_TIMEOUT)%Z ->
  distance M q' q < tapThresholdOf th ->
  let cs := clickCalls th SINGLE (x p') (y p')
            ++ clickCalls th DOUBLE (x q') (y q')
            ++ defaultZoomCalls th (clickConsumed th DOUBLE (x q') (y q'))
                                (x q') (y q') false in
  exists th',
    onTouchEvents M V VO
      [ mkTouchEvent POINTER_1_DOWN p o1 t0 l0; mkTouchEvent POINTER_1_UP p' o2 t1 l1;
        mkTouchEvent POINTER_1_DOWN q o3 t2 l2; mkTouchEvent POINTER_1_UP q' o4 t3 l3 ] th v
    = mkOutcome tt th' (applyCalls VO cs v) cs
    /\ m_gestureMode th' = SINGLE_POINTER_CLICK_GUESS
    /\ m_interactionConsumed th' = false.
Proof.
  intros Hil Hdrag Hfresh H1 D1 H2 D2 H3 D3. cbv zeta.
  unfold continuesTap, sinceFirstTap in Hfresh.
  unfold distance, tapThresholdOf in *.
  pose proof (short_is_not_long _ H1) as L1.
  apply Z.ltb_lt in H1, H2, H3. apply Qltb_lt in D1, D2, D3.
  unfold clickCalls, clickConsumed, defaultZoomCalls.
  destruct (m_mapClickListener th) as [l|] eqn:Hl;
    next_event; rewrite Hfresh; cbv beta iota; rec_simpl; rest_again;
    next_event; rewrite D1, L1, H1; cbv beta iota; rec_simpl; rewrite Hl;
    cbv beta iota; rec_simpl; rest_again;
    next_event; rewrite H2, D2; cbn [andb GestureMode_eqb]; cbv beta iota;
    rewrite Hdrag; cbn [negb]; cbv beta iota; rec_simpl; rewrite Hil;
    cbv beta iota; rec_simpl; rest_again;
    next_event; rewrite H3, D3; cbn [andb]; cbv beta iota; rec_simpl; rewrite Hl;
    cbv beta iota; rec_simpl.
  - destruct (l DOUBLE (x q') (y q')); cbv beta iota; rec_simpl;
      [|destruct (m_doubleTapEnabled th && m_map th); cbv beta iota; rec_simpl];
      rest_again;
      cbn [negb andb app applyCalls fold_left applyCall onTouchEvents ret];
      eexists; (split; [reflexivity|]); rec_simpl; split; reflexivity.
  - destruct (m_doubleTapEnabled th && m_map th); cbv beta iota; rec_simpl;
      rest_again;
      cbn [negb andb app applyCalls fold_left applyCall onTouchEvents ret];
      eexists; (split; [reflexivity|]); rec_simpl; split; reflexivity.
Qed.

(** X19.  A double tap.  On an engine with double-tap drag enabled and no
    interaction listener: a P1Down that does not continue an earlier tap,
    a P1Up less than 300 ms later and less than the tap threshold away, a
    second P1Down less than 300 ms after the first and less than the
    threshold from it, and a P1Up less than 300 ms after the second P1Down
    and less than the threshold from it.  The click listener, when set,
    is told a single tap at the first release and a double tap at the
    second; then, unless it consumed the double tap, and when double tap
    is enabled and the engine has a map, the map runs its double-tap
    gesture at the position of the second release, zooming in.  Nothing
    else is called, and the engine ends in SingleClickGuess mode. *)
Theorem double_tap_zooms_in (th : TouchHandler) (v : V) (p p' q q' o1 o2 o3 o4 : ScreenPos)
  (t0 t1 t2 t3 l0 l1 l2 l3 : time_point) :
  m_mapInteractionListener th = None ->
  m_doubleTapDragEnabled th = true ->
  continuesTap M th p t0 = false ->
  (duration_cast_ms (t1 - t0) < DOUBLE_TAP_TIMEOUT)%Z ->
  distance M p' p < tapThresholdOf th ->
  (duration_cast_ms (t2 - t0) < DOUBLE_TAP_TIMEOUT)%Z ->
  distance M q p < tapThresholdOf th ->
  (duration_cast_ms (t3 - t2) < DOUBLE_TAP_TIMEOUT)%Z ->
  distance M q' q < tapThresholdOf th ->
  let r := onTouchEvents M V VO
             [ mkTouchEvent POINTER_1_DOWN p o1 t0 l0; mkTouchEvent POINTER_1_UP p' o2 t1 l1;
               mkTouchEvent POINTER_1_DOWN q o3 t2 l2; mkTouchEvent POINTER_1_UP q' o4 t3 l3 ]
             th v in
  calls r = clickCalls th SINGLE (x p') (y p')
            ++ clickCalls th DOUBLE (x q') (y q')
            ++ defaultZoomCalls th (clickConsumed th DOUBLE (x q') (y q'))
                                (x q') (y q') false
  /\ viewOf r = applyCalls VO (calls r) v
  /\ m_gestureMode (self r) = SINGLE_POINTER_CLICK_GUESS
  /\ m_interactionConsumed (self r) = false.
Proof.
  intros Hil Hdrag Hfresh H1 D1 H2 D2 H3 D3. cbv zeta.
  destruct (double_tap_run th v p p' q q' o1 o2 o3 o4 t0 t1 t2 t3 l0 l1 l2 l3
              Hil Hdrag Hfresh H1 D1 H2 D2 H3 D3) as (th' & E & Hm & Hc).
  cbv zeta in E. rewrite E. rec_simpl. repeat split; assumption.
Qed.

(** the run of a double tap with double-tap drag disabled *)
Lemma double_tap_without_drag_run (th : TouchHandler) (v : V)
  (p p' q q' o1 o2 o3 o4 : ScreenPos) (t0 t1 t2 t3 l0 l1 l2 l3 : time_point) :
  m_doubleTapDragEnabled th = false ->
  continuesTap M th p t0 = false ->
  (duration_cast_ms (t1 - t0) < DOUBLE_TAP_TIMEOUT)%Z ->
  distance M p' p < tapThresholdOf th ->
  (duration_cast_ms (t2 - t0) < DOUBLE_TAP_TIMEOUT)%Z ->
  distance M q p < tapThresholdOf th ->
  (duration_cast_ms (t3 - t2) < DOUBLE_TAP_TIMEOUT)%Z ->
  distance M q' q < tapThresholdOf th ->
  let cs := clickCalls th SINGLE (x p') (y p') ++ clickCalls th SINGLE (x q') (y q') in
  exists th',
    onTouchEvents M V VO
      [ mkTouchEvent POINTER_1_DOWN p o1 t0 l0; mkTouchEvent POINTER_1_UP p' o2 t1 l1;
        mkTouchEvent POINTER_1_DOWN q o3 t2 l2; mkTouchEvent POINTER_1_UP q' o4 t3 l3 ] th v
    = mkOutcome tt th' v cs
    /\ m_gestureMode th' = SINGLE_POINTER_CLICK_GUESS.
Proof.
  intros Hdrag Hfresh H1 D1 H2 D2 H3 D3. cbv zeta.
  unfold continuesTap, sinceFirstTap in Hfresh.
  unfold distance, tapThresholdOf in *.
  pose proof (short_is_not_long _ H1) as L1.
  pose proof (short_is_not_long _ H3) as L3.
  apply Z.ltb_lt in H1, H2, H3. apply Qltb_lt in D1, D2, D3.
  unfold clickCalls.
  destruct (m_mapClickListener th) as [l|] eqn:Hl;
    next_event; rewrite Hfresh; cbv beta iota; rec_simpl; rest_again;
    next_event; rewrite D1, L1, H1; cbv beta iota; rec_simpl; rewrite Hl;
    cbv beta iota; rec_simpl; rest_again;
    next_event; rewrite H2, D2; cbn [andb GestureMode_eqb]; cbv beta iota;
    rewrite Hdrag; cbn [negb]; cbv beta iota; rec_simpl; rest_again;
    next_event; rewrite D3, L3, H3; cbv beta iota; rec_simpl; rewrite Hl;
    cbv beta iota; rec_simpl; rest_again;
    cbn [app onTouchEvents ret];
    eexists; (split; [reflexivity|]); rec_simpl; reflexivity.
Qed.

(** X20.  With double-tap drag disabled there is no double tap: the same
    four actions are reported to the click listener as two single taps,
    and the double-tap gesture of the map does not run, whether double tap
    is enabled or not; the view is left as it is. *)
Theorem double_tap_without_drag_is_two_taps (th : TouchHandler) (v : V)
  (p p' q q' o1 o2 o3 o4 : ScreenPos) (t0 t1 t2 t3 l0 l1 l2 l3 : time_point) :
  m_doubleTapDragEnabled th = false ->
  continuesTap M th p t0 = false ->
  (duration_cast_ms (t1 - t0) < DOUBLE_TAP_TIMEOUT)%Z ->
  distance M p' p < tapThresholdOf th ->
  (duration_cast_ms (t2 - t0) < DOUBLE_TAP_TIMEOUT)%Z ->
  distance M q p < tapThresholdOf th ->
  (duration_cast_ms (t3 - t2) < DOUBLE_TAP_TIMEOUT)%Z ->
  distance M q' q < tapThresholdOf th ->
  let r := onTouchEvents M V VO
             [ mkTouchEvent POINTER_1_DOWN p o1 t0 l0; mkTouchEvent POINTER_1_UP p' o2 t1 l1;
               mkTouchEvent POINTER_1_DOWN q o3 t2 l2; mkTouchEvent POINTER_1_UP q' o4 t3 l3 ]
             th v in
  calls r = clickCalls th SINGLE (x p') (y p') ++ clickCalls th SINGLE (x q') (y q')
  /\ viewOf r = v
  /\ m_gestureMode (self r) = SINGLE_POINTER_CLICK_GUESS.
Proof.
  intros Hdrag Hfresh H1 D1 H2 D2 H3 D3. cbv zeta.
  destruct (double_tap_without_drag_run th v p p' q q' o1 o2 o3 o4 t0 t1 t2 t3 l0 l1 l2 l3
              Hdrag Hfresh H1 D1 H2 D2 H3 D3) as (th' & E & Hm).
  cbv zeta in E. rewrite E. rec_simpl. repeat split; assumption.
Qed.

(** the run of a dual tap *)
Lemma dual_tap_run (th : TouchHandler) (v : V) (p o1 a b c d e o4 : ScreenPos)
  (t0 t1 t2 t3 l0 l1 l2 l3 : time_point) :
  continuesTap M th p t0 = false ->
  (duration_cast_ms (t2 - t0) < DOUBLE_TAP_TIMEOUT)%Z ->
  (duration_cast_ms (t3 - t0) < DOUBLE_TAP_TIMEOUT)%Z ->
  distance M e p < tapThresholdOf th ->
  let mx := (x p + x d) / 2 in
  let my := (y p + y d) / 2 in
  let cs := clickCalls th DUAL mx my
            ++ defaultZoomCalls th (clickConsumed th DUAL mx my) mx my true
            ++ clickCalls th SINGLE (x e) (y e) in
  exists th',
    onTouchEvents M V VO
      [ mkTouchEvent POINTER_1_DOWN p o1 t0 l0; mkTouchEvent POINTER_2_DOWN a b t1 l1;
        mkTouchEvent POINTER_2_UP c d t2 l2; mkTouchEvent POINTER_1_UP e o4 t3 l3 ] th v
    = mkOutcome tt th' (applyCalls VO cs v) cs
    /\ m_gestureMode th' = SINGLE_POINTER_CLICK_GUESS.
Proof.
  intros Hfresh H2 H3 D3. cbv zeta.
  unfold continuesTap, sinceFirstTap in Hfresh.
  unfold distance, tapThresholdOf in *.
  pose proof (short_is_not_long _ H3) as L3.
  apply Z.ltb_lt in H2, H3. apply Qltb_lt in D3.
  unfold clickCalls, clickConsumed, defaultZoomCalls.
  destruct (m_mapClickListener th) as [l|] eqn:Hl;
    next_event; rewrite Hfresh; cbv beta iota; rec_simpl; rest_again;
    next_event; rest_again;
    next_event; rewrite H2; cbv beta iota; rec_simpl; rewrite Hl; cbv beta iota; rec_simpl.
  - destruct (l DUAL ((x p + x d) / 2) ((y p + y d) / 2)); cbv beta iota; rec_simpl;
      [|destruct (m_doubleTapEnabled th && m_map th); cbv beta iota; rec_simpl];
      rest_again;
      next_event; rewrite D3, L3, H3; cbv beta iota; rec_simpl; rewrite Hl;
      cbv beta iota; rec_simpl; rest_again;
      cbn [negb andb app applyCalls fold_left applyCall onTouchEvents ret];
      eexists; (split; [reflexivity|]); rec_simpl; reflexivity.
  - destruct (m_doubleTapEnabled th && m_map th); cbv beta iota; rec_simpl;
      rest_again;
      next_event; rewrite D3, L3, H3; cbv beta iota; rec_simpl; rewrite Hl;
      cbv beta iota; rec_simpl; rest_again;
      cbn [negb andb app applyCalls fold_left applyCall onTouchEvents ret];
      eexists; (split; [reflexivity|]); rec_simpl; reflexivity.
Qed.

(** X21.  A dual tap.  A P1Down that does not continue an earlier tap, a
    P2Down, and a P2Up less than 300 ms after the P1Down, with no Move in
    between: the click listener, when set, is told a dual tap at the
    midpoint of the position of the P1Down and the second position of the
    P2Up; then, unless it consumed the click, and when double tap is
    enabled and the engine has a map, the map runs its double-tap gesture
    there, zooming out.  The P1Up that follows, less than 300 ms after the
    P1Down and less than the tap threshold from it, is told to the click
    listener as a single tap.  Nothing else is called, and the engine ends
    in SingleClickGuess mode. *)
Theorem dual_tap_zooms_out (th : TouchHandler) (v : V) (p o1 a b c d e o4 : ScreenPos)
  (t0 t1 t2 t3 l0 l1 l2 l3 : time_point) :
  continuesTap M th p t0 = false ->
  (duration_cast_ms (t2 - t0) < DOUBLE_TAP_TIMEOUT)%Z ->
  (duration_cast_ms (t3 - t0) < DOUBLE_TAP_TIMEOUT)%Z ->
  distance M e p < tapThresholdOf th ->
  let mx := (x p + x d) / 2 in
  let my := (y p + y d) / 2 in
  let r := onTouchEvents M V VO
             [ mkTouchEvent POINTER_1_DOWN p o1 t0 l0; mkTouchEvent POINTER_2_DOWN a b t1 l1;
               mkTouchEvent POINTER_2_UP c d t2 l2; mkTouchEvent POINTER_1_UP e o4 t3 l3 ]
             th v in
  calls r = clickCalls th DUAL mx my
            ++ defaultZoomCalls th (clickConsumed th DUAL mx my) mx my true
            ++ clickCalls th SINGLE (x e) (y e)
  /\ viewOf r = applyCalls VO (calls r) v
  /\ m_gestureMode (self r) = SINGLE_POINTER_CLICK_GUESS.
Proof.
  intros Hfresh H2 H3 D3. cbv zeta.
  destruct (dual_tap_run th v p o1 a b c d e o4 t0 t1 t2 t3 l0 l1 l2 l3 Hfresh H2 H3 D3)
    as (th' & E & Hm).
  cbv zeta in E. rewrite E. rec_simpl. repeat split; assumption.
Qed.

(** X26.  How a touch begins.  Every P1Down zeroes both velocities, sets
    [m_noDualPointerYet], records its time and its position as [prev1],
    and leaves the view.  When it does not continue a tap (300 ms or more
    after the first tap, or the tap threshold or more away from it, or
    not in SingleClickGuess mode) it makes no call, goes to
    SingleClickGuess mode and records itself as the first tap.  When it
    continues a tap, the first tap stays as recorded: with double-tap drag
    disabled the mode is SingleClickGuess and no call is made; with it
    enabled the interaction listener, when set, is asked about a zoom, and
    the mode is SingleZoom, anchored at the position of the P1Down,
    unless the listener consumed the interaction. *)
Theorem p1Down_starts_tap_or_drag_zoom (th : TouchHandler) (v : V) (pos pos2 : ScreenPos)
  (now later : time_point) :
  let r := onTouchEvent M V VO POINTER_1_DOWN pos pos2 now later th v in
  let refused := interactionRefused th false true false false in
  (m_velocityPan (self r) = glm.mk 0 0
   /\ m_velocityZoom (self r) = 0
   /\ m_noDualPointerYet (self r) = true
   /\ m_pointer1DownTime (self r) = now
   /\ m_prevScreenPos1 (self r) = pos
   /\ viewOf r = v)
  /\ (continuesTap M th pos now = false ->
      calls r = [] /\ value r = false
      /\ m_gestureMode (self r) = SINGLE_POINTER_CLICK_GUESS
      /\ m_firstTapTime (self r) = now /\ m_firstTapPos (self r) = pos)
  /\ (continuesTap M th pos now = true ->
      (m_firstTapTime (self r) = m_firstTapTime th
       /\ m_firstTapPos (self r) = m_firstTapPos th)
      /\ (m_doubleTapDragEnabled th = false ->
          calls r = [] /\ value r = false
          /\ m_gestureMode (self r) = SINGLE_POINTER_CLICK_GUESS)
      /\ (m_doubleTapDragEnabled th = true ->
          calls r = interactionCalls th false true false false
          /\ value r = refused
          /\ m_gestureMode (self r)
             = (if refused then SINGLE_POINTER_CLICK_GUESS else SINGLE_POINTER_ZOOM)
          /\ (refused = false ->
              m_doubleTapStartPos (self r) = pos
              /\ m_singlePointerZoomStartZoom (self r) = getZoom VO v))).
Proof.
  cbv zeta. unfold continuesTap, sinceFirstTap, distance, tapThresholdOf,
    interactionCalls, interactionRefused.
  split; [|split].
  - run; repeat split.
  - intros Hf. eff_unfold. rec_simpl. rewrite Hf. cbv beta iota. rec_simpl. repeat split.
  - intros Hf. split; [|split].
    + eff_unfold. rec_simpl. rewrite Hf. cbv beta iota.
      repeat (break_match; cbv beta iota; rec_simpl); split; reflexivity.
    + intros Hd. eff_unfold. rec_simpl. rewrite Hf. cbv beta iota. rewrite Hd.
      cbn [negb]. cbv beta iota. rec_simpl. repeat split.
    + intros Hd. eff_unfold. rec_simpl. rewrite Hf. cbv beta iota. rewrite Hd.
      cbn [negb]. cbv beta iota. rec_simpl.
      destruct (m_mapInteractionListener th) as [l|]; cbv beta iota; rec_simpl;
        [destruct (l false true false false); cbv beta iota; rec_simpl|];
        repeat split; easy.
Qed.

(** X27.  How a gesture begins to move.  A Move that is not consumed, in
    SingleClickGuess or DualClickGuess mode, leaves the view.  In
    SingleClickGuess mode it does nothing at all while the pointer is
    within the tap threshold of [prev1], or when pan is disabled; beyond
    the threshold, with pan enabled, the interaction listener, when set,
    is asked about a pan, and unless it consumed the interaction the mode
    becomes SinglePan and [prev1] the position of the Move: the distance
    up to there is not panned.  In DualClickGuess mode any Move, however
    small, asks the listener about all four kinds of interaction, and
    unless it consumed the interaction the mode becomes DualGuess with
    both positions recorded; the swipes are left as they were. *)
Theorem move_starts_gesture (th : TouchHandler) (v : V) (pos1 pos2 : ScreenPos)
  (now later : time_point) :
  m_interactionConsumed th = false ->
  let r := onTouchEvent M V VO MOVE pos1 pos2 now later th v in
  let moved := distance M pos1 (m_prevScreenPos1 th) in
  (m_gestureMode th = SINGLE_POINTER_CLICK_GUESS ->
   let refused := interactionRefused th true false false false in
   (moved <= tapThresholdOf th \/ m_panEnabled th = false -> r = mkOutcome false th v [])
   /\ (tapThresholdOf th < moved -> m_panEnabled th = true ->
       calls r = interactionCalls th true false false false
       /\ viewOf r = v /\ value r = refused
       /\ m_interactionConsumed (self r) = refused
       /\ m_gestureMode (self r)
          = (if refused then SINGLE_POINTER_CLICK_GUESS else SINGLE_POINTER_PAN)
       /\ m_prevScreenPos1 (self r) = (if refused then m_prevScreenPos1 th else pos1)))
  /\ (m_gestureMode th = DUAL_POINTER_CLICK_GUESS ->
      let refused := interactionRefused th true true true true in
      calls r = interactionCalls th true true true true
      /\ viewOf r = v /\ value r = refused
      /\ m_interactionConsumed (self r) = refused
      /\ m_gestureMode (self r)
         = (if refused then DUAL_POINTER_CLICK_GUESS else DUAL_POINTER_GUESS)
      /\ m_prevScreenPos1 (self r) = (if refused then m_prevScreenPos1 th else pos1)
      /\ m_prevScreenPos2 (self r) = (if refused then m_prevScreenPos2 th else pos2)
      /\ m_swipe1 (self r) = m_swipe1 th /\ m_swipe2 (self r) = m_swipe2 th).
Proof.
  intros Hc. cbv zeta. unfold distance, tapThresholdOf, interactionCalls, interactionRefused.
  split; intros Hmode.
  - split.
    + intros [Hd|Hp].
      * apply Qgtb_le in Hd. eff_unfold. rewrite Hc. cbv beta iota. rewrite Hmode.
        cbv beta iota. rewrite Hd. cbv beta iota. rec_simpl. rewrite Hc. reflexivity.
      * eff_unfold. rewrite Hc. cbv beta iota. rewrite Hmode. cbv beta iota. rewrite Hp.
        cbn [negb]. destruct (Qgtb _ _); cbv beta iota; rec_simpl; rewrite Hc; reflexivity.
    + intros Hd Hp. apply Qgtb_gt in Hd.
      eff_unfold. rewrite Hc. cbv beta iota. rewrite Hmode. cbv beta iota. rewrite Hd, Hp.
      cbn [negb]. cbv beta iota.
      destruct (m_mapInteractionListener th) as [l|]; cbv beta iota; rec_simpl;
        [destruct (l true false false false); cbv beta iota; rec_simpl
        | rewrite Hc; cbv beta iota; rec_simpl];
        rewrite ?Hmode, ?Hc; repeat split.
  - eff_unfold. rewrite Hc. cbv beta iota. rewrite Hmode. cbv beta iota.
    destruct (m_mapInteractionListener th) as [l|]; cbv beta iota; rec_simpl;
      [destruct (l true true true true); cbv beta iota; rec_simpl
      | rewrite Hc; cbv beta iota; rec_simpl];
      rewrite ?Hmode, ?Hc; repeat split.
Qed.

End Taps.

(** * [MapView.handleTouchEventNew] *)

Ltac java_unfold := cbv beta iota zeta delta [
    MapView.onTouchEvent MapView.handleTouchEventNew MapView.switchOnAction
    MapView.forwardOne MapView.forwardTwo MapView.jbind MapView.jret MapView.fields
    MapView.store MapView.answer MapView.handleTouchEvent].
Ltac java_simpl := cbn [
    MapView.mapController MapView.nativeMap MapView.pointer1Id MapView.pointer2Id
    MapView.useNewTouchHandling MapView.isClickable MapView.isLongClickable
    MapView.isEnabled MapView.set_pointer1Id MapView.set_pointer2Id
    MapView.result MapView.fieldsAfter MapView.forwarded
    MapView.normal MapView.after MapView.natives app negb andb orb].
Ltac java_break :=
  match goal with
  | |- context [match MapView.getActionMasked ?e with _ => _ end] =>
      destruct (MapView.getActionMasked e) eqn:?
  | |- context [match MapView.getPointerId ?e ?i with _ => _ end] =>
      destruct (MapView.getPointerId e i) eqn:?
  | |- context [match MapView.getX ?e ?i with _ => _ end] =>
      destruct (MapView.getX e i) eqn:?
  | |- context [match MapView.getY ?e ?i with _ => _ end] =>
      destruct (MapView.getY e i) eqn:?
  | |- context [if ?b then _ else _] => destruct b eqn:?
  end.
Ltac java_run :=
  java_unfold; java_simpl; repeat (java_break; cbv beta iota; java_simpl).

Module MapViewFacts.

Import MapView.

(** what one event does to the tracked pointers *)
Lemma handleTouchEventNew_tracking (ev : MotionEvent) (s : State) :
  idsAreValid ev ->
  pointer2BesidePointer1 s ->
  pointer2BesidePointer1 (fieldsAfter (handleTouchEventNew ev s))
  /\ (getActionMasked ev = ACTION_POINTER_DOWN ->
      pointer1Id (fieldsAfter (handleTouchEventNew ev s)) = pointer1Id s).
Proof.
  unfold idsAreValid, pointer2BesidePointer1. intros Hids Hinv.
  java_run; (split; [|try discriminate; intros _; try reflexivity]);
    repeat match goal with
           | H : negb _ = true |- _ => apply negb_true_iff in H
           | H : negb _ = false |- _ => apply negb_false_iff in H
           | H : _ && _ = true |- _ => apply andb_true_iff in H; destruct H
           | H : (_ =? _)%Z = true |- _ => apply Z.eqb_eq in H
           | H : (_ =? _)%Z = false |- _ => apply Z.eqb_neq in H
           | H : getPointerId _ _ = Some _ |- _ => apply Hids in H
           end;
    try tauto; try congruence.
Qed.

(** X22.  [MapView] tracks pointer 2 only beside pointer 1: when no event
    gives a pointer the id [INVALID_POINTER_ID], after any sequence of
    events from a view with no pointer tracked, [pointer2Id] is valid only
    when [pointer1Id] is.  So the branch of ACTION_POINTER_DOWN that takes
    pointer 1 from the event while pointer 2 is tracked never runs: an
    ACTION_POINTER_DOWN that follows leaves [pointer1Id] as it is. *)
Theorem pointer2_is_tracked_beside_pointer1 (evs : list MotionEvent) (s : State)
  (ev : MotionEvent) :
  Forall idsAreValid evs ->
  idsAreValid ev ->
  pointer2BesidePointer1 s ->
  let s' := fst (handleAll evs s) in
  pointer2BesidePointer1 s'
  /\ pointer2BesidePointer1 (fieldsAfter (handleTouchEventNew ev s'))
  /\ (getActionMasked ev = ACTION_POINTER_DOWN ->
      pointer1Id (fieldsAfter (handleTouchEventNew ev s')) = pointer1Id s').
Proof.
  intros Hevs Hev Hs. cbv zeta.
  assert (Hs' : pointer2BesidePointer1 (fst (handleAll evs s))).
  { revert s Hs. induction Hevs as [|e rest He _ IH]; intros s Hs; cbn [handleAll].
    - exact Hs.
    - specialize (IH (fieldsAfter (handleTouchEventNew e s))
                     (proj1 (handleTouchEventNew_tracking e s He Hs))).
      destruct (handleAll rest (fieldsAfter (handleTouchEventNew e s))) as [s1 l1].
      exact IH. }
  split; [exact Hs'|]. apply handleTouchEventNew_tracking; assumption.
Qed.

Lemma carries_own_action (a : TouchAction) (acts : list TouchAction) (px py qx qy : float) :
  In a acts ->
  carriesOneOf acts (mkNativeCall (TouchAction_value a) px py qx qy) = true.
Proof.
  intros Hin. unfold carriesOneOf. cbn [action].
  assert (E : TouchAction_of_value (TouchAction_value a) = Some a) by (destruct a; reflexivity).
  rewrite E. apply existsb_exists. exists a. split; [exact Hin|].
  unfold TouchAction_eqb. apply Z.eqb_refl.
Qed.

(** X23.  What [handleTouchEventNew] forwards.  An event makes at most one
    native call, and the call carries the number of the action of the
    engine that the event stands for, by the numbering of
    [enum class TouchAction]: P1Down for ACTION_DOWN, P2Down for
    ACTION_POINTER_DOWN, Move for ACTION_MOVE, Cancel for ACTION_CANCEL,
    P1Up or P2Up for ACTION_UP and ACTION_POINTER_UP.  When the handler
    returns [false] it has made no call.  Without a map controller or a
    native map, and on a view that is disabled or takes no clicks, it
    makes no call and leaves the tracked pointers. *)
Theorem handleTouchEventNew_forwards_one_action (ev : MotionEvent) (s : State) :
  let h := handleTouchEventNew ev s in
  (length (forwarded h) <= 1)%nat
  /\ forallb (carriesOneOf (actionsOf (getActionMasked ev))) (forwarded h) = true
  /\ (result h = false -> forwarded h = [])
  /\ (mapController s && nativeMap s && isEnabled s
      && (isClickable s || isLongClickable s) = false ->
      forwarded h = [] /\ fieldsAfter h = s
      /\ result h = mapController s && nativeMap s && (isClickable s || isLongClickable s)).
Proof.
  cbv zeta. split; [|split; [|split]].
  - java_run; cbn [length]; lia.
  - java_run; cbn [forallb actionsOf]; try reflexivity; rewrite andb_true_r;
      first [ apply (carries_own_action POINTER_1_DOWN)
            | apply (carries_own_action POINTER_2_DOWN)
            | apply (carries_own_action MOVE)
            | apply (carries_own_action CANCEL)
            | apply (carries_own_action POINTER_1_UP)
            | apply (carries_own_action POINTER_2_UP) ];
      cbn [In]; tauto.
  - java_run; intros H; solve [reflexivity | discriminate H].
  - unfold handleTouchEventNew.
    destruct (mapController s), (nativeMap s), (isEnabled s),
      (isClickable s || isLongClickable s); cbn;
      intros H; solve [discriminate H | repeat split].
Qed.

(** X24.  The pointer that remains becomes pointer 1.  When both pointers
    are tracked and the first one lifts, the handler forwards a P1Up with
    the positions of both, and goes on with the second pointer as pointer
    1 and no pointer 2; the ACTION_MOVE that follows forwards a Move with
    the position of that pointer first and no second position. *)
Theorem lifted_first_pointer_hands_over (ev mv : MotionEvent) (s : State)
  (ax ay bx by_ cx cy : float) :
  mapController s = true -> nativeMap s = true -> isEnabled s = true ->
  isClickable s || isLongClickable s = true ->
  getActionMasked ev = ACTION_UP \/ getActionMasked ev = ACTION_POINTER_UP ->
  pointer1Id s <> INVALID_POINTER_ID ->
  pointer2Id s <> INVALID_POINTER_ID ->
  getPointerId ev (getActionIndex ev) = Some (pointer1Id s) ->
  getX ev (findPointerIndex ev (pointer1Id s)) = Some ax ->
  getY ev (findPointerIndex ev (pointer1Id s)) = Some ay ->
  getX ev (findPointerIndex ev (pointer2Id s)) = Some bx ->
  getY ev (findPointerIndex ev (pointer2Id s)) = Some by_ ->
  getActionMasked mv = ACTION_MOVE ->
  getX mv (findPointerIndex mv (pointer2Id s)) = Some cx ->
  getY mv (findPointerIndex mv (pointer2Id s)) = Some cy ->
  let h := handleTouchEventNew ev s in
  let h' := handleTouchEventNew mv (fieldsAfter h) in
  h = mkHandled true (set_pointer2Id INVALID_POINTER_ID (set_pointer1Id (pointer2Id s) s))
        [mkNativeCall NATIVE_ACTION_POINTER_1_UP ax ay bx by_]
  /\ h' = mkHandled true (fieldsAfter h)
            [mkNativeCall NATIVE_ACTION_MOVE cx cy NATIVE_NO_COORDINATE NATIVE_NO_COORDINATE].
Proof.
  intros Hc Hn He Hk Hact H1 H2 Hid Hax Hay Hbx Hby Hmv Hcx Hcy. cbv zeta.
  apply Z.eqb_neq in H1, H2.
  assert (E : handleTouchEventNew ev s
              = mkHandled true
                  (set_pointer2Id INVALID_POINTER_ID (set_pointer1Id (pointer2Id s) s))
                  [mkNativeCall NATIVE_ACTION_POINTER_1_UP ax ay bx by_]).
  { destruct Hact as [Hact|Hact]; java_unfold; rewrite Hc, Hn, He, Hk; cbn [negb orb];
      cbv beta iota; rewrite Hact; cbv beta iota; rewrite Hid; cbv beta iota; java_simpl;
      rewrite Z.eqb_refl, H2; cbn [andb]; cbv beta iota;
      rewrite Hax, Hay, Hbx, Hby; cbv beta iota; java_simpl; reflexivity. }
  rewrite E. split; [reflexivity|]. java_simpl.
  java_unfold. java_simpl. rewrite Hc, Hn, He, Hk. cbn [negb orb]. cbv beta iota.
  rewrite Hmv. cbv beta iota. java_simpl. rewrite H2, Z.eqb_refl. cbn [negb andb].
  cbv beta iota. rewrite Hcx, Hcy. cbv beta iota. java_simpl. reflexivity.
Qed.

(** X25.  What the handler ignores.  It takes the event as handled, makes
    no call and leaves its fields: for an ACTION_POINTER_DOWN on an event
    that has not exactly two pointers (a third finger), or while no
    pointer is tracked; for an ACTION_UP or ACTION_POINTER_UP of a pointer
    that is neither pointer 1 nor pointer 2; for an ACTION_MOVE while
    pointer 1 is not tracked; and for any other kind of event. *)
Theorem untracked_pointers_are_ignored (ev : MotionEvent) (s : State) (id : Z) :
  mapController s = true -> nativeMap s = true -> isEnabled s = true ->
  isClickable s || isLongClickable s = true ->
  (getActionMasked ev = ACTION_POINTER_DOWN
   /\ (getPointerCount ev <> 2%Z
       \/ (pointer1Id s = INVALID_POINTER_ID /\ pointer2Id s = INVALID_POINTER_ID)))
  \/ ((getActionMasked ev = ACTION_UP \/ getActionMasked ev = ACTION_POINTER_UP)
      /\ getPointerId ev (getActionIndex ev) = Some id
      /\ id <> pointer1Id s /\ id <> pointer2Id s)
  \/ (getActionMasked ev = ACTION_MOVE /\ pointer1Id s = INVALID_POINTER_ID)
  \/ getActionMasked ev = ACTION_OTHER ->
  handleTouchEventNew ev s = mkHandled true s [].
Proof.
  intros Hc Hn He Hk Hcase.
  java_unfold. rewrite Hc, Hn, He, Hk. cbn [negb orb]. cbv beta iota.
  destruct Hcase as [[Ha Hcnt] | [[Ha (Hid & N1 & N2)] | [[Ha H1] | Ha]]].
  - rewrite Ha. cbv beta iota. destruct Hcnt as [Hcnt | [H1 H2]].
    + apply Z.eqb_neq in Hcnt. rewrite Hcnt. reflexivity.
    + destruct (getPointerCount ev =? 2)%Z; [|reflexivity].
      cbv beta iota. java_simpl. rewrite H1, H2. cbn. reflexivity.
  - assert (E1 : (pointer1Id s =? id)%Z = false) by (apply Z.eqb_neq; congruence).
    assert (E2 : (pointer2Id s =? id)%Z = false) by (apply Z.eqb_neq; congruence).
    destruct Ha as [Ha|Ha]; rewrite Ha; cbv beta iota; rewrite Hid; cbv beta iota;
      java_simpl; rewrite E1, E2; cbn [andb]; reflexivity.
  - rewrite Ha. cbv beta iota. java_simpl. rewrite H1. cbn. reflexivity.
  - rewrite Ha. reflexivity.
Qed.

End MapViewFacts.

(** * The gestures on concrete runs *)

Import Gestures.

(** X4, witness: [update] on the engine the pinch gesture leaves: the view is not
    flinging, and [update] does nothing. *)
Lemma pinch_engine_does_not_fling :
  let th := self (run pinch Ref.engine0) in
  let v := viewOf (run pinch Ref.engine0) in
  ((forall z : Q, z == 0 -> Ref.sqrt z <= THRESHOLD_STOP_PAN)
   /\ reachable Ref.math Ref.View Ref.viewOps th)
  /\ isFlinging Ref.math Ref.View Ref.viewOps th v = false
  /\ (forall dt : Q, update Ref.math Ref.View Ref.viewOps dt th v = mkOutcome false th v [])
  /\ updates Ref.math Ref.View Ref.viewOps [1 # 10; 1 # 10] th v = mkOutcome tt th v [].
Proof.
  cbv zeta.
  assert (Hr : reachable Ref.math Ref.View Ref.viewOps (self (run pinch Ref.engine0)))
    by (apply reachable_onTouchEvents; apply reach_new).
  split; [split; [exact Ref_sqrt_at_zero | exact Hr]|].
  exact (update_is_idle_when_reachable Ref.math Ref.View Ref.viewOps
           (self (run pinch Ref.engine0)) (viewOf (run pinch Ref.engine0))
           [1 # 10; 1 # 10] Ref_sqrt_at_zero Hr).
Defined.

(** X5, witness: the pinch gesture on the engine as constructed, which has no
    listener: no call returns [true] *)
Lemma pinch_without_listener :
  unlistened Ref.engine0
  /\ Forall (fun s =>
        value (outcome s) = false
        /\ m_interactionConsumed (self (outcome s)) = false
        /\ forallb (fun c => negb (isInteractionCall c)) (calls (outcome s)) = true)
      (history Ref.math Ref.View Ref.viewOps pinch Ref.engine0 Ref.view0).
Proof.
  assert (H : unlistened Ref.engine0) by (split; reflexivity).
  split; [exact H|].
  exact (no_listener_nothing_consumed Ref.math Ref.View Ref.viewOps
           Ref.engine0 Ref.view0 pinch H).
Defined.

(** X7, witness: [doubleTapZoom] at (300, 200) on the test view *)
Lemma double_tap_zoom_at_a_point :
  let pos := mkScreenPos 300 200 in
  let elev := screenPositionToLngLat Ref.viewOps Ref.view0 (x pos) (y pos) in
  let r := doubleTapZoom Ref.math Ref.View Ref.viewOps pos Ref.engine0 Ref.view0 in
  vec2_eq (groundPointUnder Ref_groundPlane (viewOf r) pos elev)
          (groundPointUnder Ref_groundPlane Ref.view0 pos elev)
  /\ self r = set_m_velocityZoom 0 (set_m_velocityPan (glm.mk 0 0) Ref.engine0).
Proof.
  cbv zeta.
  pose proof (doubleTapZoom_keeps_tapped_point Ref.math Ref.View Ref.viewOps Ref_groundPlane
                Ref.engine0 Ref.view0 (mkScreenPos 300 200)) as (_ & _ & Hs & Hg & _).
  split; [exact Hg | exact Hs].
Defined.

(** X8, witness: a Move of the pan from (200, 100) to (250, 120), 1200 ms after the
    construction of the engine *)
Lemma pan_step_keeps_point :
  let th := self panning in
  let v := viewOf panning in
  let pos := mkScreenPos 250 120 in
  (m_gestureMode th = SINGLE_POINTER_PAN
   /\ m_interactionConsumed th = false
   /\ (DUAL_STOP_HOLD_DURATION * ticks_per_ms <= ms 1200 - m_dualPointerReleaseTime th)%Z
   /\ getPitch Ref.viewOps v <= panLimitPitch Ref.math)
  /\ (let prev := m_prevScreenPos1 th in
      let elev := screenPositionToLngLat Ref.viewOps v (x prev) (y prev) in
      let d := glm.sub (screenToGroundPlane Ref.viewOps v (x prev) (y prev) elev)
                       (screenToGroundPlane Ref.viewOps v (x pos) (y pos) elev) in
      let r := touch (at_ 1200 MOVE pos noPos) th v in
      calls r = [ViewTranslate (glm.x d) (glm.y d)]
      /\ viewOf r = translate Ref.viewOps v (glm.x d) (glm.y d)
      /\ self r = set_m_prevScreenPos1 pos th
      /\ vec2_eq (groundPointUnder Ref_groundPlane (viewOf r) pos elev)
                 (groundPointUnder Ref_groundPlane v prev elev)).
Proof.
  cbv zeta.
  assert (Hh : (DUAL_STOP_HOLD_DURATION * ticks_per_ms
                <= ms 1200 - m_dualPointerReleaseTime (self panning))%Z)
    by (vm_compute; intros H; discriminate H).
  assert (Hp : getPitch Ref.viewOps (viewOf panning) <= panLimitPitch Ref.math)
    by (apply Qleb_le; vm_compute; reflexivity).
  split; [split; [reflexivity | split; [reflexivity | split; [exact Hh | exact Hp]]]|].
  exact (singlePan_move_keeps_point_under_finger Ref.math Ref.View Ref.viewOps
           Ref_groundPlane (self panning) (viewOf panning) (mkScreenPos 250 120) noPos
           (ms 1200) (ms 1200) eq_refl eq_refl Hh Hp).
Defined.

(** X9, witness: the second finger of the two lifts during the guess, and the first
    one moves 100 ms later *)
Lemma move_after_release_waits :
  let th := self dualGuessBegun in
  let v := viewOf dualGuessBegun in
  let p1 := mkScreenPos 300 300 in
  let p2 := mkScreenPos 500 300 in
  (isDualMoveMode (m_gestureMode th) = true
   /\ (ms 1300 - ms 1200 < DUAL_STOP_HOLD_DURATION * ticks_per_ms)%Z)
  /\ (let r := touch (at_ 1200 POINTER_2_UP p1 p2) th v in
      let r' := touch (at_ 1300 MOVE (mkScreenPos 350 300) noPos) (self r) (viewOf r) in
      (m_gestureMode (self r) = SINGLE_POINTER_PAN
       /\ m_prevScreenPos1 (self r) = p1
       /\ m_dualPointerReleaseTime (self r) = ms 1200
       /\ calls r = [] /\ viewOf r = v)
      /\ (calls r' = [] /\ viewOf r' = v /\ self r' = self r)).
Proof.
  cbv zeta.
  assert (Hh : (ms 1300 - ms 1200 < DUAL_STOP_HOLD_DURATION * ticks_per_ms)%Z)
    by reflexivity.
  split; [split; [reflexivity | exact Hh]|].
  exact (moves_wait_after_dual_release Ref.math Ref.View Ref.viewOps
           (self dualGuessBegun) (viewOf dualGuessBegun) POINTER_2_UP
           (mkScreenPos 300 300) (mkScreenPos 500 300) (mkScreenPos 350 300) noPos
           (ms 1200) (ms 1200) (ms 1300) (ms 1300) eq_refl (or_intror eq_refl) Hh).
Defined.

(** X10, witness: a Move of the tilt, 30 pixels up, on the test view, whose
    [pitch] adds its argument *)
Lemma tilt_step_in_range :
  let th := self tiltBegun in
  let v := viewOf tiltBegun in
  let pos := mkScreenPos 300 310 in
  (m_gestureMode th = DUAL_POINTER_TILT
   /\ m_interactionConsumed th = false
   /\ m_tiltEnabled th = true
   /\ ~ getHeight Ref.viewOps v == 0
   /\ 0 <= getPitch Ref.viewOps v <= maxTiltPitch Ref.math Ref.viewOps v)
  /\ (let angle := - Ref.pi * (y pos - y (m_prevScreenPos1 th)) / 600 in
      let r := touch (at_ 1200 MOVE pos (mkScreenPos 500 310)) th v in
      exists d : Q,
        calls r = [ViewPitch d]
        /\ viewOf r = pitch Ref.viewOps v d
        /\ self r = set_m_prevScreenPos1 pos th
        /\ d = glm_clamp (getPitch Ref.viewOps v + angle) 0
                 (maxTiltPitch Ref.math Ref.viewOps v) - getPitch Ref.viewOps v
        /\ 0 <= getPitch Ref.viewOps v + d <= maxTiltPitch Ref.math Ref.viewOps v
        /\ (0 <= getPitch Ref.viewOps v + angle <= maxTiltPitch Ref.math Ref.viewOps v ->
            d == angle)
        /\ 0 <= getPitch Ref.viewOps (viewOf r) <= maxTiltPitch Ref.math Ref.viewOps v).
Proof.
  cbv zeta.
  assert (Hh : ~ getHeight Ref.viewOps (viewOf tiltBegun) == 0)
    by (intros E; vm_compute in E; discriminate E).
  assert (Hp : 0 <= getPitch Ref.viewOps (viewOf tiltBegun)
               <= maxTiltPitch Ref.math Ref.viewOps (viewOf tiltBegun))
    by (split; apply Qleb_le; vm_compute; reflexivity).
  split; [split; [reflexivity | split; [reflexivity | split; [reflexivity |
          split; [exact Hh | exact Hp]]]]|].
  destruct (tilt_move_keeps_pitch_in_range Ref.math Ref.View Ref.viewOps
              (self tiltBegun) (viewOf tiltBegun) (mkScreenPos 300 310) (mkScreenPos 500 310)
              (ms 1200) (ms 1200) eq_refl eq_refl eq_refl Hh Hp)
    as (d & H1 & H2 & H3 & H4 & H5 & H6 & H7).
  exists d. repeat (split; [assumption|]).
  apply H7. intros w e. reflexivity.
Defined.

(** X12, witness: a Move of the rotation under the panning mode Sticky *)
Lemma rotate_step_does_not_zoom :
  let th := self rotateBegun in
  let v := viewOf rotateBegun in
  let pos1 := mkScreenPos 310 250 in
  let pos2 := mkScreenPos 490 350 in
  ((m_gestureMode th = DUAL_POINTER_ROTATE \/ m_gestureMode th = DUAL_POINTER_SCALE)
   /\ m_interactionConsumed th = false)
  /\ (let f := calculateRotatingScalingFactor Ref.math th pos1 pos2 in
      let r := touch (at_ 1300 MOVE pos1 pos2) th v in
      let g := m_gestureMode (self r) in
      g = (if PanningMode_eqb (m_panningMode th) STICKY then
             if Qgtb f ROTATION_SCALING_FACTOR_THRESHOLD_STICKY then DUAL_POINTER_ROTATE
             else if Qltb f (- ROTATION_SCALING_FACTOR_THRESHOLD_STICKY)
                  then DUAL_POINTER_SCALE
                  else m_gestureMode th
           else m_gestureMode th)
      /\ (g = DUAL_POINTER_ROTATE \/ g = DUAL_POINTER_SCALE)
      /\ forallb (callOfPan th (GestureMode_eqb g DUAL_POINTER_ROTATE)
                               (GestureMode_eqb g DUAL_POINTER_SCALE)) (calls r) = true
      /\ (g = DUAL_POINTER_ROTATE ->
          forallb (fun c => negb (Call_isZoom c)) (calls r) = true)
      /\ (g = DUAL_POINTER_SCALE ->
          forallb (fun c => negb (Call_isYaw c)) (calls r) = true)).
Proof.
  cbv zeta.
  split; [split; [left; reflexivity | reflexivity]|].
  exact (rotate_or_scale_move Ref.math Ref.View Ref.viewOps
           (self rotateBegun) (viewOf rotateBegun) (mkScreenPos 310 250) (mkScreenPos 490 350)
           (ms 1300) (ms 1300) (or_introl eq_refl) eq_refl).
Defined.

(** X13, witness: the first Move of the guess with the pointers 1.25 inch apart in y *)
Lemma far_apart_pointers_go_free :
  let th := self dualGuessBegun in
  let v := viewOf dualGuessBegun in
  let pos1 := mkScreenPos 300 200 in
  let pos2 := mkScreenPos 500 400 in
  (m_gestureMode th = DUAL_POINTER_GUESS /\ m_interactionConsumed th = false
   /\ m_tiltEnabled th = true /\ m_rotateEnabled th || m_zoomEnabled th = true
   /\ GUESS_MAX_DELTA_Y_INCHES < std_abs (y pos1 - y pos2) / m_dpi th)
  /\ (let r := touch (at_ 1150 MOVE pos1 pos2) th v in
      (calls r = [] /\ viewOf r = v /\ value r = false)
      /\ self r = set_m_prevScreenPos2 pos2
                    (set_m_prevScreenPos1 pos1 (set_m_gestureMode DUAL_POINTER_FREE th))).
Proof.
  cbv zeta.
  assert (Hd : GUESS_MAX_DELTA_Y_INCHES
               < std_abs (y (mkScreenPos 300 200) - y (mkScreenPos 500 400))
                 / m_dpi (self dualGuessBegun))
    by (apply Qltb_lt; vm_compute; reflexivity).
  split; [repeat split; try reflexivity; exact Hd|].
  pose proof (dualGuess_shortcuts Ref.math Ref.View Ref.viewOps
                (self dualGuessBegun) (viewOf dualGuessBegun)
                (mkScreenPos 300 200) (mkScreenPos 500 400) (ms 1150) (ms 1150)
                eq_refl eq_refl) as (Hq & _ & _ & _ & Hfar).
  split; [exact Hq|]. exact (Hfar eq_refl eq_refl Hd).
Defined.

(** X14, witness: the two pointers move down together, a quarter of an inch *)
Lemma same_swipe_tilts :
  let th := self dualGuessBegun in
  let v := viewOf dualGuessBegun in
  let pos1 := ev_pos1 sameSwipe in
  let pos2 := ev_pos2 sameSwipe in
  let swipe1 := accumulatedSwipe1 th pos1 in
  let swipe2 := accumulatedSwipe2 th pos2 in
  (m_gestureMode th = DUAL_POINTER_GUESS
   /\ m_interactionConsumed th = false
   /\ m_tiltEnabled th = true
   /\ m_rotateEnabled th || m_zoomEnabled th = true
   /\ ~ m_dpi th == 0
   /\ std_abs (y pos1 - y pos2) / m_dpi th <= GUESS_MAX_DELTA_Y_INCHES
   /\ (ieee.gt (ieee_length Ref.math swipe1) GUESS_MIN_SWIPE_LENGTH_SAME_INCHES
       \/ ieee.gt (ieee_length Ref.math swipe2) GUESS_MIN_SWIPE_LENGTH_SAME_INCHES)
   /\ ieee.gt (ieee.mul (ieee.y swipe1) (ieee.y swipe2)) 0)
  /\ (let r := touch sameSwipe th v in
      self r = set_m_prevScreenPos2 pos2 (set_m_prevScreenPos1 pos1
                 (set_m_gestureMode DUAL_POINTER_TILT
                    (set_m_swipe2 swipe2 (set_m_swipe1 swipe1 th))))
      /\ calls r = [] /\ viewOf r = v).
Proof.
  cbv zeta.
  set (th := self dualGuessBegun).
  assert (Hdpi : ~ m_dpi th == 0) by (intros E; vm_compute in E; discriminate E).
  assert (Hdy : std_abs (y (ev_pos1 sameSwipe) - y (ev_pos2 sameSwipe)) / m_dpi th
                <= GUESS_MAX_DELTA_Y_INCHES)
    by (apply Qleb_le; vm_compute; reflexivity).
  assert (Hlen :
    ieee.gt (ieee_length Ref.math (accumulatedSwipe1 th (ev_pos1 sameSwipe)))
            GUESS_MIN_SWIPE_LENGTH_SAME_INCHES
    \/ ieee.gt (ieee_length Ref.math (accumulatedSwipe2 th (ev_pos2 sameSwipe)))
               GUESS_MIN_SWIPE_LENGTH_SAME_INCHES)
    by (left; vm_compute; reflexivity).
  assert (Hprod : ieee.gt (ieee.mul (ieee.y (accumulatedSwipe1 th (ev_pos1 sameSwipe)))
                                    (ieee.y (accumulatedSwipe2 th (ev_pos2 sameSwipe)))) 0)
    by (vm_compute; reflexivity).
  split; [repeat split; try assumption; vm_compute; reflexivity|].
  exact (dualGuess_same_direction_swipes Ref.math Ref.View Ref.viewOps th
           (viewOf dualGuessBegun) (ev_pos1 sameSwipe) (ev_pos2 sameSwipe)
           (ms 1150) (ms 1150) eq_refl eq_refl eq_refl eq_refl Hdpi Hdy Hlen Hprod).
Defined.

(** X16, witness: a finger that rested for 600 ms, and one that tapped for 100 ms *)
Lemma long_press_and_tap :
  let th := self fingerResting in
  let v := viewOf fingerResting in
  let pos1 := mkScreenPos 201 201 in
  m_gestureMode th = SINGLE_POINTER_CLICK_GUESS
  /\ (distance Ref.math pos1 (m_prevScreenPos1 th) < tapThresholdOf th
      /\ (LONG_PRESS_TIMEOUT <= tapDurationOf th (ms 1600))%Z
      /\ (tapDurationOf th (ms 1100) < DOUBLE_TAP_TIMEOUT)%Z)
  /\ calls (touch (at_ 1600 POINTER_1_UP pos1 noPos) th v) = clickCalls th LONG 201 201
  /\ calls (touch (at_ 1100 POINTER_1_UP pos1 noPos) th v) = clickCalls th SINGLE 201 201
  /\ clickCalls th LONG 201 201 = [OnMapClick LONG 201 201 false].
Proof.
  cbv zeta.
  assert (Hd : distance Ref.math (mkScreenPos 201 201) (m_prevScreenPos1 (self fingerResting))
               < tapThresholdOf (self fingerResting))
    by (apply Qltb_lt; vm_compute; reflexivity).
  assert (Hl : (LONG_PRESS_TIMEOUT <= tapDurationOf (self fingerResting) (ms 1600))%Z)
    by (vm_compute; intros H; discriminate H).
  assert (Hs : (tapDurationOf (self fingerResting) (ms 1100) < DOUBLE_TAP_TIMEOUT)%Z)
    by reflexivity.
  split; [reflexivity|]. split; [split; [exact Hd | split; [exact Hl | exact Hs]]|].
  pose proof (p1Up_reports_tap_or_long_press Ref.math Ref.View Ref.viewOps
                (self fingerResting) (viewOf fingerResting) (mkScreenPos 201 201) noPos
                (ms 1600) (ms 1600) eq_refl) as (_ & _ & Hlong & _ & _).
  pose proof (p1Up_reports_tap_or_long_press Ref.math Ref.View Ref.viewOps
                (self fingerResting) (viewOf fingerResting) (mkScreenPos 201 201) noPos
                (ms 1100) (ms 1100) eq_refl) as (_ & _ & _ & Hshort & _).
  split; [exact (Hlong Hd Hl)|]. split; [exact (Hshort Hd Hs) | reflexivity].
Defined.


(** X18, witness: a Move of the pinch: the two fingers move apart *)
Lemma pinch_step_is_anchored :
  let th := self pinchBegun in
  let v := viewOf pinchBegun in
  let pos1 := mkScreenPos 280 180 in
  let pos2 := mkScreenPos 520 420 in
  (m_gestureMode th = DUAL_POINTER_FREE
   /\ m_interactionConsumed th = false
   /\ m_panEnabled th = true /\ m_zoomEnabled th = true /\ m_rotateEnabled th = false
   /\ getPitch Ref.viewOps v <= panLimitPitch Ref.math
   /\ 0 < distance Ref.math (m_prevScreenPos2 th) (m_prevScreenPos1 th)
   /\ 0 < distance Ref.math pos2 pos1)
  /\ (let pc := centreOf (m_prevScreenPos1 th) (m_prevScreenPos2 th) in
      let cc := centreOf pos1 pos2 in
      let elev1 := screenPositionToLngLat Ref.viewOps v (x pc) (y pc) in
      let t := glm.sub (screenToGroundPlane Ref.viewOps v (x pc) (y pc) elev1)
                       (screenToGroundPlane Ref.viewOps v (x cc) (y cc) elev1) in
      let v1 := translate Ref.viewOps v (glm.x t) (glm.y t) in
      let elev2 := screenPositionToLngLat Ref.viewOps v1 (x cc) (y cc) in
      let r := touch (at_ 1200 MOVE pos1 pos2) th v in
      length (calls r) = 3%nat
      /\ self r = set_m_prevScreenPos2 pos2 (set_m_prevScreenPos1 pos1 th)
      /\ vec2_eq (groundPointUnder Ref_groundPlane v1 cc elev1)
                 (groundPointUnder Ref_groundPlane v pc elev1)
      /\ vec2_eq (groundPointUnder Ref_groundPlane (viewOf r) cc elev2)
                 (groundPointUnder Ref_groundPlane v1 cc elev2)).
Proof.
  cbv zeta.
  assert (Hp : getPitch Ref.viewOps (viewOf pinchBegun) <= panLimitPitch Ref.math)
    by (apply Qleb_le; vm_compute; reflexivity).
  assert (Hd1 : 0 < distance Ref.math (m_prevScreenPos2 (self pinchBegun))
                      (m_prevScreenPos1 (self pinchBegun)))
    by (apply Qltb_lt; vm_compute; reflexivity).
  assert (Hd2 : 0 < distance Ref.math (mkScreenPos 520 420) (mkScreenPos 280 180))
    by (apply Qltb_lt; vm_compute; reflexivity).
  split; [repeat split; try assumption; reflexivity|].
  pose proof (pinch_move_is_anchored_at_centre Ref.math Ref.View Ref.viewOps Ref_groundPlane
                (self pinchBegun) (viewOf pinchBegun) (mkScreenPos 280 180)
                (mkScreenPos 520 420) (ms 1200) (ms 1200)
                eq_refl eq_refl eq_refl eq_refl eq_refl Hp Hd1 Hd2)
    as (Hc & _ & Hs & G1 & G2).
  split; [unfold touch, dispatch, at_; cbn [ev_action ev_pos1 ev_pos2 ev_now ev_later];
          rewrite Hc; reflexivity|].
  split; [exact Hs|]. split; [exact G1 | exact G2].
Defined.

(** X19, witness: a double tap at (200, 200) on the engine with the passive click
    listener: two clicks are reported, and the map zooms in *)
Lemma double_tap_on_listening_engine :
  let th := listening in
  let p := mkScreenPos 200 200 in
  (m_mapInteractionListener th = None
   /\ m_doubleTapDragEnabled th = true
   /\ continuesTap Ref.math th p (ms 1000) = false
   /\ (duration_cast_ms (ms 1050 - ms 1000) < DOUBLE_TAP_TIMEOUT)%Z
   /\ distance Ref.math p p < tapThresholdOf th
   /\ (duration_cast_ms (ms 1150 - ms 1000) < DOUBLE_TAP_TIMEOUT)%Z
   /\ (duration_cast_ms (ms 1200 - ms 1150) < DOUBLE_TAP_TIMEOUT)%Z)
  /\ (let r := run [ at_ 1000 POINTER_1_DOWN p noPos; at_ 1050 POINTER_1_UP p noPos;
                     at_ 1150 POINTER_1_DOWN p noPos; at_ 1200 POINTER_1_UP p noPos ] th in
      calls r = [OnMapClick SINGLE 200 200 false; OnMapClick DOUBLE 200 200 false;
                 MapHandleDoubleTapGesture 200 200 false]
      /\ viewOf r = applyCalls Ref.viewOps (calls r) Ref.view0
      /\ m_gestureMode (self r) = SINGLE_POINTER_CLICK_GUESS
      /\ m_interactionConsumed (self r) = false).
Proof.
  cbv zeta.
  assert (Hd : distance Ref.math (mkScreenPos 200 200) (mkScreenPos 200 200)
               < tapThresholdOf listening)
    by (apply Qltb_lt; vm_compute; reflexivity).
  split; [repeat split; try exact Hd; reflexivity|].
  exact (double_tap_zooms_in Ref.math Ref.View Ref.viewOps listening Ref.view0
           (mkScreenPos 200 200) (mkScreenPos 200 200) (mkScreenPos 200 200)
           (mkScreenPos 200 200) noPos noPos noPos noPos
           (ms 1000) (ms 1050) (ms 1150) (ms 1200) (ms 1000) (ms 1050) (ms 1150) (ms 1200)
           eq_refl eq_refl eq_refl eq_refl Hd eq_refl Hd eq_refl Hd).
Defined.

(** X20, witness: the same double tap with double-tap drag disabled: two single taps *)
Lemma double_tap_on_engine_without_drag :
  let th := withoutDrag in
  let p := mkScreenPos 200 200 in
  (m_doubleTapDragEnabled th = false
   /\ m_doubleTapEnabled th = true
   /\ continuesTap Ref.math th p (ms 1000) = false
   /\ (duration_cast_ms (ms 1050 - ms 1000) < DOUBLE_TAP_TIMEOUT)%Z
   /\ distance Ref.math p p < tapThresholdOf th
   /\ (duration_cast_ms (ms 1150 - ms 1000) < DOUBLE_TAP_TIMEOUT)%Z
   /\ (duration_cast_ms (ms 1200 - ms 1150) < DOUBLE_TAP_TIMEOUT)%Z)
  /\ (let r := run [ at_ 1000 POINTER_1_DOWN p noPos; at_ 1050 POINTER_1_UP p noPos;
                     at_ 1150 POINTER_1_DOWN p noPos; at_ 1200 POINTER_1_UP p noPos ] th in
      calls r = [OnMapClick SINGLE 200 200 false; OnMapClick SINGLE 200 200 false]
      /\ viewOf r = Ref.view0
      /\ m_gestureMode (self r) = SINGLE_POINTER_CLICK_GUESS).
Proof.
  cbv zeta.
  assert (Hd : distance Ref.math (mkScreenPos 200 200) (mkScreenPos 200 200)
               < tapThresholdOf withoutDrag)
    by (apply Qltb_lt; vm_compute; reflexivity).
  split; [repeat split; try exact Hd; reflexivity|].
  exact (double_tap_without_drag_is_two_taps Ref.math Ref.View Ref.viewOps withoutDrag
           Ref.view0 (mkScreenPos 200 200) (mkScreenPos 200 200) (mkScreenPos 200 200)
           (mkScreenPos 200 200) noPos noPos noPos noPos
           (ms 1000) (ms 1050) (ms 1150) (ms 1200) (ms 1000) (ms 1050) (ms 1150) (ms 1200)
           eq_refl eq_refl eq_refl Hd eq_refl Hd eq_refl Hd).
Defined.

(** X21, witness: a dual tap with the fingers at (200, 200) and (300, 200) *)
Lemma dual_tap_on_listening_engine :
  let th := listening in
  let p := mkScreenPos 200 200 in
  let d := mkScreenPos 300 200 in
  (continuesTap Ref.math th p (ms 1000) = false
   /\ (duration_cast_ms (ms 1100 - ms 1000) < DOUBLE_TAP_TIMEOUT)%Z
   /\ (duration_cast_ms (ms 1150 - ms 1000) < DOUBLE_TAP_TIMEOUT)%Z
   /\ distance Ref.math p p < tapThresholdOf th)
  /\ (let r := run [ at_ 1000 POINTER_1_DOWN p noPos; at_ 1050 POINTER_2_DOWN p d;
                     at_ 1100 POINTER_2_UP p d; at_ 1150 POINTER_1_UP p noPos ] th in
      calls r = [OnMapClick DUAL ((200 + 300) / 2) ((200 + 200) / 2) false;
                 MapHandleDoubleTapGesture ((200 + 300) / 2) ((200 + 200) / 2) true;
                 OnMapClick SINGLE 200 200 false]
      /\ viewOf r = applyCalls Ref.viewOps (calls r) Ref.view0
      /\ m_gestureMode (self r) = SINGLE_POINTER_CLICK_GUESS).
Proof.
  cbv zeta.
  assert (Hd : distance Ref.math (mkScreenPos 200 200) (mkScreenPos 200 200)
               < tapThresholdOf listening)
    by (apply Qltb_lt; vm_compute; reflexivity).
  split; [repeat split; try exact Hd; reflexivity|].
  exact (dual_tap_zooms_out Ref.math Ref.View Ref.viewOps listening Ref.view0
           (mkScreenPos 200 200) noPos (mkScreenPos 200 200) (mkScreenPos 300 200)
           (mkScreenPos 200 200) (mkScreenPos 300 200) (mkScreenPos 200 200) noPos
           (ms 1000) (ms 1050) (ms 1100) (ms 1150) (ms 1000) (ms 1050) (ms 1100) (ms 1150)
           eq_refl eq_refl eq_refl Hd).
Defined.

(** X27, witness: a finger that rests at (200, 200) drags to (300, 200): the pan
    begins, and nothing is panned yet *)
Lemma drag_begins_a_pan :
  let th := self fingerResting in
  let v := viewOf fingerResting in
  let pos1 := mkScreenPos 300 200 in
  (m_interactionConsumed th = false
   /\ m_gestureMode th = SINGLE_POINTER_CLICK_GUESS
   /\ tapThresholdOf th < distance Ref.math pos1 (m_prevScreenPos1 th)
   /\ m_panEnabled th = true)
  /\ (let r := touch (at_ 1100 MOVE pos1 noPos) th v in
      calls r = [] /\ viewOf r = v /\ value r = false
      /\ m_interactionConsumed (self r) = false
      /\ m_gestureMode (self r) = SINGLE_POINTER_PAN
      /\ m_prevScreenPos1 (self r) = pos1).
Proof.
  cbv zeta.
  assert (Hd : tapThresholdOf (self fingerResting)
               < distance Ref.math (mkScreenPos 300 200) (m_prevScreenPos1 (self fingerResting)))
    by (apply Qltb_lt; vm_compute; reflexivity).
  split; [repeat split; try exact Hd; reflexivity|].
  pose proof (move_starts_gesture Ref.math Ref.View Ref.viewOps
                (self fingerResting) (viewOf fingerResting) (mkScreenPos 300 200) noPos
                (ms 1100) (ms 1100) eq_refl) as [Hs _].
  destruct (Hs eq_refl) as [_ Hpan].
  exact (Hpan Hd eq_refl).
Defined.

(** the events of the platform give the ids 0, 1 and 2 *)
Lemma ids_of_eventOf (a : MapView.MaskedAction) (i : Z) (pointers : list (Z * ScreenPos)) :
  Forall (fun p => fst p <> MapView.INVALID_POINTER_ID) pointers ->
  MapView.idsAreValid (eventOf a i pointers).
Proof.
  intros H k id. unfold eventOf, pointerAt. cbn [MapView.getPointerId].
  destruct (k <? 0)%Z; [discriminate|].
  destruct (nth_error pointers (Z.to_nat k)) as [q|] eqn:E; [|discriminate].
  cbn. intros Hq. injection Hq as <-.
  apply nth_error_In in E. rewrite Forall_forall in H. exact (H q E).
Qed.

(** X22, witness: two fingers go down, and a third one beside them: pointer 2 is
    tracked beside pointer 1, and pointer 1 stays *)
Lemma two_fingers_are_tracked :
  (Forall MapView.idsAreValid twoFingersDown
   /\ MapView.idsAreValid thirdFingerDown
   /\ MapView.pointer2BesidePointer1 MapView.created)
  /\ MapView.pointer2BesidePointer1 twoTracked
  /\ MapView.pointer2BesidePointer1
       (MapView.fieldsAfter (MapView.handleTouchEventNew thirdFingerDown twoTracked))
  /\ (MapView.getActionMasked thirdFingerDown = MapView.ACTION_POINTER_DOWN ->
      MapView.pointer1Id
        (MapView.fieldsAfter (MapView.handleTouchEventNew thirdFingerDown twoTracked))
      = MapView.pointer1Id twoTracked).
Proof.
  assert (H1 : Forall MapView.idsAreValid twoFingersDown).
  { repeat constructor; apply ids_of_eventOf; repeat constructor; discriminate. }
  assert (H2 : MapView.idsAreValid thirdFingerDown).
  { apply ids_of_eventOf; repeat constructor; discriminate. }
  assert (H3 : MapView.pointer2BesidePointer1 MapView.created).
  { intros H. exfalso. apply H. reflexivity. }
  split; [split; [exact H1 | split; [exact H2 | exact H3]]|].
  exact (MapViewFacts.pointer2_is_tracked_beside_pointer1 twoFingersDown MapView.created
           thirdFingerDown H1 H2 H3).
Defined.

(** X24, witness: the first of two fingers lifts, and the other one moves *)
Lemma first_finger_lifts :
  let s := twoTracked in
  let h := MapView.handleTouchEventNew firstFingerUp s in
  let h' := MapView.handleTouchEventNew otherFingerMoves (MapView.fieldsAfter h) in
  (MapView.pointer1Id s = 0%Z /\ MapView.pointer2Id s = 1%Z)
  /\ h = MapView.mkHandled true
           (MapView.set_pointer2Id MapView.INVALID_POINTER_ID
              (MapView.set_pointer1Id (MapView.pointer2Id s) s))
           [MapView.mkNativeCall MapView.NATIVE_ACTION_POINTER_1_UP 310 300 500 300]
  /\ h' = MapView.mkHandled true (MapView.fieldsAfter h)
            [MapView.mkNativeCall MapView.NATIVE_ACTION_MOVE 520 310
               MapView.NATIVE_NO_COORDINATE MapView.NATIVE_NO_COORDINATE].
Proof.
  cbv zeta. split; [split; reflexivity|].
  exact (MapViewFacts.lifted_first_pointer_hands_over firstFingerUp otherFingerMoves
           twoTracked 310 300 500 300 520 310
           eq_refl eq_refl eq_refl eq_refl (or_intror eq_refl)
           ltac:(discriminate) ltac:(discriminate)
           eq_refl eq_refl eq_refl eq_refl eq_refl eq_refl eq_refl eq_refl).
Defined.

(** X25, witness: a third finger goes down beside the two that are tracked *)
Lemma third_finger_is_ignored :
  (MapView.getActionMasked thirdFingerDown = MapView.ACTION_POINTER_DOWN
   /\ MapView.getPointerCount thirdFingerDown = 3%Z)
  /\ MapView.handleTouchEventNew thirdFingerDown twoTracked
     = MapView.mkHandled true twoTracked [].
Proof.
  split; [split; reflexivity|].
  apply (MapViewFacts.untracked_pointers_are_ignored thirdFingerDown twoTracked 0%Z
           eq_refl eq_refl eq_refl eq_refl).
  left. split; [reflexivity|]. left. discriminate.
Defined.
